(** * Seat Heater Control System: a shallow embedding of [main.c]

    The development follows [main.c] of the Seat Heater Control System
    (TM4C123GH6PM, FreeRTOS).  Every task body (one pass through its
    [for (;;)] loop) and every interrupt handler is a computation in a small
    monad over the globals of [main.c] and the kernel objects it creates
    (queues, binary semaphores, event groups).  A pass that would stay in a
    wait-forever kernel call ([portMAX_DELAY]) has no result ([None]).

    Conventions
    - [uint8] globals are integers kept in [0, 256) by [uint8] at every store;
    - the driver and the passenger copies of a task differ only in the names
      of the globals they touch, so the copies are one definition indexed by
      [Seat]; where the two copies differ (button bits, order of the
      statements in the diagnostic tasks) they are separate definitions;
    - the sensor reading ([LM35_getTemperature]) and the time stamp
      ([GPTM_WTimer0Read]) come from peripheral drivers and are inputs;
    - a handler or a task pass is executed as one step and no statement of
      another task runs inside it; the mutexes of [main.c] are not modelled.
      (A heater pass holds the four mutexes of its seat from its first test
      to its last LED write; the sensor tasks have the highest priority and a
      diagnostic task takes the heater-state mutex before it writes.)  The
      pass of a button task is also given in two steps ([Fine]), split where
      [xEventGroupWaitBits] has cleared the bits and the desired temperature
      is not yet stored;
    - a sensor pass that finds its queue full waits in [xQueueSend] after it
      has stored the sample and the fault flag.  Such a pass has no result
      here and the model does not follow it: the statements about a pass
      that sends take a free slot in the queue ([has_room]);
    - a store past the end of the diagnostic array overwrites memory that
      the source does not determine: the statements about reachable states
      are made for the states before such a store ([in_bounds]). *)

From Stdlib Require Import ZArith List Bool Lia.
From Stdlib Require String Ascii.
From stdpp Require Import base list.
Import ListNotations.
Local Open Scope Z_scope.

(** ** Constants of [main.c] *)

Definition mainSW1_INTERRUPT_BIT : Z := Z.shiftl 1 0.
Definition mainSW2_INTERRUPT_BIT : Z := Z.shiftl 1 0.
Definition mainSW3_INTERRUPT_BIT : Z := Z.shiftl 1 1.

Definition mainHEATER_STATE_OFF : Z := 0.
Definition mainHEATER_STATE_LOW : Z := 1.
Definition mainHEATER_STATE_MEDIUM : Z := 2.
Definition mainHEATER_STATE_HIGH : Z := 3.

Definition mainHEATING_LEVEL_OFF : Z := 0.
Definition mainHEATING_LEVEL_LOW : Z := 1.
Definition mainHEATING_LEVEL_MEDIUM : Z := 2.
Definition mainHEATING_LEVEL_HIGH : Z := 3.

Definition mainTEMP_MAX_VALID_RANGE : Z := 40.
Definition mainTEMP_MIN_VALID_RANGE : Z := 5.

Definition mainDESIRED_TEMP_OFF : Z := 0.
Definition mainDESIRED_TEMP_LOW : Z := 25.
Definition mainDESIRED_TEMP_MEDIUM : Z := 30.
Definition mainDESIRED_TEMP_HIGH : Z := 35.

Definition mainTEMP_OVER_RANGE_FAIL : Z := 0x44.
Definition mainTEMP_UNDER_RANGE_FAIL : Z := 0x55.
Definition mainDRIVER_SEAT_FAIL : Z := 0x66.
Definition mainPASSENGER_SEAT_FAIL : Z := 0x77.

Definition mainDIAGNOSTIC_SIZE : Z := 5.

Definition mainTEMP_DIFF_LOW_THRESHOLD : Z := 2.
Definition mainTEMP_DIFF_MEDIUM_THRESHOLD : Z := 5.
Definition mainTEMP_DIFF_HIGH_THRESHOLD : Z := 10.

Definition mainTOTAL_HEATING_LEVELS : Z := 4.

(** FreeRTOS truth values ([projdefs.h]). *)
Definition pdFALSE : Z := 0.
Definition pdTRUE : Z := 1.

(** ** Machine integers *)

Definition uint8 (z : Z) : Z := z mod 256.
Definition uint32 (z : Z) : Z := z mod 4294967296.

(** ** Data *)

Inductive Seat : Type := Driver | Passenger.

Definition Seat_eqb (a b : Seat) : bool :=
  match a, b with
  | Driver, Driver | Passenger, Passenger => true
  | _, _ => false
  end.

(** The [uint8] variables that exist once per seat.  [HeatingLevel] of
    [Driver] is [ucDriverHeatingLevel], [ErrorFlag] of [Passenger] is
    [ucPassengerErrorFlag], and so on; [PrevHeaterState] is the local
    [ucPrevDriverHeaterState] / [ucPrevPassengerHeaterState] of the heater
    task, which lives across the passes of its loop. *)
Inductive Var : Type :=
| HeatingLevel
| DesiredTemperature
| TemperatureValue
| HeaterState
| ErrorFlag
| PrevHeaterState.

Definition Var_eqb (a b : Var) : bool :=
  match a, b with
  | HeatingLevel, HeatingLevel
  | DesiredTemperature, DesiredTemperature
  | TemperatureValue, TemperatureValue
  | HeaterState, HeaterState
  | ErrorFlag, ErrorFlag
  | PrevHeaterState, PrevHeaterState => true
  | _, _ => false
  end.

(** [struct xFailureLog]. *)
Record xFailureLog : Type := mkFailureLog {
  uiTimeStamp : Z;
  ucFailureCode : Z;
  ucFailureSeat : Z;
  ucHeatingLevel : Z
}.

(** The LEDs driven through [Led.c]; index 1 is the driver's, 2 the
    passenger's. *)
Inductive LedId : Type :=
| RED (seat : Seat)
| GREEN (seat : Seat)
| BLUE (seat : Seat).

Definition LED_ON : bool := true.
Definition LED_OFF : bool := false.

(** What a pass does to the world outside its own locals, in program order. *)
Inductive Effect : Type :=
| Write (seat : Seat) (x : Var) (v : Z)
| DioWrite (led : LedId) (level : bool)
| QueueSend (seat : Seat) (xlog : xFailureLog)
| QueueReceive (seat : Seat) (xlog : xFailureLog)
| SemaphoreGive (seat : Seat)
| SemaphoreTake (seat : Seat)
| EventSetBits (seat : Seat) (bits : Z)
| EventWaitBits (seat : Seat) (bits : Z)
| DiagnosticStore (index : Z) (xlog : xFailureLog).

(** The globals and kernel objects of [main.c].
    - [mem]: the per-seat [uint8] variables;
    - [xDiagnosticQueue]: records sent and not yet received, oldest first.
      [xQueueSend] is called with [portMAX_DELAY]: it returns once the record
      is in, so a completed pass has always queued its record; the length 3
      given to [xQueueCreate] only bounds how long the sender waits;
    - [xErrorReportSemaphore]: binary semaphore, [true] when given;
    - [xButtonsEventGroup]: bits of [xDriverButtonsEventGroup] /
      [xPassengerButtonEventGroup];
    - [xDiagnosticArray]: the [mainDIAGNOSTIC_SIZE] slots;
    - [xBeyondArray]: stores to [xDiagnosticArray[i]] with [i] outside the
      array, as (index, record), in program order. *)
Record State : Type := mkState {
  mem : Seat -> Var -> Z;
  xDiagnosticQueue : Seat -> list xFailureLog;
  xErrorReportSemaphore : Seat -> bool;
  xButtonsEventGroup : Seat -> Z;
  xDiagnosticArray : list xFailureLog;
  ucDiagnosticIndex : Z;
  xBeyondArray : list (Z * xFailureLog)
}.

Definition upd_seat {A : Type} (seat : Seat) (a : A) (f : Seat -> A) : Seat -> A :=
  fun seat' => if Seat_eqb seat' seat then a else f seat'.

Definition upd_mem (seat : Seat) (x : Var) (v : Z) (m : Seat -> Var -> Z)
  : Seat -> Var -> Z :=
  fun seat' x' => if Seat_eqb seat' seat && Var_eqb x' x then v else m seat' x'.

Definition set_mem (m : Seat -> Var -> Z) (s : State) : State :=
  mkState m (xDiagnosticQueue s) (xErrorReportSemaphore s) (xButtonsEventGroup s)
          (xDiagnosticArray s) (ucDiagnosticIndex s) (xBeyondArray s).

Definition set_queue (q : Seat -> list xFailureLog) (s : State) : State :=
  mkState (mem s) q (xErrorReportSemaphore s) (xButtonsEventGroup s)
          (xDiagnosticArray s) (ucDiagnosticIndex s) (xBeyondArray s).

Definition set_semaphore (b : Seat -> bool) (s : State) : State :=
  mkState (mem s) (xDiagnosticQueue s) b (xButtonsEventGroup s)
          (xDiagnosticArray s) (ucDiagnosticIndex s) (xBeyondArray s).

Definition set_events (e : Seat -> Z) (s : State) : State :=
  mkState (mem s) (xDiagnosticQueue s) (xErrorReportSemaphore s) e
          (xDiagnosticArray s) (ucDiagnosticIndex s) (xBeyondArray s).

Definition set_diagnostic (a : list xFailureLog) (i : Z) (b : list (Z * xFailureLog))
  (s : State) : State :=
  mkState (mem s) (xDiagnosticQueue s) (xErrorReportSemaphore s)
          (xButtonsEventGroup s) a i b.

(** Static storage is zero-initialised; [ucPrev...HeaterState] starts at
    [0xFF] before the heater loop is entered. *)
Definition zero_log : xFailureLog := mkFailureLog 0 0 0 0.

Definition init : State :=
  {| mem := fun _ x => match x with PrevHeaterState => 0xFF | _ => 0 end;
     xDiagnosticQueue := fun _ => [];
     xErrorReportSemaphore := fun _ => false;
     xButtonsEventGroup := fun _ => 0;
     xDiagnosticArray := replicate (Z.to_nat mainDIAGNOSTIC_SIZE) zero_log;
     ucDiagnosticIndex := 0;
     xBeyondArray := [] |}.

(** ** The task monad *)

Definition Task (A : Type) : Type := State -> option (A * State * list Effect).

Definition ret {A : Type} (a : A) : Task A := fun s => Some (a, s, []).

Definition bind {A B : Type} (m : Task A) (k : A -> Task B) : Task B :=
  fun s =>
    match m s with
    | None => None
    | Some (a, s1, t1) =>
        match k a s1 with
        | None => None
        | Some (b, s2, t2) => Some (b, s2, t1 ++ t2)
        end
    end.

Declare Scope task_scope.
Delimit Scope task_scope with task.
Notation "x <- m ; k" := (bind m (fun x => k))
  (at level 20, m at level 100, k at level 200, only parsing) : task_scope.
Notation "m ;; k" := (bind m (fun _ => k))
  (at level 100, k at level 200, right associativity, only parsing) : task_scope.
Local Open Scope task_scope.

Definition emit (e : Effect) : Task unit := fun s => Some (tt, s, [e]).

(** Read of a per-seat variable. *)
Definition load (seat : Seat) (x : Var) : Task Z :=
  fun s => Some (mem s seat x, s, []).

(** Assignment to a per-seat [uint8] variable. *)
Definition assign (seat : Seat) (x : Var) (v : Z) : Task unit :=
  fun s => Some (tt, set_mem (upd_mem seat x (uint8 v) (mem s)) s,
                 [Write seat x (uint8 v)]).

(** ** Kernel calls and LED driver *)

(** The length both queues are created with in [main]:
    [xQueueCreate(3, sizeof(xFailureLog))]. *)
Definition uxQueueLength : Z := 3.

(** [xQueueSend(q, &xlog, portMAX_DELAY)]: with a free slot the record is
    stored at the back of the queue; with the queue full the call waits. *)
Definition xQueueSend (seat : Seat) (xlog : xFailureLog) : Task unit :=
  fun s =>
    if Z.of_nat (length (xDiagnosticQueue s seat)) <? uxQueueLength then
      Some (tt, set_queue (upd_seat seat (xDiagnosticQueue s seat ++ [xlog])
                                    (xDiagnosticQueue s)) s,
            [QueueSend seat xlog])
    else None.

(** [xQueueReceive(q, &xlog, portMAX_DELAY)]: waits for a record. *)
Definition xQueueReceive (seat : Seat) : Task xFailureLog :=
  fun s =>
    match xDiagnosticQueue s seat with
    | [] => None
    | xlog :: rest =>
        Some (xlog, set_queue (upd_seat seat rest (xDiagnosticQueue s)) s,
              [QueueReceive seat xlog])
    end.

(** [xSemaphoreGive] on a binary semaphore: giving a given semaphore changes
    nothing. *)
Definition xSemaphoreGive (seat : Seat) : Task unit :=
  fun s => Some (tt, set_semaphore (upd_seat seat true (xErrorReportSemaphore s)) s,
                 [SemaphoreGive seat]).

(** [xSemaphoreTake(sem, portMAX_DELAY)]: waits until the semaphore is
    given. *)
Definition xSemaphoreTake (seat : Seat) : Task unit :=
  fun s =>
    if xErrorReportSemaphore s seat
    then Some (tt, set_semaphore (upd_seat seat false (xErrorReportSemaphore s)) s,
               [SemaphoreTake seat])
    else None.

(** [xEventGroupSetBitsFromISR(group, bits, &woken)].  The kernel defers the
    update to its daemon task; here the bits are set at once. *)
Definition xEventGroupSetBitsFromISR (seat : Seat) (bits : Z) : Task unit :=
  fun s => Some (tt, set_events (upd_seat seat (Z.lor (xButtonsEventGroup s seat) bits)
                                          (xButtonsEventGroup s)) s,
                 [EventSetBits seat bits]).

(** [xEventGroupWaitBits(group, bits, pdTRUE, pdFALSE, portMAX_DELAY)]: waits
    until one of [bits] is set, returns the group's value and clears [bits]. *)
Definition xEventGroupWaitBits (seat : Seat) (bits : Z) : Task Z :=
  fun s =>
    let v := xButtonsEventGroup s seat in
    if Z.land v bits =? 0 then None
    else Some (v, set_events (upd_seat seat (Z.ldiff v bits) (xButtonsEventGroup s)) s,
               [EventWaitBits seat v]).

(** [Led.c]: each function is one [Dio_WriteChannel]. *)
Definition Led_RED_SetOn (seat : Seat) : Task unit := emit (DioWrite (RED seat) LED_ON).
Definition Led_RED_SetOff (seat : Seat) : Task unit := emit (DioWrite (RED seat) LED_OFF).
Definition Led_GREEN_SetOn (seat : Seat) : Task unit := emit (DioWrite (GREEN seat) LED_ON).
Definition Led_GREEN_SetOff (seat : Seat) : Task unit := emit (DioWrite (GREEN seat) LED_OFF).
Definition Led_BLUE_SetOn (seat : Seat) : Task unit := emit (DioWrite (BLUE seat) LED_ON).
Definition Led_BLUE_SetOff (seat : Seat) : Task unit := emit (DioWrite (BLUE seat) LED_OFF).

(** ** Tasks of [main.c] *)

Definition seat_fail (seat : Seat) : Z :=
  match seat with
  | Driver => mainDRIVER_SEAT_FAIL
  | Passenger => mainPASSENGER_SEAT_FAIL
  end.

(** One pass of [vDriverSensorProcessTask] / [vPassengerSensorsProcessTask].
    [reading] is what [LM35_getTemperature] returns in this pass, [now] what
    [GPTM_WTimer0Read] would return.  [xlog.ucFailureCode] is assigned under
    [if (t > MAX) ... else if (t < MIN) ...] and left as it was otherwise;
    inside the enclosing test one of the two always holds, and the last
    branch below (value 0) is never taken. *)
Definition vSensorProcessTask (seat : Seat) (reading now : Z) : Task unit :=
  assign seat TemperatureValue reading ;;
  t <- load seat TemperatureValue ;
  if (t >? mainTEMP_MAX_VALID_RANGE) || (t <? mainTEMP_MIN_VALID_RANGE) then
    flag <- load seat ErrorFlag ;
    if flag =? 0 then
      level <- load seat HeatingLevel ;
      t' <- load seat TemperatureValue ;
      let xlog :=
        {| uiTimeStamp := uint32 now;
           ucHeatingLevel := level;
           ucFailureCode :=
             if t' >? mainTEMP_MAX_VALID_RANGE then mainTEMP_OVER_RANGE_FAIL
             else if t' <? mainTEMP_MIN_VALID_RANGE then mainTEMP_UNDER_RANGE_FAIL
             else 0;
           ucFailureSeat := seat_fail seat |} in
      assign seat ErrorFlag pdTRUE ;;
      xQueueSend seat xlog ;;
      xSemaphoreGive seat
    else ret tt
  else
    flag <- load seat ErrorFlag ;
    if negb (flag =? 0) then
      assign seat ErrorFlag pdFALSE ;;
      Led_RED_SetOff seat
    else ret tt.

Definition vDriverSensorProcessTask := vSensorProcessTask Driver.
Definition vPassengerSensorsProcessTask := vSensorProcessTask Passenger.

(** The [if / else if] chain that both button tasks run under the
    desired-temperature mutex. *)
Definition set_desired_from_level (seat : Seat) : Task unit :=
  level <- load seat HeatingLevel ;
  if level =? mainHEATING_LEVEL_OFF then
    assign seat DesiredTemperature mainDESIRED_TEMP_OFF
  else if level =? mainHEATING_LEVEL_LOW then
    assign seat DesiredTemperature mainDESIRED_TEMP_LOW
  else if level =? mainHEATING_LEVEL_MEDIUM then
    assign seat DesiredTemperature mainDESIRED_TEMP_MEDIUM
  else if level =? mainHEATING_LEVEL_HIGH then
    assign seat DesiredTemperature mainDESIRED_TEMP_HIGH
  else ret tt.

(** The local constant [xBitsToWaitFor] of the two button tasks. *)
Definition xBitsToWaitFor (seat : Seat) : Z :=
  match seat with
  | Driver => Z.lor mainSW1_INTERRUPT_BIT mainSW3_INTERRUPT_BIT
  | Passenger => mainSW2_INTERRUPT_BIT
  end.

(** One pass of [vDriverButtonsProcessTask], taken as one step; the same
    pass in two steps is [ButtonsWoken] and [ButtonsUpdate] of [fine_fire]. *)
Definition vDriverButtonsProcessTask : Task unit :=
  value <- xEventGroupWaitBits Driver (xBitsToWaitFor Driver) ;
  if negb (Z.land value mainSW1_INTERRUPT_BIT =? 0)
     || negb (Z.land value mainSW3_INTERRUPT_BIT =? 0)
  then set_desired_from_level Driver
  else ret tt.

(** One pass of [vPassengerButtonProcessTask]. *)
Definition vPassengerButtonProcessTask : Task unit :=
  value <- xEventGroupWaitBits Passenger (xBitsToWaitFor Passenger) ;
  if negb (Z.land value mainSW2_INTERRUPT_BIT =? 0)
  then set_desired_from_level Passenger
  else ret tt.

Definition vButtonsProcessTask (seat : Seat) : Task unit :=
  match seat with
  | Driver => vDriverButtonsProcessTask
  | Passenger => vPassengerButtonProcessTask
  end.

(** The [switch (uc...HeaterState)] that drives the two intensity LEDs. *)
Definition drive_heater_leds (seat : Seat) (state : Z) : Task unit :=
  if state =? mainHEATER_STATE_LOW then
    Led_GREEN_SetOn seat ;; Led_BLUE_SetOff seat
  else if state =? mainHEATER_STATE_MEDIUM then
    Led_GREEN_SetOff seat ;; Led_BLUE_SetOn seat
  else if state =? mainHEATER_STATE_HIGH then
    Led_GREEN_SetOn seat ;; Led_BLUE_SetOn seat
  else
    Led_GREEN_SetOff seat ;; Led_BLUE_SetOff seat.

(** One pass of [vDriverHeaterProcessTask] / [vPassengerHeatersProcessTask]. *)
Definition vHeaterProcessTask (seat : Seat) : Task unit :=
  level <- load seat HeatingLevel ;
  flag <- load seat ErrorFlag ;
  (if negb (level =? mainHEATING_LEVEL_OFF) && (flag =? pdFALSE) then
     desired <- load seat DesiredTemperature ;
     current <- load seat TemperatureValue ;
     if desired >=? current then
       let diff := uint8 (desired - current) in
       if (diff >=? mainTEMP_DIFF_LOW_THRESHOLD) && (diff <? mainTEMP_DIFF_MEDIUM_THRESHOLD) then
         assign seat HeaterState mainHEATER_STATE_LOW
       else if (diff >=? mainTEMP_DIFF_MEDIUM_THRESHOLD) && (diff <? mainTEMP_DIFF_HIGH_THRESHOLD) then
         assign seat HeaterState mainHEATER_STATE_MEDIUM
       else if diff >=? mainTEMP_DIFF_HIGH_THRESHOLD then
         assign seat HeaterState mainHEATER_STATE_HIGH
       else ret tt
     else
       assign seat HeaterState mainHEATER_STATE_OFF
   else
     assign seat HeaterState mainHEATER_STATE_OFF) ;;
  prev <- load seat PrevHeaterState ;
  state <- load seat HeaterState ;
  flag' <- load seat ErrorFlag ;
  if negb (prev =? state) || (flag' =? pdTRUE) then
    assign seat PrevHeaterState state ;;
    drive_heater_leds seat state
  else ret tt.

Definition vDriverHeaterProcessTask := vHeaterProcessTask Driver.
Definition vPassengerHeatersProcessTask := vHeaterProcessTask Passenger.

(** The five statements that both diagnostic tasks run on the received
    record: four field copies into [xDiagnosticArray[ucDiagnosticIndex]], then
    [ucDiagnosticIndex++] (a [uint8]).  The source has no test on the index.
    A store with the index outside the array writes to the memory behind
    the array; what lies there is fixed by the linker, not by the source,
    and may be any global of the program.  The model records such a store in
    [xBeyondArray] and changes nothing else, so once [xBeyondArray] is not
    empty the state of the model need not be the one of the program; the
    statements about reachable states are made for the states before that
    ([in_bounds]). *)
Definition store_diagnostic (xlog : xFailureLog) : Task unit :=
  fun s =>
    let i := ucDiagnosticIndex s in
    let entry :=
      {| uiTimeStamp := uiTimeStamp xlog;
         ucFailureCode := ucFailureCode xlog;
         ucFailureSeat := ucFailureSeat xlog;
         ucHeatingLevel := ucHeatingLevel xlog |} in
    let s' :=
      if (0 <=? i) && (i <? mainDIAGNOSTIC_SIZE) then
        set_diagnostic (<[Z.to_nat i := entry]> (xDiagnosticArray s))
                       (uint8 (i + 1)) (xBeyondArray s) s
      else
        set_diagnostic (xDiagnosticArray s)
                       (uint8 (i + 1)) (xBeyondArray s ++ [(i, entry)]) s in
    Some (tt, s', [DiagnosticStore i entry]).

(** One pass of [vDriverDiagnosticTask]. *)
Definition vDriverDiagnosticTask : Task unit :=
  xSemaphoreTake Driver ;;
  assign Driver HeaterState mainHEATER_STATE_OFF ;;
  xlog <- xQueueReceive Driver ;
  store_diagnostic xlog ;;
  Led_RED_SetOn Driver.

(** One pass of [vPassengerDiagnosticTask]. *)
Definition vPassengerDiagnosticTask : Task unit :=
  xSemaphoreTake Passenger ;;
  xlog <- xQueueReceive Passenger ;
  store_diagnostic xlog ;;
  assign Passenger HeaterState mainHEATER_STATE_OFF ;;
  Led_RED_SetOn Passenger.

Definition vDiagnosticTask (seat : Seat) : Task unit :=
  match seat with
  | Driver => vDriverDiagnosticTask
  | Passenger => vPassengerDiagnosticTask
  end.

(** ** Interrupt handlers *)

(** The statement [uc...HeatingLevel = (uc...HeatingLevel + 1) % 4] followed
    by [xEventGroupSetBitsFromISR]. *)
Definition next_level (seat : Seat) (bit : Z) : Task unit :=
  level <- load seat HeatingLevel ;
  assign seat HeatingLevel ((level + 1) mod mainTOTAL_HEATING_LEVELS) ;;
  xEventGroupSetBitsFromISR seat bit.

(** [GPIO_PORTF_Handler]; [pf0] and [pf4] are the outcomes of the tests
    [GPIO_PORTF_RIS_REG & PF0] and [GPIO_PORTF_RIS_REG & PF4]. *)
Definition GPIO_PORTF_Handler (pf0 pf4 : bool) : Task unit :=
  (if pf0 then next_level Passenger mainSW2_INTERRUPT_BIT else ret tt) ;;
  (if pf4 then next_level Driver mainSW1_INTERRUPT_BIT else ret tt).

(** [GPIO_PORTB_Handler]; [pb1] is the outcome of [GPIO_PORTB_RIS_REG & PB1]. *)
Definition GPIO_PORTB_Handler (pb1 : bool) : Task unit :=
  if pb1 then next_level Driver mainSW3_INTERRUPT_BIT else ret tt.

(** ** The system as a transition system *)

Inductive Event : Type :=
| IrqPortF (pf0 pf4 : bool)
| IrqPortB (pb1 : bool)
| SensorTick (seat : Seat) (reading now : Z)
| ButtonsWake (seat : Seat)
| HeaterTick (seat : Seat)
| DiagnosticWake (seat : Seat).

Definition step (e : Event) : Task unit :=
  match e with
  | IrqPortF pf0 pf4 => GPIO_PORTF_Handler pf0 pf4
  | IrqPortB pb1 => GPIO_PORTB_Handler pb1
  | SensorTick seat reading now => vSensorProcessTask seat reading now
  | ButtonsWake seat => vButtonsProcessTask seat
  | HeaterTick seat => vHeaterProcessTask seat
  | DiagnosticWake seat => vDiagnosticTask seat
  end.

(** A task that waits at the first kernel call of its pass stays where it
    is.  (The same is done for a sensor pass that waits in [xQueueSend], which
    the model does not follow.) *)
Definition fire (e : Event) (s : State) : State * list Effect :=
  match step e s with
  | Some (_, s', t) => (s', t)
  | None => (s, [])
  end.

Fixpoint exec (es : list Event) (s : State) : State * list Effect :=
  match es with
  | [] => (s, [])
  | e :: es' =>
      let '(s1, t1) := fire e s in
      let '(s2, t2) := exec es' s1 in
      (s2, t1 ++ t2)
  end.

Definition final (es : list Event) (s : State) : State := fst (exec es s).
Definition trace (es : list Event) (s : State) : list Effect := snd (exec es s).

Definition reachable (s : State) : Prop := exists es, final es init = s.

(** ** Vocabulary of the statements *)

Definition value (seat : Seat) (x : Var) (s : State) : Z := mem s seat x.

(** The heating levels and the fixed mapping of the specification:
    Off -> 0, Low -> 25, Medium -> 30, High -> 35. *)
Inductive Level : Type := Off | Low | Medium | High.

Definition level_code (l : Level) : Z :=
  match l with
  | Off => mainHEATING_LEVEL_OFF
  | Low => mainHEATING_LEVEL_LOW
  | Medium => mainHEATING_LEVEL_MEDIUM
  | High => mainHEATING_LEVEL_HIGH
  end.

Definition spec_desiredTemperature (l : Level) : Z :=
  match l with
  | Off => 0
  | Low => 25
  | Medium => 30
  | High => 35
  end.

(** The three push buttons and the handler invocation each one causes. *)
Inductive Switch : Type := SW1 | SW2 | SW3.

Definition seat_of (sw : Switch) : Seat :=
  match sw with
  | SW1 | SW3 => Driver
  | SW2 => Passenger
  end.

Definition irq_of (sw : Switch) : Event :=
  match sw with
  | SW1 => IrqPortF false true
  | SW2 => IrqPortF true false
  | SW3 => IrqPortB true
  end.

(** A control edge followed by the wake-up of the button task it signals. *)
Definition control_edge (sw : Switch) : list Event :=
  [irq_of sw; ButtonsWake (seat_of sw)].

(** Counting effects in a trace. *)
Fixpoint count (p : Effect -> bool) (t : list Effect) : nat :=
  match t with
  | [] => 0%nat
  | e :: t' => ((if p e then 1 else 0) + count p t')%nat
  end.

Definition is_QueueSend (seat : Seat) (e : Effect) : bool :=
  match e with
  | QueueSend seat' _ => Seat_eqb seat' seat
  | _ => false
  end.

Definition is_SemaphoreGive (seat : Seat) (e : Effect) : bool :=
  match e with
  | SemaphoreGive seat' => Seat_eqb seat' seat
  | _ => false
  end.

(** A store of [pdTRUE] to the seat's error flag. *)
Definition is_fault_raise (seat : Seat) (e : Effect) : bool :=
  match e with
  | Write seat' ErrorFlag v => Seat_eqb seat' seat && (v =? pdTRUE)
  | _ => false
  end.

Definition is_DioWrite (e : Effect) : bool :=
  match e with
  | DioWrite _ _ => true
  | _ => false
  end.

(** The pin writes of a trace, in order. *)
Fixpoint dio_writes (t : list Effect) : list Effect :=
  match t with
  | [] => []
  | e :: t' => if is_DioWrite e then e :: dio_writes t' else dio_writes t'
  end.

(** The two pin writes [drive_heater_leds] makes for a heater state. *)
Definition led_pattern (seat : Seat) (state : Z) : list Effect :=
  [DioWrite (GREEN seat)
     ((state =? mainHEATER_STATE_LOW) || (state =? mainHEATER_STATE_HIGH));
   DioWrite (BLUE seat)
     ((state =? mainHEATER_STATE_MEDIUM) || (state =? mainHEATER_STATE_HIGH))].

(** The seat's error flag is set (C truth: non-zero). *)
Definition fault_active (seat : Seat) (s : State) : Prop :=
  value seat ErrorFlag s <> pdFALSE.

(** The fault is active in every state that the run [es] from [s] visits. *)
Fixpoint fault_throughout (seat : Seat) (es : list Event) (s : State) : Prop :=
  fault_active seat s /\
  match es with
  | [] => True
  | e :: es' => fault_throughout seat es' (fst (fire e s))
  end.

(** A sample outside the valid range [5, 40]. *)
Definition out_of_range (t : Z) : Prop := t < 5 \/ 40 < t.

(** Sensor passes of one seat, one per (reading, time stamp) pair. *)
Definition sampling (seat : Seat) (samples : list (Z * Z)) : list Event :=
  map (fun rn => SensorTick seat (fst rn) (snd rn)) samples.

(** No button signal that the seat's button task waits for is pending. *)
Definition no_edge_pending (seat : Seat) (s : State) : Prop :=
  Z.land (xButtonsEventGroup s seat) (xBitsToWaitFor seat) = 0.

(** [wpg N m Q s]: if the pass [m] completes from [s], its result, final state
    and effects satisfy [Q]; if it stays in a kernel call, [N] holds.  With
    [N := False] this is total correctness ([wp]). *)
Definition wpg {A : Type} (N : Prop) (m : Task A)
  (Q : A -> State -> list Effect -> Prop) (s : State) : Prop :=
  match m s with
  | Some (a, s', t) => Q a s' t
  | None => N
  end.

Abbreviation wp := (wpg False).

(** ** Runs and predicates used in the statements *)

(** The driver selects Low (desired 25) at 22 degrees, the heater goes to Low;
    the seat then warms to 24 degrees. *)
Definition warming_up : list Event :=
  control_edge SW1 ++ [SensorTick Driver 22 1; HeaterTick Driver; SensorTick Driver 24 2].

(** The state right after the first press of SW1, before the driver's button
    task has run. *)
Definition just_pressed : State := final [irq_of SW1] init.

(** The desired temperature of a seat after each of the first [n] control
    edges of a switch, starting from [s]. *)
Fixpoint desired_after_edges (sw : Switch) (n : nat) (s : State) : list Z :=
  match n with
  | O => []
  | S n' =>
      let s' := final (control_edge sw) s in
      value (seat_of sw) DesiredTemperature s' :: desired_after_edges sw n' s'
  end.

(** One fault and recovery of a seat, with the diagnostic task woken in
    between: reading 45 at time [k], then reading 20. *)
Definition fault_and_recovery (seat : Seat) (k : Z) : list Event :=
  [SensorTick seat 45 k; DiagnosticWake seat; SensorTick seat 20 k].

Definition six_faults : list Event :=
  fault_and_recovery Driver 1 ++ fault_and_recovery Passenger 2 ++
  fault_and_recovery Driver 3 ++ fault_and_recovery Driver 4 ++
  fault_and_recovery Passenger 5 ++ fault_and_recovery Driver 6.

(** What holds of one seat in every reachable state. *)
Definition seat_ok (seat : Seat) (s : State) : Prop :=
  let level := value seat HeatingLevel s in
  let desired := value seat DesiredTemperature s in
  let state := value seat HeaterState s in
  0 <= level <= 3 /\
  (desired = 0 \/ desired = 25 \/ desired = 30 \/ desired = 35) /\
  0 <= state <= 3 /\
  (no_edge_pending seat s ->
   desired = if level =? 0 then 0 else if level =? 1 then 25
             else if level =? 2 then 30 else 35).

Definition system_ok (s : State) : Prop := seat_ok Driver s /\ seat_ok Passenger s.



(** A store to a variable of enumerated type stores a member of the type. *)
Definition write_in_enum (e : Effect) : Prop :=
  match e with
  | Write _ HeatingLevel v => 0 <= v <= 3
  | Write _ DesiredTemperature v => v = 0 \/ v = 25 \/ v = 30 \/ v = 35
  | Write _ HeaterState v => 0 <= v <= 3
  | _ => True
  end.

(** The driver at level High (desired 35) with the sensor reading [current]. *)
Definition driver_high_at (current : Z) : State :=
  final (control_edge SW1 ++ control_edge SW1 ++ control_edge SW1
         ++ [SensorTick Driver current 1]) init.

(** ** Further vocabulary *)


(** The failure record that a sensor pass builds for the sample [t] taken at
    time [now] while the heating level is [level]. *)
Definition failure_record (seat : Seat) (t now level : Z) : xFailureLog :=
  {| uiTimeStamp := uint32 now;
     ucFailureCode := if 40 <? t then mainTEMP_OVER_RANGE_FAIL
                      else mainTEMP_UNDER_RANGE_FAIL;
     ucFailureSeat := seat_fail seat;
     ucHeatingLevel := level |}.

(** The seat's queue has a free slot: [xQueueSend] returns at once. *)
Definition has_room (seat : Seat) (s : State) : Prop :=
  Z.of_nat (length (xDiagnosticQueue s seat)) < uxQueueLength.


(** [n] interrupts of one switch in a row, then one pass of the button task. *)
Definition presses_then_wake (sw : Switch) (n : nat) : list Event :=
  repeat (irq_of sw) n ++ [ButtonsWake (seat_of sw)].

(** ** The display and run-time tasks of [main.c] *)

(** The string literals passed to [UART0_SendString].  Carriage return and
    line feed are written [\r\n] in the source.  The first character of the
    unit string is not ASCII and reads as the three bytes 239, 191, 189 in
    the source file. *)

Module Texts.
Import String Ascii.

Definition crlf : string := String "013" (String "010" EmptyString).

Definition header : string :=
  append "------------------------------------------------------------" crlf.

Definition unit_line : string :=
  String "239" (String "191" (String "189" (append "C" crlf))).

Definition current_temperature (seat : Seat) : string :=
  match seat with
  | Driver => "Driver Current Temperature: "
  | Passenger => "Passenger Current Temperature: "
  end.

Definition heating_level (seat : Seat) : string :=
  match seat with
  | Driver => "Driver Heating Level: "
  | Passenger => "Passenger Heating Level: "
  end.

Definition heater_state (seat : Seat) : string :=
  match seat with
  | Driver => "Driver Heater State: "
  | Passenger => "Passenger Heater State: "
  end.

Definition off : string := "Off".
Definition low : string := "Low".
Definition medium : string := "Medium".
Definition high : string := "High".

Definition cpu_load_is : string := append crlf "CPU Load is ".
Definition percent : string := append "% " crlf.

End Texts.

(** Calls of the UART driver, in program order. *)
Inductive UartCall : Type :=
| UART0_SendString (text : String.string)
| UART0_SendInteger (n : Z).

(** The [switch] that prints a heating level or a heater state; it has no
    [default], so a value outside 0..3 prints nothing. *)
Definition send_level_name (v : Z) : list UartCall :=
  if v =? 0 then [UART0_SendString Texts.off]
  else if v =? 1 then [UART0_SendString Texts.low]
  else if v =? 2 then [UART0_SendString Texts.medium]
  else if v =? 3 then [UART0_SendString Texts.high]
  else [].

(** The three blocks printed for one seat. *)
Definition send_seat (seat : Seat) (s : State) : list UartCall :=
  [UART0_SendString (Texts.current_temperature seat);
   UART0_SendInteger (mem s seat TemperatureValue);
   UART0_SendString Texts.unit_line;
   UART0_SendString (Texts.heating_level seat)]
  ++ send_level_name (mem s seat HeatingLevel)
  ++ [UART0_SendString Texts.crlf;
      UART0_SendString (Texts.heater_state seat)]
  ++ send_level_name (mem s seat HeaterState).

(** The six locals [ucPrevDriverHeatingLevel], [ucPrevDriverTemp],
    [ucPrevDriverHeaterState] and their passenger twins, indexed like the
    globals they shadow; only [HeatingLevel], [TemperatureValue] and
    [HeaterState] are used. *)
Definition DisplayPrev : Type := Seat -> Var -> Z.

Definition display_init : DisplayPrev := fun _ _ => 0xFF.

(** The test that guards the printing. *)
Definition display_changed (prev : DisplayPrev) (s : State) : bool :=
  negb (mem s Driver HeatingLevel =? prev Driver HeatingLevel)
  || negb (mem s Driver TemperatureValue =? prev Driver TemperatureValue)
  || negb (mem s Driver HeaterState =? prev Driver HeaterState)
  || negb (mem s Passenger HeatingLevel =? prev Passenger HeatingLevel)
  || negb (mem s Passenger TemperatureValue =? prev Passenger TemperatureValue)
  || negb (mem s Passenger HeaterState =? prev Passenger HeaterState).

(** One pass of [vDisplayScreenTask]: the new values of its locals and the
    UART calls it makes.  It writes no global. *)
Definition vDisplayScreenTask (prev : DisplayPrev) (s : State)
  : DisplayPrev * list UartCall :=
  if display_changed prev s then
    (fun seat x =>
       match x with
       | HeatingLevel | TemperatureValue | HeaterState => mem s seat x
       | _ => prev seat x
       end,
     [UART0_SendString Texts.header]
     ++ send_seat Driver s
     ++ [UART0_SendString (String.append Texts.crlf Texts.crlf)]
     ++ send_seat Passenger s
     ++ [UART0_SendString Texts.crlf])
  else (prev, []).

(** The loop of [vRunTimeMeasurementsTask] that adds up
    [ullTasksTotalTime[1 .. N]] in a [uint32]; [N] stands for
    [mainTOTAL_NUMBER_OF_TASKS], whose definition is not in [main.c], and
    is below 255 (the loop counter is a [uint8]). *)
Definition total_tasks_time (N : nat) (ullTasksTotalTime : list Z) : Z :=
  fold_left (fun acc i => uint32 (acc + nth i ullTasksTotalTime 0)) (seq 1 N) 0.

(** One pass of [vRunTimeMeasurementsTask]; [now] is what [GPTM_WTimer0Read]
    returns.  A timer value of 0 makes the division undefined: no result. *)
Definition vRunTimeMeasurementsTask (N : nat) (ullTasksTotalTime : list Z) (now : Z)
  : option (list UartCall) :=
  let ullTotalTasksTime := total_tasks_time N ullTasksTotalTime in
  let ulCurrentSystemTime := uint32 now in
  if ulCurrentSystemTime =? 0 then None
  else
    let ucCPU_Load := uint8 (uint32 (ullTotalTasksTime * 100) / ulCurrentSystemTime) in
    Some [UART0_SendString Texts.header;
          UART0_SendString Texts.cpu_load_is;
          UART0_SendInteger ucCPU_Load;
          UART0_SendString Texts.percent].

(** The variables that the display task watches. *)
Definition watched (x : Var) : bool :=
  match x with
  | HeatingLevel | TemperatureValue | HeaterState => true
  | _ => false
  end.

(** The sum of the entries of a list of counters. *)
Definition sum_Z (l : list Z) : Z := fold_right Z.add 0 l.

(** ** [NVIC.c] *)

(** The registers that [NVIC.c] writes: the three banks addressed from
    [NVIC_EN_BASE_REG], [NVIC_DIS_BASE_REG] and [NVIC_PRI_BASE_REG] (one
    32-bit word per index) and the system registers. *)
Record NvicRegs : Type := mkNvicRegs {
  NVIC_EN : Z -> Z;
  NVIC_DIS : Z -> Z;
  NVIC_PRI : Z -> Z;
  NVIC_SYSTEM_SYSHNDCTRL : Z;
  NVIC_SYSTEM_PRI1_REG : Z;
  NVIC_SYSTEM_PRI2_REG : Z;
  NVIC_SYSTEM_PRI3_REG : Z
}.

Definition upd_word (i v : Z) (bank : Z -> Z) : Z -> Z :=
  fun j => if j =? i then v else bank j.

Definition MEM_FAULT_PRIORITY_MASK : Z := 0x000000E0.
Definition MEM_FAULT_PRIORITY_BITS_POS : Z := 5.
Definition BUS_FAULT_PRIORITY_MASK : Z := 0x0000E000.
Definition BUS_FAULT_PRIORITY_BITS_POS : Z := 13.
Definition USAGE_FAULT_PRIORITY_MASK : Z := 0x00E00000.
Definition USAGE_FAULT_PRIORITY_BITS_POS : Z := 21.
Definition SVC_PRIORITY_MASK : Z := 0xE0000000.
Definition SVC_PRIORITY_BITS_POS : Z := 29.
Definition DEBUG_MONITOR_PRIORITY_MASK : Z := 0x000000E0.
Definition DEBUG_MONITOR_PRIORITY_BITS_POS : Z := 5.
Definition PENDSV_PRIORITY_MASK : Z := 0x00E00000.
Definition PENDSV_PRIORITY_BITS_POS : Z := 21.
Definition SYSTICK_PRIORITY_MASK : Z := 0xE0000000.
Definition SYSTICK_PRIORITY_BITS_POS : Z := 29.
Definition MEM_FAULT_ENABLE_MASK : Z := 0x00010000.
Definition BUS_FAULT_ENABLE_MASK : Z := 0x00020000.
Definition USAGE_FAULT_ENABLE_MASK : Z := 0x00040000.

Inductive NVIC_ExceptionType : Type :=
| EXCEPTION_RESET_TYPE
| EXCEPTION_NMI_TYPE
| EXCEPTION_HARD_FAULT_TYPE
| EXCEPTION_MEM_FAULT_TYPE
| EXCEPTION_BUS_FAULT_TYPE
| EXCEPTION_USAGE_FAULT_TYPE
| EXCEPTION_SVC_TYPE
| EXCEPTION_DEBUG_MONITOR_TYPE
| EXCEPTION_PEND_SV_TYPE
| EXCEPTION_SYSTICK_TYPE.

Definition set_NVIC_EN (bank : Z -> Z) (r : NvicRegs) : NvicRegs :=
  mkNvicRegs bank (NVIC_DIS r) (NVIC_PRI r) (NVIC_SYSTEM_SYSHNDCTRL r)
             (NVIC_SYSTEM_PRI1_REG r) (NVIC_SYSTEM_PRI2_REG r) (NVIC_SYSTEM_PRI3_REG r).

Definition set_NVIC_DIS (bank : Z -> Z) (r : NvicRegs) : NvicRegs :=
  mkNvicRegs (NVIC_EN r) bank (NVIC_PRI r) (NVIC_SYSTEM_SYSHNDCTRL r)
             (NVIC_SYSTEM_PRI1_REG r) (NVIC_SYSTEM_PRI2_REG r) (NVIC_SYSTEM_PRI3_REG r).

Definition set_NVIC_PRI (bank : Z -> Z) (r : NvicRegs) : NvicRegs :=
  mkNvicRegs (NVIC_EN r) (NVIC_DIS r) bank (NVIC_SYSTEM_SYSHNDCTRL r)
             (NVIC_SYSTEM_PRI1_REG r) (NVIC_SYSTEM_PRI2_REG r) (NVIC_SYSTEM_PRI3_REG r).

Definition set_SYSHNDCTRL (v : Z) (r : NvicRegs) : NvicRegs :=
  mkNvicRegs (NVIC_EN r) (NVIC_DIS r) (NVIC_PRI r) v
             (NVIC_SYSTEM_PRI1_REG r) (NVIC_SYSTEM_PRI2_REG r) (NVIC_SYSTEM_PRI3_REG r).

Definition set_PRI1 (v : Z) (r : NvicRegs) : NvicRegs :=
  mkNvicRegs (NVIC_EN r) (NVIC_DIS r) (NVIC_PRI r) (NVIC_SYSTEM_SYSHNDCTRL r)
             v (NVIC_SYSTEM_PRI2_REG r) (NVIC_SYSTEM_PRI3_REG r).

Definition set_PRI2 (v : Z) (r : NvicRegs) : NvicRegs :=
  mkNvicRegs (NVIC_EN r) (NVIC_DIS r) (NVIC_PRI r) (NVIC_SYSTEM_SYSHNDCTRL r)
             (NVIC_SYSTEM_PRI1_REG r) v (NVIC_SYSTEM_PRI3_REG r).

Definition set_PRI3 (v : Z) (r : NvicRegs) : NvicRegs :=
  mkNvicRegs (NVIC_EN r) (NVIC_DIS r) (NVIC_PRI r) (NVIC_SYSTEM_SYSHNDCTRL r)
             (NVIC_SYSTEM_PRI1_REG r) (NVIC_SYSTEM_PRI2_REG r) v.

(** [NVIC_EnableIRQ]; the argument is converted to [NVIC_IRQType], a
    [uint8]. *)
Definition NVIC_EnableIRQ (IRQ_Num : Z) (r : NvicRegs) : NvicRegs :=
  let IRQ_Num := uint8 IRQ_Num in
  let REG_NUM := uint8 (IRQ_Num / 32) in
  let BIT_POS := uint8 (IRQ_Num mod 32) in
  set_NVIC_EN
    (upd_word REG_NUM (uint32 (Z.lor (NVIC_EN r REG_NUM) (Z.shiftl 1 BIT_POS)))
              (NVIC_EN r)) r.

(** [NVIC_DisableIRQ]. *)
Definition NVIC_DisableIRQ (IRQ_Num : Z) (r : NvicRegs) : NvicRegs :=
  let IRQ_Num := uint8 IRQ_Num in
  let REG_NUM := uint8 (IRQ_Num / 32) in
  let BIT_POS := uint8 (IRQ_Num mod 32) in
  set_NVIC_DIS
    (upd_word REG_NUM (uint32 (Z.lor (NVIC_DIS r REG_NUM) (Z.shiftl 1 BIT_POS)))
              (NVIC_DIS r)) r.

(** [NVIC_SetPriorityIRQ]. *)
Definition NVIC_SetPriorityIRQ (IRQ_Num IRQ_Priority : Z) (r : NvicRegs) : NvicRegs :=
  let IRQ_Num := uint8 IRQ_Num in
  let IRQ_Priority := uint8 (Z.land (uint8 IRQ_Priority) 0x07) in
  let REG_NUM := uint8 (IRQ_Num / 4) in
  let BIT_POS := uint8 (5 + 8 * (IRQ_Num mod 4)) in
  set_NVIC_PRI
    (upd_word REG_NUM
       (uint32 (Z.lor (Z.land (NVIC_PRI r REG_NUM) (Z.lnot (Z.shiftl 0x07 BIT_POS)))
                      (Z.shiftl IRQ_Priority BIT_POS)))
       (NVIC_PRI r)) r.

(** [NVIC_EnableException]. *)
Definition NVIC_EnableException (Exception_Num : NVIC_ExceptionType) (r : NvicRegs)
  : NvicRegs :=
  match Exception_Num with
  | EXCEPTION_MEM_FAULT_TYPE =>
      set_SYSHNDCTRL (uint32 (Z.lor (NVIC_SYSTEM_SYSHNDCTRL r) MEM_FAULT_ENABLE_MASK)) r
  | EXCEPTION_BUS_FAULT_TYPE =>
      set_SYSHNDCTRL (uint32 (Z.lor (NVIC_SYSTEM_SYSHNDCTRL r) BUS_FAULT_ENABLE_MASK)) r
  | EXCEPTION_USAGE_FAULT_TYPE =>
      set_SYSHNDCTRL (uint32 (Z.lor (NVIC_SYSTEM_SYSHNDCTRL r) USAGE_FAULT_ENABLE_MASK)) r
  | _ => r
  end.

(** [NVIC_DisableException]. *)
Definition NVIC_DisableException (Exception_Num : NVIC_ExceptionType) (r : NvicRegs)
  : NvicRegs :=
  match Exception_Num with
  | EXCEPTION_MEM_FAULT_TYPE =>
      set_SYSHNDCTRL
        (uint32 (Z.land (NVIC_SYSTEM_SYSHNDCTRL r) (Z.lnot MEM_FAULT_ENABLE_MASK))) r
  | EXCEPTION_BUS_FAULT_TYPE =>
      set_SYSHNDCTRL
        (uint32 (Z.land (NVIC_SYSTEM_SYSHNDCTRL r) (Z.lnot BUS_FAULT_ENABLE_MASK))) r
  | EXCEPTION_USAGE_FAULT_TYPE =>
      set_SYSHNDCTRL
        (uint32 (Z.land (NVIC_SYSTEM_SYSHNDCTRL r) (Z.lnot USAGE_FAULT_ENABLE_MASK))) r
  | _ => r
  end.

(** The assignment [REG = (REG & ~MASK) | (Exception_Priority << POS)]. *)
Definition insert_priority (reg mask priority pos : Z) : Z :=
  uint32 (Z.lor (Z.land reg (Z.lnot mask)) (Z.shiftl priority pos)).

(** [NVIC_SetPriorityException]; the priority is a [uint8] and is not
    masked. *)
Definition NVIC_SetPriorityException (Exception_Num : NVIC_ExceptionType)
  (Exception_Priority : Z) (r : NvicRegs) : NvicRegs :=
  let Exception_Priority := uint8 Exception_Priority in
  match Exception_Num with
  | EXCEPTION_MEM_FAULT_TYPE =>
      set_PRI1 (insert_priority (NVIC_SYSTEM_PRI1_REG r) MEM_FAULT_PRIORITY_MASK
                                Exception_Priority MEM_FAULT_PRIORITY_BITS_POS) r
  | EXCEPTION_BUS_FAULT_TYPE =>
      set_PRI1 (insert_priority (NVIC_SYSTEM_PRI1_REG r) BUS_FAULT_PRIORITY_MASK
                                Exception_Priority BUS_FAULT_PRIORITY_BITS_POS) r
  | EXCEPTION_USAGE_FAULT_TYPE =>
      set_PRI1 (insert_priority (NVIC_SYSTEM_PRI1_REG r) USAGE_FAULT_PRIORITY_MASK
                                Exception_Priority USAGE_FAULT_PRIORITY_BITS_POS) r
  | EXCEPTION_SVC_TYPE =>
      set_PRI2 (insert_priority (NVIC_SYSTEM_PRI2_REG r) SVC_PRIORITY_MASK
                                Exception_Priority SVC_PRIORITY_BITS_POS) r
  | EXCEPTION_DEBUG_MONITOR_TYPE =>
      set_PRI3 (insert_priority (NVIC_SYSTEM_PRI3_REG r) DEBUG_MONITOR_PRIORITY_MASK
                                Exception_Priority DEBUG_MONITOR_PRIORITY_BITS_POS) r
  | EXCEPTION_PEND_SV_TYPE =>
      set_PRI3 (insert_priority (NVIC_SYSTEM_PRI3_REG r) PENDSV_PRIORITY_MASK
                                Exception_Priority PENDSV_PRIORITY_BITS_POS) r
  | EXCEPTION_SYSTICK_TYPE =>
      set_PRI3 (insert_priority (NVIC_SYSTEM_PRI3_REG r) SYSTICK_PRIORITY_MASK
                                Exception_Priority SYSTICK_PRIORITY_BITS_POS) r
  | _ => r
  end.

(** ** [Button.c] *)

Definition PF0 : Z := 0x01.
Definition PF4 : Z := 0x10.
Definition PB1 : Z := 0x02.
Definition GPIO_PORTF_IRQ_NUM : Z := 30.
Definition GPIO_PORTF_INTERRUPT_PRIORITY : Z := 5.
Definition GPIO_PORTB_IRQ_NUM : Z := 1.
Definition GPIO_PORTB_INTERRUPT_PRIORITY : Z := 5.

(** The interrupt registers of one GPIO port: [GPIO_PORTx_IS_REG],
    [.._IBE_REG], [.._IEV_REG], [.._ICR_REG], [.._IM_REG]. *)
Record GpioIntRegs : Type := mkGpioIntRegs {
  IS_REG : Z;
  IBE_REG : Z;
  IEV_REG : Z;
  ICR_REG : Z;
  IM_REG : Z
}.

Record ButtonHw : Type := mkButtonHw {
  GPIO_PORTF : GpioIntRegs;
  GPIO_PORTB : GpioIntRegs;
  nvic : NvicRegs
}.

(** [REG &= ~mask] and [REG |= mask] on a 32-bit register. *)
Definition clear_mask (mask reg : Z) : Z := uint32 (Z.land reg (Z.lnot mask)).
Definition set_mask (mask reg : Z) : Z := uint32 (Z.lor reg mask).

(** The five statements that configure the pins [mask] of one port. *)
Definition setup_falling_edge (mask : Z) (p : GpioIntRegs) : GpioIntRegs :=
  {| IS_REG := clear_mask mask (IS_REG p);
     IBE_REG := clear_mask mask (IBE_REG p);
     IEV_REG := clear_mask mask (IEV_REG p);
     ICR_REG := set_mask mask (ICR_REG p);
     IM_REG := set_mask mask (IM_REG p) |}.

(** [GPIO_SetupButtonsInterrupt]. *)
Definition GPIO_SetupButtonsInterrupt (hw : ButtonHw) : ButtonHw :=
  {| GPIO_PORTF := setup_falling_edge (Z.lor PF0 PF4) (GPIO_PORTF hw);
     GPIO_PORTB := setup_falling_edge PB1 (GPIO_PORTB hw);
     nvic :=
       NVIC_SetPriorityIRQ GPIO_PORTB_IRQ_NUM GPIO_PORTB_INTERRUPT_PRIORITY
         (NVIC_EnableIRQ GPIO_PORTB_IRQ_NUM
            (NVIC_SetPriorityIRQ GPIO_PORTF_IRQ_NUM GPIO_PORTF_INTERRUPT_PRIORITY
               (NVIC_EnableIRQ GPIO_PORTF_IRQ_NUM (nvic hw)))) |}.

(** The 3-bit priority field of an interrupt: bits 5 to 7 of byte
    [n mod 4] of priority word [n / 4]. *)
Definition irq_priority_field (r : NvicRegs) (n : Z) : Z :=
  Z.land (Z.shiftr (NVIC_PRI r (n / 4)) (5 + 8 * (n mod 4))) 7.

(** Bit [i] of the new register value is bit [i] of the old one, forced to 1
    where [mask] has a 1. *)
Definition bits_set (mask old new : Z) : Prop :=
  forall i, 0 <= i < 32 -> Z.testbit new i = Z.testbit mask i || Z.testbit old i.

(** ... forced to 0 where [mask] has a 1. *)
Definition bits_cleared (mask old new : Z) : Prop :=
  forall i, 0 <= i < 32 ->
    Z.testbit new i = negb (Z.testbit mask i) && Z.testbit old i.

(** The enable mask of a fault exception in [NVIC_SYSTEM_SYSHNDCTRL]. *)
Definition fault_enable_mask (e : NVIC_ExceptionType) : option Z :=
  match e with
  | EXCEPTION_MEM_FAULT_TYPE => Some MEM_FAULT_ENABLE_MASK
  | EXCEPTION_BUS_FAULT_TYPE => Some BUS_FAULT_ENABLE_MASK
  | EXCEPTION_USAGE_FAULT_TYPE => Some USAGE_FAULT_ENABLE_MASK
  | _ => None
  end.

(** The system priority register that holds the priority of an exception,
    and the position of its field. *)
Definition exception_priority_field (e : NVIC_ExceptionType)
  : option ((NvicRegs -> Z) * Z) :=
  match e with
  | EXCEPTION_MEM_FAULT_TYPE => Some (NVIC_SYSTEM_PRI1_REG, MEM_FAULT_PRIORITY_BITS_POS)
  | EXCEPTION_BUS_FAULT_TYPE => Some (NVIC_SYSTEM_PRI1_REG, BUS_FAULT_PRIORITY_BITS_POS)
  | EXCEPTION_USAGE_FAULT_TYPE => Some (NVIC_SYSTEM_PRI1_REG, USAGE_FAULT_PRIORITY_BITS_POS)
  | EXCEPTION_SVC_TYPE => Some (NVIC_SYSTEM_PRI2_REG, SVC_PRIORITY_BITS_POS)
  | EXCEPTION_DEBUG_MONITOR_TYPE =>
      Some (NVIC_SYSTEM_PRI3_REG, DEBUG_MONITOR_PRIORITY_BITS_POS)
  | EXCEPTION_PEND_SV_TYPE => Some (NVIC_SYSTEM_PRI3_REG, PENDSV_PRIORITY_BITS_POS)
  | EXCEPTION_SYSTICK_TYPE => Some (NVIC_SYSTEM_PRI3_REG, SYSTICK_PRIORITY_BITS_POS)
  | _ => None
  end.

(** ** [Dio.c] *)

(** [Common_Macros.h] and [Std_Types.h] are not among the sources.  The four
    bit macros (each one as the function from the register value and the bit
    number to the value the macro leaves in the register, or to the value it
    yields for [GET_BIT]) and the two levels are parameters of the model. *)
Class StdMacros : Type := mkStdMacros {
  SET_BIT : Z -> Z -> Z;
  CLEAR_BIT : Z -> Z -> Z;
  TOGGLE_BIT : Z -> Z -> Z;
  GET_BIT : Z -> Z -> Z;
  STD_HIGH : Z;
  STD_LOW : Z
}.

Definition DIO_CONFIGURED_CHANNLES : Z := 9.
Definition DIO_CONFIGURED_GROUPS : Z := 0.
Definition DIO_INITIALIZED : Z := 1.
Definition DIO_NOT_INITIALIZED : Z := 0.

Definition DIO_MODULE_ID : Z := 120.
Definition DIO_INSTANCE_ID : Z := 0.
Definition DIO_READ_CHANNEL_SID : Z := 0x00.
Definition DIO_WRITE_CHANNEL_SID : Z := 0x01.
Definition DIO_READ_CHANNEL_GROUP_SID : Z := 0x04.
Definition DIO_WRITE_CHANNEL_GROUP_SID : Z := 0x05.
Definition DIO_INIT_SID : Z := 0x10.
Definition DIO_FLIP_CHANNEL_SID : Z := 0x11.
Definition DIO_E_PARAM_INVALID_CHANNEL_ID : Z := 0x0A.
Definition DIO_E_PARAM_CONFIG : Z := 0x10.
Definition DIO_E_PARAM_INVALID_GROUP : Z := 0x1F.
Definition DIO_E_PARAM_POINTER : Z := 0x20.
Definition DIO_E_UNINIT : Z := 0xF0.

Record Dio_ConfigChannel : Type := mkConfigChannel {
  Port_Num : Z;
  Ch_Num : Z
}.

Record Dio_ConfigType : Type := mkConfigType {
  Channels : list Dio_ConfigChannel
}.

Record Dio_ChannelGroupType : Type := mkChannelGroup {
  mask : Z;
  offset : Z;
  PortIndex : Z
}.

(** [Dio_PBcfg.c], with the values of [Dio_Cfg.h]. *)
Definition Dio_Configuration : Dio_ConfigType :=
  {| Channels :=
       [ mkConfigChannel 5 4;    (* SW1 *)
         mkConfigChannel 5 0;    (* SW2 *)
         mkConfigChannel 1 1;    (* SW3 *)
         mkConfigChannel 5 1;    (* LED_RED1 *)
         mkConfigChannel 5 3;    (* LED_GREEN1 *)
         mkConfigChannel 5 2;    (* LED_BLUE1 *)
         mkConfigChannel 1 2;    (* LED_RED2 *)
         mkConfigChannel 1 4;    (* LED_GREEN2 *)
         mkConfigChannel 1 3 ]   (* LED_BLUE2 *) |}.

(** The six data registers of [Dio_Private.h]. *)
Inductive DataReg : Type :=
| GPIO_PORTA_DATA_REG
| GPIO_PORTB_DATA_REG
| GPIO_PORTC_DATA_REG
| GPIO_PORTD_DATA_REG
| GPIO_PORTE_DATA_REG
| GPIO_PORTF_DATA_REG.

Definition DataReg_eqb (a b : DataReg) : bool :=
  match a, b with
  | GPIO_PORTA_DATA_REG, GPIO_PORTA_DATA_REG
  | GPIO_PORTB_DATA_REG, GPIO_PORTB_DATA_REG
  | GPIO_PORTC_DATA_REG, GPIO_PORTC_DATA_REG
  | GPIO_PORTD_DATA_REG, GPIO_PORTD_DATA_REG
  | GPIO_PORTE_DATA_REG, GPIO_PORTE_DATA_REG
  | GPIO_PORTF_DATA_REG, GPIO_PORTF_DATA_REG => true
  | _, _ => false
  end.

(** One call of [Det_ReportError]. *)
Record DetError : Type := mkDetError {
  ModuleId : Z;
  InstanceId : Z;
  ApiId : Z;
  ErrorId : Z
}.

(** The two file-scope variables of [Dio.c] ([Dio_PortChannels] is a
    pointer: [None] is [NULL_PTR]), the data registers, and the calls of
    [Det_ReportError] so far, oldest first. *)
Record DioState : Type := mkDioState {
  Dio_PortChannels : option (list Dio_ConfigChannel);
  Dio_Status : Z;
  data_reg : DataReg -> Z;
  det_log : list DetError
}.

(** The state after reset: the initialisers of the two variables. *)
Definition dio_reset (regs : DataReg -> Z) : DioState :=
  {| Dio_PortChannels := None;
     Dio_Status := DIO_NOT_INITIALIZED;
     data_reg := regs;
     det_log := [] |}.

(** [Det.c] is not among the sources: a call is recorded and taken to
    return. *)
Definition Det_ReportError (m i a e : Z) (s : DioState) : DioState :=
  {| Dio_PortChannels := Dio_PortChannels s;
     Dio_Status := Dio_Status s;
     data_reg := data_reg s;
     det_log := det_log s ++ [mkDetError m i a e] |}.

Definition store_reg (p : DataReg) (v : Z) (s : DioState) : DioState :=
  {| Dio_PortChannels := Dio_PortChannels s;
     Dio_Status := Dio_Status s;
     data_reg := fun q => if DataReg_eqb q p then v else data_reg s q;
     det_log := det_log s |}.

(** [Dio_Init]; [None] is a null [ConfigPtr]. *)
Definition Dio_Init (ConfigPtr : option Dio_ConfigType) (s : DioState) : DioState :=
  match ConfigPtr with
  | None => Det_ReportError DIO_MODULE_ID DIO_INSTANCE_ID DIO_INIT_SID DIO_E_PARAM_CONFIG s
  | Some c =>
      {| Dio_PortChannels := Some (Channels c);
         Dio_Status := DIO_INITIALIZED;
         data_reg := data_reg s;
         det_log := det_log s |}
  end.

(** The [switch] on [Port_Num]: the register [Port_Ptr] points to, [None]
    when it is left at [NULL_PTR]. *)
Definition Port_Ptr_of (port_num : Z) : option DataReg :=
  match port_num with
  | 0 => Some GPIO_PORTA_DATA_REG
  | 1 => Some GPIO_PORTB_DATA_REG
  | 2 => Some GPIO_PORTC_DATA_REG
  | 3 => Some GPIO_PORTD_DATA_REG
  | 4 => Some GPIO_PORTE_DATA_REG
  | 5 => Some GPIO_PORTF_DATA_REG
  | _ => None
  end.

(** The two development-error checks at the head of the three channel
    functions: the error flag and the state with the reports made. *)
Definition check_channel (sid ChannelId : Z) (s : DioState) : bool * DioState :=
  let '(error, s) :=
    if DIO_NOT_INITIALIZED =? Dio_Status s
    then (true, Det_ReportError DIO_MODULE_ID DIO_INSTANCE_ID sid DIO_E_UNINIT s)
    else (false, s) in
  if DIO_CONFIGURED_CHANNLES <=? ChannelId
  then (true, Det_ReportError DIO_MODULE_ID DIO_INSTANCE_ID sid
                              DIO_E_PARAM_INVALID_CHANNEL_ID s)
  else (error, s).

(** [Dio_PortChannels[index]]: [None] when the pointer is null or the index
    is outside the array it points to. *)
Definition channel_at (index : Z) (s : DioState) : option Dio_ConfigChannel :=
  match Dio_PortChannels s with
  | None => None
  | Some chs => chs !! Z.to_nat index
  end.

(** [Dio_WriteChannel].  The result is [None] when the call reads a
    configuration entry that does not exist or writes through a null
    [Port_Ptr]. *)
Definition Dio_WriteChannel `{StdMacros} (ChannelId Level : Z) (s : DioState)
  : option DioState :=
  let ChannelId := uint8 ChannelId in
  let Level := uint8 Level in
  let '(error, s) := check_channel DIO_WRITE_CHANNEL_SID ChannelId s in
  if error then Some s
  else
    match channel_at ChannelId s with
    | None => None
    | Some ch =>
        let Port_Ptr := Port_Ptr_of (Port_Num ch) in
        if Level =? STD_HIGH then
          match Port_Ptr with
          | None => None
          | Some p => Some (store_reg p (SET_BIT (data_reg s p) (Ch_Num ch)) s)
          end
        else if Level =? STD_LOW then
          match Port_Ptr with
          | None => None
          | Some p => Some (store_reg p (CLEAR_BIT (data_reg s p) (Ch_Num ch)) s)
          end
        else Some s
    end.

(** [Dio_ReadChannel]. *)
Definition Dio_ReadChannel `{StdMacros} (ChannelId : Z) (s : DioState)
  : option (Z * DioState) :=
  let ChannelId := uint8 ChannelId in
  let Return_Value := uint8 STD_LOW in
  let '(error, s) := check_channel DIO_READ_CHANNEL_SID ChannelId s in
  if error then Some (Return_Value, s)
  else
    match channel_at ChannelId s with
    | None => None
    | Some ch =>
        match Port_Ptr_of (Port_Num ch) with
        | None => None
        | Some p => Some (uint8 (GET_BIT (data_reg s p) (Ch_Num ch)), s)
        end
    end.

(** [Dio_FlipChannel]. *)
Definition Dio_FlipChannel `{StdMacros} (ChannelId : Z) (s : DioState)
  : option (Z * DioState) :=
  let ChannelId := uint8 ChannelId in
  let Return_Value := uint8 STD_LOW in
  let '(error, s) := check_channel DIO_FLIP_CHANNEL_SID ChannelId s in
  if error then Some (Return_Value, s)
  else
    match channel_at ChannelId s with
    | None => None
    | Some ch =>
        match Port_Ptr_of (Port_Num ch) with
        | None => None
        | Some p =>
            let s := store_reg p (TOGGLE_BIT (data_reg s p) (Ch_Num ch)) s in
            Some (uint8 (GET_BIT (data_reg s p) (Ch_Num ch)), s)
        end
    end.

(** The three checks at the head of the two channel-group functions.  The
    third reads [ChannelGroupIdPtr->PortIndex] also when the pointer is
    null; [null_PortIndex] is the byte that this read yields.  (The test
    compares it with [DIO_CONFIGURED_GROUPS], which is 0, so its outcome is
    the same for every byte.) *)
Definition check_group (sid : Z) (ChannelGroupIdPtr : option Dio_ChannelGroupType)
  (null_PortIndex : Z) (s : DioState) : bool * DioState :=
  let '(error, s) :=
    if DIO_NOT_INITIALIZED =? Dio_Status s
    then (true, Det_ReportError DIO_MODULE_ID DIO_INSTANCE_ID sid DIO_E_UNINIT s)
    else (false, s) in
  let '(error, s) :=
    match ChannelGroupIdPtr with
    | None => (true, Det_ReportError DIO_MODULE_ID DIO_INSTANCE_ID sid
                                     DIO_E_PARAM_POINTER s)
    | Some _ => (error, s)
    end in
  let index :=
    match ChannelGroupIdPtr with
    | None => null_PortIndex
    | Some g => PortIndex g
    end in
  if DIO_CONFIGURED_GROUPS <=? uint8 index
  then (true, Det_ReportError DIO_MODULE_ID DIO_INSTANCE_ID sid
                              DIO_E_PARAM_INVALID_GROUP s)
  else (error, s).

(** [Dio_ReadChannelGroup].  The part after the checks runs only with the
    error flag clear, and so with a pointer that is not null. *)
Definition Dio_ReadChannelGroup (ChannelGroupIdPtr : option Dio_ChannelGroupType)
  (null_PortIndex : Z) (s : DioState) : option (Z * DioState) :=
  match check_group DIO_READ_CHANNEL_GROUP_SID ChannelGroupIdPtr null_PortIndex s,
        ChannelGroupIdPtr with
  | (true, s), _ => Some (0, s)
  | (false, s), Some g =>
      match channel_at (uint8 (PortIndex g)) s with
      | None => None
      | Some ch =>
          match Port_Ptr_of (Port_Num ch) with
          | None => None
          | Some p =>
              Some (uint8 (Z.shiftr (Z.land (data_reg s p) (uint8 (mask g)))
                                    (uint8 (offset g))), s)
          end
      end
  | (false, _), None => None
  end.

(** [Dio_WriteChannelGroup]. *)
Definition Dio_WriteChannelGroup (ChannelGroupIdPtr : option Dio_ChannelGroupType)
  (null_PortIndex : Z) (Level : Z) (s : DioState) : option DioState :=
  let Level := uint8 Level in
  match check_group DIO_WRITE_CHANNEL_GROUP_SID ChannelGroupIdPtr null_PortIndex s,
        ChannelGroupIdPtr with
  | (true, s), _ => Some s
  | (false, s), Some g =>
      match channel_at (uint8 (PortIndex g)) s with
      | None => None
      | Some ch =>
          match Port_Ptr_of (Port_Num ch) with
          | None => None
          | Some p =>
              Some (store_reg p
                      (uint32 (Z.lor (Z.land (data_reg s p) (Z.lnot (uint8 (mask g))))
                                     (Z.land (Z.shiftl Level (uint8 (offset g)))
                                             (uint8 (mask g))))) s)
          end
      end
  | (false, _), None => None
  end.

(** ** [Led.c] over [Dio.c] *)

(** [DioConf_LED_..._CHANNEL_ID_INDEX]. *)
Definition led_channel (led : LedId) : Z :=
  match led with
  | RED Driver => 0x03
  | GREEN Driver => 0x04
  | BLUE Driver => 0x05
  | RED Passenger => 0x06
  | GREEN Passenger => 0x07
  | BLUE Passenger => 0x08
  end.

(** [Led_Cfg.h]: [LED_ON] is [STD_HIGH], [LED_OFF] is [STD_LOW]. *)
Definition led_level `{StdMacros} (level : bool) : Z :=
  if level then STD_HIGH else STD_LOW.

(** The [Dio_WriteChannel] calls behind the LED writes of a trace, in
    order. *)
Fixpoint drive_leds `{StdMacros} (t : list Effect) (s : DioState) : option DioState :=
  match t with
  | [] => Some s
  | DioWrite led level :: t' =>
      match Dio_WriteChannel (led_channel led) (led_level level) s with
      | None => None
      | Some s' => drive_leds t' s'
      end
  | _ :: t' => drive_leds t' s
  end.

(** An implementation of the macros and levels, to run the model on. *)
Definition bitwise_macros : StdMacros :=
  {| SET_BIT := fun reg bit => Z.lor reg (Z.shiftl 1 bit);
     CLEAR_BIT := fun reg bit => Z.land reg (Z.lnot (Z.shiftl 1 bit));
     TOGGLE_BIT := fun reg bit => Z.lxor reg (Z.shiftl 1 bit);
     GET_BIT := fun reg bit => Z.land (Z.shiftr reg bit) 1;
     STD_HIGH := 1;
     STD_LOW := 0 |}.

(** The state with more reports in the log and nothing else changed. *)
Definition with_reports (l : list DetError) (s : DioState) : DioState :=
  {| Dio_PortChannels := Dio_PortChannels s;
     Dio_Status := Dio_Status s;
     data_reg := data_reg s;
     det_log := det_log s ++ l |}.

(** The reports a channel function with service id [sid] makes for a call
    it rejects. *)
Definition channel_reports (sid ChannelId : Z) (s : DioState) : list DetError :=
  (if Dio_Status s =? DIO_NOT_INITIALIZED
   then [mkDetError DIO_MODULE_ID DIO_INSTANCE_ID sid DIO_E_UNINIT] else [])
  ++ (if DIO_CONFIGURED_CHANNLES <=? uint8 ChannelId
      then [mkDetError DIO_MODULE_ID DIO_INSTANCE_ID sid DIO_E_PARAM_INVALID_CHANNEL_ID]
      else []).

(** The reports a channel-group function with service id [sid] makes. *)
Definition group_reports (sid : Z) (ChannelGroupIdPtr : option Dio_ChannelGroupType)
  (s : DioState) : list DetError :=
  (if Dio_Status s =? DIO_NOT_INITIALIZED
   then [mkDetError DIO_MODULE_ID DIO_INSTANCE_ID sid DIO_E_UNINIT] else [])
  ++ match ChannelGroupIdPtr with
     | None => [mkDetError DIO_MODULE_ID DIO_INSTANCE_ID sid DIO_E_PARAM_POINTER]
     | Some _ => []
     end
  ++ [mkDetError DIO_MODULE_ID DIO_INSTANCE_ID sid DIO_E_PARAM_INVALID_GROUP].

(** The data register of the port the LEDs of a seat are on ([Dio_Cfg.h]:
    the driver's on port F, the passenger's on port B). *)
Definition led_port (led : LedId) : DataReg :=
  match led with
  | RED Driver | GREEN Driver | BLUE Driver => GPIO_PORTF_DATA_REG
  | RED Passenger | GREEN Passenger | BLUE Passenger => GPIO_PORTB_DATA_REG
  end.

(** A configuration that fills the array and names existing ports only. *)
Definition well_formed (cfg : Dio_ConfigType) : Prop :=
  Z.of_nat (length (Channels cfg)) = DIO_CONFIGURED_CHANNLES /\
  Forall (fun ch => 0 <= Port_Num ch <= 5) (Channels cfg).

(** ** The button tasks step by step *)

(** The part of a button task's pass that follows [xEventGroupWaitBits],
    [value] being what the call returned. *)
Definition buttons_update (seat : Seat) (value : Z) : Task unit :=
  match seat with
  | Driver =>
      if negb (Z.land value mainSW1_INTERRUPT_BIT =? 0)
         || negb (Z.land value mainSW3_INTERRUPT_BIT =? 0)
      then set_desired_from_level Driver
      else ret tt
  | Passenger =>
      if negb (Z.land value mainSW2_INTERRUPT_BIT =? 0)
      then set_desired_from_level Passenger
      else ret tt
  end.

(** [xEventGroupWaitBits] clears the bits when it returns, before the button
    task takes the mutex and stores the desired temperature, and a handler or
    another task can run in between.  [Fine] adds to the globals where each
    button task is: at its [xEventGroupWaitBits] ([None]), or past it with the
    value the call returned and the store still to come. *)
Record Fine : Type := mkFine {
  globals : State;
  xButtonsEventGroupValue : Seat -> option Z
}.

(** A handler or a pass of a task taken as one step, the return of a button
    task's [xEventGroupWaitBits], or the rest of that pass. *)
Inductive FineEvent : Type :=
| Pass (e : Event)
| ButtonsWoken (seat : Seat)
| ButtonsUpdate (seat : Seat).

Definition fine_fire (e : FineEvent) (c : Fine) : Fine :=
  match e with
  | Pass (ButtonsWake seat) =>
      match xButtonsEventGroupValue c seat with
      | None => mkFine (fst (fire (ButtonsWake seat) (globals c)))
                       (xButtonsEventGroupValue c)
      | Some _ => c
      end
  | Pass e => mkFine (fst (fire e (globals c))) (xButtonsEventGroupValue c)
  | ButtonsWoken seat =>
      match xButtonsEventGroupValue c seat,
            xEventGroupWaitBits seat (xBitsToWaitFor seat) (globals c) with
      | None, Some (v, s', _) =>
          mkFine s' (upd_seat seat (Some v) (xButtonsEventGroupValue c))
      | _, _ => c
      end
  | ButtonsUpdate seat =>
      match xButtonsEventGroupValue c seat with
      | Some v =>
          match buttons_update seat v (globals c) with
          | Some (_, s', _) =>
              mkFine s' (upd_seat seat None (xButtonsEventGroupValue c))
          | None => c
          end
      | None => c
      end
  end.

Definition fine_final (es : list FineEvent) (c : Fine) : Fine :=
  fold_left (fun c e => fine_fire e c) es c.

Definition fine_init : Fine := mkFine init (fun _ => None).

Definition fine_reachable (c : Fine) : Prop :=
  exists es, fine_final es fine_init = c.

(** No record has been stored past the end of the diagnostic array.  Such a
    store overwrites whatever lies behind the array, which the source does
    not determine: from then on the globals of the program need not be the
    ones of the model. *)
Definition in_bounds (s : State) : Prop := xBeyondArray s = [].

(** The three enumerations of one seat. *)
Definition seat_range (seat : Seat) (s : State) : Prop :=
  let level := value seat HeatingLevel s in
  let desired := value seat DesiredTemperature s in
  let state := value seat HeaterState s in
  0 <= level <= 3 /\
  (desired = 0 \/ desired = 25 \/ desired = 30 \/ desired = 35) /\
  0 <= state <= 3.

(** What holds of one seat in every state of the step-by-step system. *)
Definition fine_seat_ok (seat : Seat) (c : Fine) : Prop :=
  match xButtonsEventGroupValue c seat with
  | None => seat_ok seat (globals c)
  | Some v => seat_range seat (globals c) /\ Z.land v (xBitsToWaitFor seat) <> 0
  end.

Definition fine_ok (c : Fine) : Prop :=
  fine_seat_ok Driver c /\ fine_seat_ok Passenger c.

(** * Reasoning about passes *)

Arguments uint8 : simpl never.
Arguments uint32 : simpl never.

(** ** Rules of the weakest precondition *)

Ltac Zify.zify_post_hook ::= Z.to_euclidean_division_equations.

Section Rules.
Context {A : Type} (N : Prop).
Implicit Types (Q : A -> State -> list Effect -> Prop) (s : State).

Lemma wp_elim (m : Task A) Q s :
  wp m Q s -> exists a s' t, m s = Some (a, s', t) /\ Q a s' t.
Proof.
  unfold wpg. destruct (m s) as [[[a s'] t]|]; [eauto | tauto].
Qed.

Lemma wpg_mono (m : Task A) Q Q' s :
  (forall a s' t, Q a s' t -> Q' a s' t) -> wpg N m Q s -> wpg N m Q' s.
Proof.
  unfold wpg. intros HQ. destruct (m s) as [[[a s'] t]|]; [apply HQ | tauto].
Qed.

Lemma wpg_ret (a : A) Q s : Q a s [] -> wpg N (ret a) Q s.
Proof. trivial. Qed.

Lemma wpg_bind {B : Type} (m : Task B) (k : B -> Task A) Q s :
  wpg N m (fun b s1 t1 => wpg N (k b) (fun a s2 t2 => Q a s2 (t1 ++ t2)) s1) s ->
  wpg N (bind m k) Q s.
Proof.
  unfold wpg, bind. destruct (m s) as [[[b s1] t1]|]; [|tauto].
  destruct (k b s1) as [[[a s2] t2]|]; tauto.
Qed.
End Rules.

Section OperationRules.
Context (N : Prop).
Implicit Types (s : State) (seat : Seat).

Lemma wpg_load seat x (Q : Z -> State -> list Effect -> Prop) s :
  Q (mem s seat x) s [] -> wpg N (load seat x) Q s.
Proof. trivial. Qed.

Lemma wpg_assign seat x v (Q : unit -> State -> list Effect -> Prop) s :
  Q tt (set_mem (upd_mem seat x (uint8 v) (mem s)) s) [Write seat x (uint8 v)] ->
  wpg N (assign seat x v) Q s.
Proof. trivial. Qed.

Lemma wpg_emit e (Q : unit -> State -> list Effect -> Prop) s :
  Q tt s [e] -> wpg N (emit e) Q s.
Proof. trivial. Qed.

Lemma wpg_xQueueSend seat xlog (Q : unit -> State -> list Effect -> Prop) s :
  (if Z.of_nat (length (xDiagnosticQueue s seat)) <? uxQueueLength
   then Q tt (set_queue (upd_seat seat (xDiagnosticQueue s seat ++ [xlog])
                                  (xDiagnosticQueue s)) s)
          [QueueSend seat xlog]
   else N) ->
  wpg N (xQueueSend seat xlog) Q s.
Proof.
  unfold wpg, xQueueSend.
  destruct (Z.of_nat (length (xDiagnosticQueue s seat)) <? uxQueueLength); trivial.
Qed.

Lemma wpg_xQueueReceive seat (Q : xFailureLog -> State -> list Effect -> Prop) s :
  match xDiagnosticQueue s seat with
  | [] => N
  | xlog :: rest =>
      Q xlog (set_queue (upd_seat seat rest (xDiagnosticQueue s)) s)
        [QueueReceive seat xlog]
  end ->
  wpg N (xQueueReceive seat) Q s.
Proof. unfold wpg, xQueueReceive. destruct (xDiagnosticQueue s seat); trivial. Qed.

Lemma wpg_xSemaphoreGive seat (Q : unit -> State -> list Effect -> Prop) s :
  Q tt (set_semaphore (upd_seat seat true (xErrorReportSemaphore s)) s)
    [SemaphoreGive seat] ->
  wpg N (xSemaphoreGive seat) Q s.
Proof. trivial. Qed.

Lemma wpg_xSemaphoreTake seat (Q : unit -> State -> list Effect -> Prop) s :
  (if xErrorReportSemaphore s seat
   then Q tt (set_semaphore (upd_seat seat false (xErrorReportSemaphore s)) s)
          [SemaphoreTake seat]
   else N) ->
  wpg N (xSemaphoreTake seat) Q s.
Proof. unfold wpg, xSemaphoreTake. destruct (xErrorReportSemaphore s seat); trivial. Qed.

Lemma wpg_xEventGroupSetBitsFromISR seat bits
  (Q : unit -> State -> list Effect -> Prop) s :
  Q tt (set_events (upd_seat seat (Z.lor (xButtonsEventGroup s seat) bits)
                             (xButtonsEventGroup s)) s)
    [EventSetBits seat bits] ->
  wpg N (xEventGroupSetBitsFromISR seat bits) Q s.
Proof. trivial. Qed.

Lemma wpg_xEventGroupWaitBits seat bits (Q : Z -> State -> list Effect -> Prop) s :
  (if Z.land (xButtonsEventGroup s seat) bits =? 0 then N
   else Q (xButtonsEventGroup s seat)
          (set_events (upd_seat seat (Z.ldiff (xButtonsEventGroup s seat) bits)
                                (xButtonsEventGroup s)) s)
          [EventWaitBits seat (xButtonsEventGroup s seat)]) ->
  wpg N (xEventGroupWaitBits seat bits) Q s.
Proof.
  unfold wpg, xEventGroupWaitBits; cbv zeta.
  destruct (Z.land (xButtonsEventGroup s seat) bits =? 0); trivial.
Qed.

Lemma wpg_drive_heater_leds seat state (Q : unit -> State -> list Effect -> Prop) s :
  Q tt s (led_pattern seat state) -> wpg N (drive_heater_leds seat state) Q s.
Proof.
  unfold wpg, drive_heater_leds, led_pattern.
  unfold mainHEATER_STATE_LOW, mainHEATER_STATE_MEDIUM, mainHEATER_STATE_HIGH.
  destruct (state =? 1) eqn:E1; destruct (state =? 2) eqn:E2;
    destruct (state =? 3) eqn:E3; cbn; trivial; lia.
Qed.

Lemma wpg_store_diagnostic xlog (Q : unit -> State -> list Effect -> Prop) s :
  (let i := ucDiagnosticIndex s in
   if (0 <=? i) && (i <? mainDIAGNOSTIC_SIZE) then
     Q tt (set_diagnostic (<[Z.to_nat i := xlog]> (xDiagnosticArray s))
                          (uint8 (i + 1)) (xBeyondArray s) s)
       [DiagnosticStore i xlog]
   else
     Q tt (set_diagnostic (xDiagnosticArray s) (uint8 (i + 1))
                          (xBeyondArray s ++ [(i, xlog)]) s)
       [DiagnosticStore i xlog]) ->
  wpg N (store_diagnostic xlog) Q s.
Proof.
  unfold wpg, store_diagnostic; cbv zeta. destruct xlog; cbn [uiTimeStamp ucFailureCode ucFailureSeat ucHeatingLevel].
  destruct ((0 <=? ucDiagnosticIndex s) && (ucDiagnosticIndex s <? mainDIAGNOSTIC_SIZE)); trivial.
Qed.
End OperationRules.

(** A fired event either completes its pass or leaves the state alone. *)
Lemma fire_wpg (e : Event) (s : State) (P : State -> list Effect -> Prop) :
  wpg (P s []) (step e) (fun _ s' t => P s' t) s ->
  P (fst (fire e s)) (snd (fire e s)).
Proof.
  unfold wpg, fire. destruct (step e s) as [[[[] s'] t]|]; trivial.
Qed.

(** ** Tactics *)

Ltac unfold_consts :=
  unfold mainHEATER_STATE_OFF, mainHEATER_STATE_LOW, mainHEATER_STATE_MEDIUM,
    mainHEATER_STATE_HIGH, mainHEATING_LEVEL_OFF, mainHEATING_LEVEL_LOW,
    mainHEATING_LEVEL_MEDIUM, mainHEATING_LEVEL_HIGH, mainTEMP_MAX_VALID_RANGE,
    mainTEMP_MIN_VALID_RANGE, mainDESIRED_TEMP_OFF, mainDESIRED_TEMP_LOW,
    mainDESIRED_TEMP_MEDIUM, mainDESIRED_TEMP_HIGH, mainTEMP_DIFF_LOW_THRESHOLD,
    mainTEMP_DIFF_MEDIUM_THRESHOLD, mainTEMP_DIFF_HIGH_THRESHOLD,
    mainTOTAL_HEATING_LEVELS, mainDIAGNOSTIC_SIZE, uxQueueLength, pdFALSE,
    pdTRUE in *.

(** Evaluate [uint8] at numerals. *)
Ltac uint8_consts :=
  repeat match goal with
    | |- context [uint8 (Zpos ?p)] =>
        let v := eval vm_compute in (uint8 (Zpos p)) in
        change (uint8 (Zpos p)) with v
    | |- context [uint8 0] => change (uint8 0) with 0
    end.

Ltac state_simpl :=
  cbn [mem set_mem set_queue set_semaphore set_events set_diagnostic
       xDiagnosticQueue xErrorReportSemaphore xButtonsEventGroup
       xDiagnosticArray ucDiagnosticIndex xBeyondArray value
       upd_mem upd_seat Seat_eqb Var_eqb andb orb negb app fst snd];
  uint8_consts.

(** Branch on a test; a test without variables is decided by computation. *)
Ltac wp_if c :=
  let v := eval vm_compute in c in
  lazymatch v with
  | true => change c with true; cbv iota
  | false => change c with false; cbv iota
  | _ => let E := fresh "E" in destruct c eqn:E
  end.

(** One structural step through a pass. *)
Ltac wp_step :=
  lazymatch goal with
  | |- wpg _ (bind _ _) _ _ => apply wpg_bind
  | |- wpg _ (load _ _) _ _ => apply wpg_load
  | |- wpg _ (assign _ _ _) _ _ => apply wpg_assign
  | |- wpg _ (ret _) _ _ => apply wpg_ret
  | |- wpg _ (emit _) _ _ => apply wpg_emit
  | |- wpg _ (xQueueSend _ _) _ _ => apply wpg_xQueueSend
  | |- wpg _ (xQueueReceive _) _ _ => apply wpg_xQueueReceive
  | |- wpg _ (xSemaphoreGive _) _ _ => apply wpg_xSemaphoreGive
  | |- wpg _ (xSemaphoreTake _) _ _ => apply wpg_xSemaphoreTake
  | |- wpg _ (xEventGroupSetBitsFromISR _ _) _ _ => apply wpg_xEventGroupSetBitsFromISR
  | |- wpg _ (xEventGroupWaitBits _ _) _ _ => apply wpg_xEventGroupWaitBits
  | |- wpg _ (drive_heater_leds _ _) _ _ => apply wpg_drive_heater_leds
  | |- wpg _ (store_diagnostic _) _ _ => apply wpg_store_diagnostic; cbv zeta
  | |- wpg _ (Led_RED_SetOn _) _ _ => apply wpg_emit
  | |- wpg _ (Led_RED_SetOff _) _ _ => apply wpg_emit
  | |- wpg _ (if ?c then _ else _) _ _ => wp_if c
  | |- if ?c then _ else _ => wp_if c
  | |- match ?q with [] => _ | _ :: _ => _ end =>
      let E := fresh "E" in destruct q eqn:E
  end; state_simpl.

Ltac unfold_tasks :=
  unfold vDriverSensorProcessTask, vPassengerSensorsProcessTask,
    vDriverHeaterProcessTask, vPassengerHeatersProcessTask,
    vSensorProcessTask, vHeaterProcessTask, vButtonsProcessTask,
    vDriverButtonsProcessTask, vPassengerButtonProcessTask,
    set_desired_from_level, vDiagnosticTask, vDriverDiagnosticTask,
    vPassengerDiagnosticTask, GPIO_PORTF_Handler, GPIO_PORTB_Handler, next_level;
  cbv zeta.

Ltac wp_run := unfold_tasks; unfold_consts; state_simpl; repeat wp_step.

(** Boolean tests back to arithmetic. *)
Ltac bools :=
  repeat match goal with
    | H : _ && _ = true |- _ => apply andb_true_iff in H; destruct H
    | H : _ && _ = false |- _ => apply andb_false_iff in H
    | H : _ || _ = true |- _ => apply orb_true_iff in H
    | H : _ || _ = false |- _ => apply orb_false_iff in H; destruct H
    | H : negb _ = true |- _ => apply negb_true_iff in H
    | H : negb _ = false |- _ => apply negb_false_iff in H
    | H : (_ =? _) = true |- _ => apply Z.eqb_eq in H
    | H : (_ =? _) = false |- _ => apply Z.eqb_neq in H
    | H : (_ <? _) = true |- _ => apply Z.ltb_lt in H
    | H : (_ <? _) = false |- _ => apply Z.ltb_ge in H
    | H : (_ <=? _) = true |- _ => apply Z.leb_le in H
    | H : (_ <=? _) = false |- _ => apply Z.leb_gt in H
    | H : (_ >? _) = _ |- _ => rewrite Z.gtb_ltb in H
    | H : (_ >=? _) = _ |- _ => rewrite Z.geb_leb in H
    end.

Ltac arith :=
  unfold value, fault_active, out_of_range in *; unfold_consts; bools;
  unfold uint8, uint32 in *; intuition lia.

(** * Runs *)

Lemma fire_wp (e : Event) (s : State) (P : State -> list Effect -> Prop) :
  wp (step e) (fun _ s' t => P s' t) s ->
  P (fst (fire e s)) (snd (fire e s)).
Proof.
  unfold wpg, fire. destruct (step e s) as [[[[] s'] t]|]; [trivial | tauto].
Qed.

Lemma exec_cons e es s :
  exec (e :: es) s =
    (fst (exec es (fst (fire e s))), snd (fire e s) ++ snd (exec es (fst (fire e s)))).
Proof.
  cbn [exec]. destruct (fire e s) as [s1 t1]. cbn [fst snd].
  destruct (exec es s1) as [s2 t2]. reflexivity.
Qed.

Lemma final_cons e es s : final (e :: es) s = final es (fst (fire e s)).
Proof. unfold final. now rewrite exec_cons. Qed.

Lemma trace_cons e es s :
  trace (e :: es) s = snd (fire e s) ++ trace es (fst (fire e s)).
Proof. unfold trace. now rewrite exec_cons. Qed.

Lemma final_app es1 es2 s : final (es1 ++ es2) s = final es2 (final es1 s).
Proof.
  revert s. induction es1 as [|e es1 IH]; intros s; [reflexivity|].
  rewrite <- app_comm_cons, !final_cons. apply IH.
Qed.

Lemma trace_app es1 es2 s :
  trace (es1 ++ es2) s = trace es1 s ++ trace es2 (final es1 s).
Proof.
  revert s. induction es1 as [|e es1 IH]; intros s; [reflexivity|].
  rewrite <- app_comm_cons, !trace_cons, final_cons, IH. now rewrite app_assoc.
Qed.

Lemma count_app p t1 t2 : count p (t1 ++ t2) = (count p t1 + count p t2)%nat.
Proof. induction t1 as [|e t1 IH]; cbn; [reflexivity | rewrite IH; lia]. Qed.

Lemma fault_throughout_head seat es s :
  fault_throughout seat es s -> fault_active seat s.
Proof. destruct es; cbn; tauto. Qed.

Lemma fault_throughout_app seat es1 es2 s :
  fault_throughout seat (es1 ++ es2) s -> fault_throughout seat es2 (final es1 s).
Proof.
  revert s. induction es1 as [|e es1 IH]; intros s; [trivial|].
  rewrite <- app_comm_cons, final_cons. cbn [fault_throughout].
  intros [_ H]. now apply IH.
Qed.

(** * The heater intensity controller *)

(** The value a heater pass leaves in [uc...HeaterState], as a function of
    what the pass reads. *)
Lemma heater_pass_decision seat s :
  wp (vHeaterProcessTask seat)
     (fun _ s' _ =>
        let level := value seat HeatingLevel s in
        let flag := value seat ErrorFlag s in
        let desired := value seat DesiredTemperature s in
        let current := value seat TemperatureValue s in
        let diff := uint8 (desired - current) in
        value seat HeaterState s' =
          if (level =? 0) || negb (flag =? 0) then 0
          else if desired <? current then 0
          else if diff <? 2 then value seat HeaterState s
          else if diff <? 5 then 1
          else if diff <? 10 then 2
          else 3) s.
Proof.
  destruct seat; wp_run; cbv zeta;
    repeat match goal with
      | |- context [if ?c then _ else _] => destruct c eqn:?
      end; arith.
Qed.

(** A heater pass writes nothing but the seat's heater state and its shadow
    copy, and always completes. *)
Lemma heater_pass_frame seat s :
  wp (vHeaterProcessTask seat)
     (fun _ s' _ =>
        (forall seat' x, (seat' = seat -> x <> HeaterState /\ x <> PrevHeaterState) ->
                         value seat' x s' = value seat' x s) /\
        xDiagnosticQueue s' = xDiagnosticQueue s /\
        xErrorReportSemaphore s' = xErrorReportSemaphore s /\
        xButtonsEventGroup s' = xButtonsEventGroup s) s.
Proof.
  destruct seat; wp_run; (split; [|auto]);
    intros [] [] H; cbn; try reflexivity;
    destruct H as [H1 H2]; congruence.
Qed.

Lemma heater_off_under_fault seat s :
  fault_active seat s ->
  wp (vHeaterProcessTask seat)
     (fun _ s' _ => value seat HeaterState s' = mainHEATER_STATE_OFF) s.
Proof.
  intros H. eapply wpg_mono; [|apply heater_pass_decision].
  cbv beta zeta. intros _ s' _ ->.
  destruct (value seat ErrorFlag s =? 0) eqn:E; [arith|].
  now rewrite orb_true_r.
Qed.

(** While the fault is active no event turns an Off heater state into
    anything else. *)
Lemma fire_keeps_heater_off seat e s :
  fault_active seat s ->
  value seat HeaterState s = mainHEATER_STATE_OFF ->
  value seat HeaterState (fst (fire e s)) = mainHEATER_STATE_OFF.
Proof.
  intros Hf Hoff.
  apply (fire_wpg e s (fun s' _ => value seat HeaterState s' = mainHEATER_STATE_OFF)).
  destruct e as [[] []|[]|[] r n|[]|[]|[]]; destruct seat; cbn [step];
    wp_run; try assumption; try reflexivity; arith.
Qed.

Lemma run_keeps_heater_off seat es s :
  fault_throughout seat es s ->
  value seat HeaterState s = mainHEATER_STATE_OFF ->
  value seat HeaterState (final es s) = mainHEATER_STATE_OFF.
Proof.
  revert s. induction es as [|e es IH]; intros s; [trivial|].
  cbn [fault_throughout]. intros [Hf Hrest] Hoff. rewrite final_cons.
  apply IH; [assumption|]. now apply fire_keeps_heater_off.
Qed.

(** C2. While a seat's fault flag is set, every pass of the heater task
    leaves that seat's heater state Off, and the state is still Off at every
    later point of the run reached with the flag still set, whatever the
    heating level, the desired and the current temperature are or become. *)
Theorem C2_heater_off_while_fault_active seat s es1 es2 :
  fault_throughout seat (es1 ++ HeaterTick seat :: es2) s ->
  value seat HeaterState (final (es1 ++ HeaterTick seat :: es2) s)
    = mainHEATER_STATE_OFF.
Proof.
  intros H. apply fault_throughout_app in H. rewrite final_app.
  set (s1 := final es1 s) in *. rewrite final_cons.
  pose proof H as [Hf Hrest]. apply run_keeps_heater_off; [exact Hrest|].
  apply (fire_wp (HeaterTick seat) s1
           (fun s' _ => value seat HeaterState s' = mainHEATER_STATE_OFF)).
  now apply heater_off_under_fault.
Qed.

(** The driver's level is High and desired is 35 when a reading of 45 raises
    the fault; later the reading is 60 and the level is changed again. *)
Lemma C2_heater_off_while_fault_active_witness :
  let s := final (control_edge SW1 ++ control_edge SW1 ++ control_edge SW3
                  ++ [SensorTick Driver 20 1; HeaterTick Driver;
                      SensorTick Driver 45 2]) init in
  let es1 := [IrqPortF true false; SensorTick Driver 60 3] in
  let es2 := [DiagnosticWake Driver; IrqPortB true; ButtonsWake Driver;
              HeaterTick Driver] in
  fault_throughout Driver (es1 ++ HeaterTick Driver :: es2) s /\
  value Driver HeaterState s = mainHEATER_STATE_HIGH /\
  value Driver HeaterState (final (es1 ++ HeaterTick Driver :: es2) s)
    = mainHEATER_STATE_OFF.
Proof.
  intros s es1 es2. split; [|split].
  - vm_compute. repeat split; discriminate.
  - reflexivity.
  - apply (C2_heater_off_while_fault_active Driver s es1 es2).
    vm_compute. repeat split; discriminate.
Defined.

(** X1. The bands that the heater pass does implement: with the fault flag clear
    and a level other than Off, a desired temperature below the current one
    gives Off, a difference in [2,5) gives Low, in [5,10) Medium, and 10 or
    more High.  For a difference of 0 or 1 the pass assigns nothing and the
    heater state keeps the value it had. *)
Lemma heater_pass_bands seat s :
  value seat ErrorFlag s = pdFALSE ->
  value seat HeatingLevel s <> mainHEATING_LEVEL_OFF ->
  0 <= value seat TemperatureValue s < 256 ->
  0 <= value seat DesiredTemperature s < 256 ->
  exists s' t,
    vHeaterProcessTask seat s = Some (tt, s', t) /\
    let desired := value seat DesiredTemperature s in
    let current := value seat TemperatureValue s in
    let diff := desired - current in
    (desired < current -> value seat HeaterState s' = mainHEATER_STATE_OFF) /\
    (0 <= diff < 2 -> value seat HeaterState s' = value seat HeaterState s) /\
    (2 <= diff < 5 -> value seat HeaterState s' = mainHEATER_STATE_LOW) /\
    (5 <= diff < 10 -> value seat HeaterState s' = mainHEATER_STATE_MEDIUM) /\
    (10 <= diff -> value seat HeaterState s' = mainHEATER_STATE_HIGH).
Proof.
  intros Hflag Hlevel Hcur Hdes.
  destruct (wp_elim _ _ _ (heater_pass_decision seat s)) as ([] & s' & t & Hrun & Hdec).
  exists s', t. split; [exact Hrun|]. cbv zeta in *. rewrite Hdec. clear Hdec Hrun.
  repeat match goal with
    | |- context [if ?c then _ else _] => destruct c eqn:?
    end; arith.
Qed.

(** C1. At desired 25 and current 24 (difference 1), fault flag clear and level
    Low, a heater pass leaves the driver's heater state at Low: the chain of
    tests has no branch for a difference below 2, so nothing is assigned. *)
Theorem C1_difference_below_two_keeps_heater_state :
  let s := final warming_up init in
  value Driver ErrorFlag s = pdFALSE /\
  value Driver HeatingLevel s = mainHEATING_LEVEL_LOW /\
  value Driver DesiredTemperature s = 25 /\
  value Driver TemperatureValue s = 24 /\
  value Driver HeaterState s = mainHEATER_STATE_LOW /\
  exists s' t,
    vHeaterProcessTask Driver s = Some (tt, s', t) /\
    value Driver HeaterState s' = mainHEATER_STATE_LOW /\
    t = [].
Proof.
  cbv zeta. repeat split. eexists _, _. repeat split.
Qed.

(** The shadow copy after a heater pass, and the pin writes of the pass: the
    LEDs are written, and the shadow copy updated, exactly when the new heater
    state differs from the shadow copy or the fault flag equals [pdTRUE]. *)
Lemma heater_pass_outputs seat s :
  wp (vHeaterProcessTask seat)
     (fun _ s' t =>
        let redrive :=
          negb (value seat PrevHeaterState s =? value seat HeaterState s')
          || (value seat ErrorFlag s =? pdTRUE) in
        dio_writes t =
          (if redrive then led_pattern seat (value seat HeaterState s') else []) /\
        value seat PrevHeaterState s' =
          (if redrive then uint8 (value seat HeaterState s')
           else value seat PrevHeaterState s)) s.
Proof.
  destruct seat; wp_run; cbv zeta; unfold value; state_simpl;
    rewrite ?app_nil_r; cbn [dio_writes is_DioWrite app];
    repeat match goal with
      | H : ?c = _ |- context [if ?c then _ else _] => rewrite H
      end; auto.
Qed.

(** C9. A heater pass writes the two intensity LEDs, and updates the last
    commanded state, exactly when the heater state it computed differs from
    the last commanded state or the seat's fault flag is set at that pass;
    in every other pass it writes no pin and keeps the last commanded state.
    The test is on the level of the flag, not on its rising edge: with a
    fault raised two heater passes ago and the heater state Off, unchanged
    and already commanded, the next pass writes the LEDs again. *)
Theorem C9_leds_redriven_while_a_fault_persists :
  (forall seat s,
     exists s' t,
       vHeaterProcessTask seat s = Some (tt, s', t) /\
       let redrive :=
         negb (value seat PrevHeaterState s =? value seat HeaterState s')
         || (value seat ErrorFlag s =? pdTRUE) in
       dio_writes t =
         (if redrive then led_pattern seat (value seat HeaterState s') else []) /\
       value seat PrevHeaterState s' =
         (if redrive then uint8 (value seat HeaterState s')
          else value seat PrevHeaterState s)) /\
  (let s := final [SensorTick Driver 45 1; HeaterTick Driver; HeaterTick Driver] init in
   value Driver ErrorFlag s = pdTRUE /\
   value Driver HeaterState s = mainHEATER_STATE_OFF /\
   value Driver PrevHeaterState s = mainHEATER_STATE_OFF /\
   value Driver HeaterState (final [HeaterTick Driver] s) = mainHEATER_STATE_OFF /\
   dio_writes (trace [HeaterTick Driver] s) = led_pattern Driver mainHEATER_STATE_OFF /\
   led_pattern Driver mainHEATER_STATE_OFF <> []).
Proof.
  split.
  - intros seat s.
    destruct (wp_elim _ _ _ (heater_pass_outputs seat s))
      as ([] & s' & t & Hrun & Hout & Hprev).
    exists s', t. cbv zeta in *. auto.
  - cbv zeta. repeat split. discriminate.
Qed.

(** * The sensor sampler and fault detector *)

(** A sensor pass completes when the seat's queue has a free slot. *)
Lemma sensor_pass_completes seat reading now s :
  has_room seat s ->
  exists s' t, vSensorProcessTask seat reading now s = Some (tt, s', t).
Proof.
  intros Hroom.
  assert (H : wp (vSensorProcessTask seat reading now) (fun _ _ _ => True) s)
    by (destruct seat; wp_run; try exact I; unfold has_room in Hroom; lia).
  destruct (wp_elim _ _ _ H) as ([] & s' & t & Hrun & _). eauto.
Qed.

(** The pass that sees an out-of-range sample with the flag clear and a free
    slot in the queue. *)
Lemma sensor_pass_raises seat reading now s :
  value seat ErrorFlag s = pdFALSE ->
  has_room seat s ->
  out_of_range (uint8 reading) ->
  wp (vSensorProcessTask seat reading now)
     (fun _ s' t =>
        count (is_QueueSend seat) t = 1%nat /\
        count (is_SemaphoreGive seat) t = 1%nat /\
        count (is_fault_raise seat) t = 1%nat /\
        value seat ErrorFlag s' = pdTRUE /\
        xDiagnosticQueue s' seat =
          xDiagnosticQueue s seat
          ++ [failure_record seat (uint8 reading) now (value seat HeatingLevel s)] /\
        xErrorReportSemaphore s' seat = true) s.
Proof.
  intros Hflag Hroom Hout. unfold has_room in Hroom.
  destruct seat; wp_run; try (exfalso; arith); try lia;
    unfold failure_record, value; unfold_consts;
    repeat split;
    rewrite Z.gtb_ltb in *;
    (destruct (40 <? uint8 reading) eqn:Ehigh; [reflexivity|]);
    (destruct (uint8 reading <? 5) eqn:Elow; [reflexivity|]);
    exfalso; arith.
Qed.

(** The pass that sees an out-of-range sample with the flag already set. *)
Lemma sensor_pass_holds seat reading now s :
  fault_active seat s ->
  out_of_range (uint8 reading) ->
  wp (vSensorProcessTask seat reading now)
     (fun _ s' t =>
        count (is_QueueSend seat) t = 0%nat /\
        count (is_SemaphoreGive seat) t = 0%nat /\
        count (is_fault_raise seat) t = 0%nat /\
        fault_active seat s' /\
        xDiagnosticQueue s' = xDiagnosticQueue s /\
        xErrorReportSemaphore s' = xErrorReportSemaphore s) s.
Proof.
  intros Hflag Hout. destruct seat; wp_run; try (exfalso; arith);
    repeat split; assumption.
Qed.

Lemma sampling_holds seat samples s :
  fault_active seat s ->
  Forall (fun rn => out_of_range (uint8 (fst rn))) samples ->
  count (is_QueueSend seat) (trace (sampling seat samples) s) = 0%nat /\
  count (is_SemaphoreGive seat) (trace (sampling seat samples) s) = 0%nat /\
  count (is_fault_raise seat) (trace (sampling seat samples) s) = 0%nat /\
  value seat ErrorFlag (final (sampling seat samples) s)
    = value seat ErrorFlag s /\
  xDiagnosticQueue (final (sampling seat samples) s) = xDiagnosticQueue s /\
  xErrorReportSemaphore (final (sampling seat samples) s) = xErrorReportSemaphore s.
Proof.
  revert s. induction samples as [|[r n] samples IH]; intros s Hflag Hall.
  - repeat split.
  - inversion Hall as [|? ? Hout Hrest]; subst. cbn [fst] in Hout.
    cbn [sampling map fst snd]. fold (sampling seat samples).
    rewrite trace_cons, final_cons, !count_app.
    pose proof (fire_wp (SensorTick seat r n) s _
                  (sensor_pass_holds seat r n s Hflag Hout))
      as (H1 & H2 & H3 & H4 & H5 & H6).
    cbv beta in H1, H2, H3, H4, H5, H6.
    destruct (IH _ H4 Hrest) as (I1 & I2 & I3 & I4 & I5 & I6).
    rewrite H1, H2, H3, I1, I2, I3, I4, I5, I6, H5, H6. repeat split.
    clear - Hflag Hout.
    apply (fire_wp (SensorTick seat r n) s
             (fun s' _ => value seat ErrorFlag s' = value seat ErrorFlag s)).
    destruct seat; cbn [step]; wp_run; try reflexivity; exfalso; arith.
Qed.

(** C4. A non-empty run of consecutive sensor passes of one seat whose
    samples all lie outside [5, 40], begun with the seat's fault flag clear
    and a free slot in the seat's queue, sends exactly one failure record,
    gives the seat's semaphore exactly once and sets the fault flag exactly
    once.  At the end of the run the flag is set, the queue holds one record
    more than before, the record of the first sample, and the semaphore is
    given. *)
Theorem C4_fault_raised_once_per_run seat s samples :
  samples <> [] ->
  value seat ErrorFlag s = pdFALSE ->
  has_room seat s ->
  Forall (fun rn => out_of_range (uint8 (fst rn))) samples ->
  count (is_QueueSend seat) (trace (sampling seat samples) s) = 1%nat /\
  count (is_SemaphoreGive seat) (trace (sampling seat samples) s) = 1%nat /\
  count (is_fault_raise seat) (trace (sampling seat samples) s) = 1%nat /\
  value seat ErrorFlag (final (sampling seat samples) s) = pdTRUE /\
  (exists r n rest,
     samples = (r, n) :: rest /\
     xDiagnosticQueue (final (sampling seat samples) s) seat =
       xDiagnosticQueue s seat
       ++ [failure_record seat (uint8 r) n (value seat HeatingLevel s)]) /\
  xErrorReportSemaphore (final (sampling seat samples) s) seat = true.
Proof.
  intros Hne Hflag Hroom Hall. destruct samples as [|[r n] samples]; [congruence|].
  inversion Hall as [|? ? Hout Hrest]; subst. cbn [fst] in Hout.
  cbn [sampling map fst snd]. fold (sampling seat samples).
  rewrite trace_cons, final_cons, !count_app.
  pose proof (fire_wp (SensorTick seat r n) s _
                (sensor_pass_raises seat r n s Hflag Hroom Hout))
    as (H1 & H2 & H3 & H4 & H5 & H6).
  cbv beta in H1, H2, H3, H4, H5, H6.
  assert (Hact : fault_active seat (fst (fire (SensorTick seat r n) s)))
    by (unfold fault_active; rewrite H4; discriminate).
  destruct (sampling_holds seat samples _ Hact Hrest)
    as (I1 & I2 & I3 & I4 & I5 & I6).
  rewrite H1, H2, H3, I1, I2, I3, I4, I5, I6.
  repeat split; auto. exists r, n, samples. auto.
Qed.

(** The passenger sensor stuck at 45 degrees, and then at 2, for five passes
    in all. *)
Lemma C4_fault_raised_once_per_run_witness :
  let samples := [(45, 10); (45, 20); (45, 30); (2, 40); (2, 50)] in
  count (is_QueueSend Passenger) (trace (sampling Passenger samples) init) = 1%nat /\
  count (is_SemaphoreGive Passenger) (trace (sampling Passenger samples) init) = 1%nat /\
  count (is_fault_raise Passenger) (trace (sampling Passenger samples) init) = 1%nat /\
  value Passenger ErrorFlag (final (sampling Passenger samples) init) = pdTRUE /\
  xDiagnosticQueue (final (sampling Passenger samples) init) Passenger
    = [failure_record Passenger 45 10 mainHEATING_LEVEL_OFF] /\
  xErrorReportSemaphore (final (sampling Passenger samples) init) Passenger = true.
Proof.
  intros samples.
  destruct (C4_fault_raised_once_per_run Passenger init samples)
    as (H1 & H2 & H3 & H4 & _ & H6).
  - discriminate.
  - reflexivity.
  - unfold has_room. cbn. unfold uxQueueLength. lia.
  - unfold samples, out_of_range, uint8. repeat constructor; cbn; lia.
  - repeat split; assumption.
Defined.

(** C5. With the fault flag set, a sensor pass whose sample lies inside
    [5, 40] stores the sample, clears the flag and switches the seat's red LED
    off, and does nothing else: no record is built or queued, the semaphore
    of the diagnostic task is not given, the diagnostic array is untouched. *)
Theorem C5_recovery_in_the_sampler seat s reading now :
  fault_active seat s ->
  5 <= uint8 reading <= 40 ->
  exists s',
    vSensorProcessTask seat reading now s =
      Some (tt, s', [Write seat TemperatureValue (uint8 reading);
                     Write seat ErrorFlag pdFALSE;
                     DioWrite (RED seat) LED_OFF]) /\
    value seat ErrorFlag s' = pdFALSE /\
    xDiagnosticQueue s' = xDiagnosticQueue s /\
    xErrorReportSemaphore s' = xErrorReportSemaphore s /\
    xDiagnosticArray s' = xDiagnosticArray s /\
    ucDiagnosticIndex s' = ucDiagnosticIndex s.
Proof.
  intros Hflag Hin.
  assert (H : wp (vSensorProcessTask seat reading now)
                (fun _ s' t =>
                   t = [Write seat TemperatureValue (uint8 reading);
                        Write seat ErrorFlag pdFALSE;
                        DioWrite (RED seat) LED_OFF] /\
                   value seat ErrorFlag s' = pdFALSE /\
                   xDiagnosticQueue s' = xDiagnosticQueue s /\
                   xErrorReportSemaphore s' = xErrorReportSemaphore s /\
                   xDiagnosticArray s' = xDiagnosticArray s /\
                   ucDiagnosticIndex s' = ucDiagnosticIndex s) s).
  { destruct seat; wp_run; try (exfalso; arith); repeat split. }
  destruct (wp_elim _ _ _ H) as ([] & s' & t & Hrun & -> & Hrest). eauto.
Qed.

(** The driver's sensor reads 45 and then 33. *)
Lemma C5_recovery_in_the_sampler_witness :
  let s := final [SensorTick Driver 45 1; DiagnosticWake Driver] init in
  fault_active Driver s /\
  exists s',
    vSensorProcessTask Driver 33 2 s =
      Some (tt, s', [Write Driver TemperatureValue (uint8 33);
                     Write Driver ErrorFlag pdFALSE;
                     DioWrite (RED Driver) LED_OFF]) /\
    value Driver ErrorFlag s' = pdFALSE /\
    xDiagnosticQueue s' = xDiagnosticQueue s /\
    xErrorReportSemaphore s' = xErrorReportSemaphore s /\
    xDiagnosticArray s' = xDiagnosticArray s /\
    ucDiagnosticIndex s' = ucDiagnosticIndex s.
Proof.
  intros s. split.
  - vm_compute. discriminate.
  - apply (C5_recovery_in_the_sampler Driver s 33 2).
    + vm_compute. discriminate.
    + unfold uint8. cbn. lia.
Defined.

(** * Invariants of the reachable states *)

Lemma land_lor_nonzero v b w : Z.land b w <> 0 -> Z.land (Z.lor v b) w <> 0.
Proof.
  intros Hb H. rewrite Z.land_lor_distr_l in H.
  apply Z.lor_eq_0_iff in H. tauto.
Qed.

Lemma land_ldiff_same v w : Z.land (Z.ldiff v w) w = 0.
Proof.
  apply Z.bits_inj'. intros n Hn.
  rewrite Z.land_spec, Z.ldiff_spec, Z.bits_0.
  destruct (Z.testbit v n), (Z.testbit w n); reflexivity.
Qed.

Lemma land_3_split v : Z.land v 1 = 0 -> Z.land v 2 = 0 -> Z.land v 3 = 0.
Proof.
  intros H1 H2. change 3 with (Z.lor 1 2).
  rewrite Z.land_lor_distr_r, H1, H2. reflexivity.
Qed.

Lemma init_ok : system_ok init.
Proof. split; cbv; intuition congruence. Qed.

Ltac unfold_bits :=
  unfold no_edge_pending, xBitsToWaitFor, mainSW1_INTERRUPT_BIT,
    mainSW2_INTERRUPT_BIT, mainSW3_INTERRUPT_BIT in *;
  change (Z.shiftl 1 0) with 1 in *; change (Z.shiftl 1 1) with 2 in *;
  change (Z.lor 1 2) with 3 in *.

Ltac rewrite_tests :=
  repeat match goal with
    | H : ?c = _ |- context [if ?c then _ else _] => rewrite H
    end.

Ltac bits_absurd :=
  exfalso; bools;
  match goal with
  | H1 : Z.land ?v 1 = 0, H2 : Z.land ?v 2 = 0, H3 : Z.land ?v 3 <> 0 |- _ =>
      exact (H3 (land_3_split v H1 H2))
  end.

Ltac close_ok_1 :=
  lazymatch goal with
  | |- _ -> _ =>
      let Hp := fresh "Hp" in
      intros Hp;
      first
        [ exfalso; revert Hp; apply land_lor_nonzero; discriminate
        | solve [rewrite_tests; reflexivity]
        | solve [auto]
        | solve [arith] ]
  | |- _ =>
      first [ assumption | solve [unfold uint8; lia] | solve [arith] ]
  end.

Ltac close_ok :=
  first
    [ solve [bits_absurd]
    | repeat match goal with |- _ /\ _ => split end; close_ok_1 ].

Lemma fire_ok e s : system_ok s -> system_ok (fst (fire e s)).
Proof.
  intros Hok. apply (fire_wpg e s (fun s' _ => system_ok s')).
  destruct Hok as [(D1 & D2 & D3 & D4) (P1 & P2 & P3 & P4)].
  cbv zeta in *. unfold value in *.
  destruct e as [[] []|[]|[] r n|[]|[]|[]]; cbn [step]; unfold_bits;
    wp_run; unfold system_ok, seat_ok, value; unfold_bits; state_simpl; cbv zeta;
    close_ok.
Qed.

Lemma run_ok es s : system_ok s -> system_ok (final es s).
Proof.
  revert s. induction es as [|e es IH]; intros s Hok; [exact Hok|].
  rewrite final_cons. apply IH, fire_ok, Hok.
Qed.

Lemma reachable_ok s : reachable s -> system_ok s.
Proof. intros [es <-]. apply run_ok, init_ok. Qed.

Lemma system_ok_seat seat s : system_ok s -> seat_ok seat s.
Proof. intros [HD HP]. destruct seat; assumption. Qed.

(** C10. In every reachable state in which no record has been stored past
    the end of the diagnostic array, each seat's heating level is one of
    0, 1, 2, 3, its desired temperature one of 0, 25, 30, 35 and its heater
    state one of 0, 1, 2, 3. *)
Theorem C10_values_stay_in_their_enumerations s seat :
  reachable s ->
  in_bounds s ->
  0 <= value seat HeatingLevel s <= 3 /\
  (value seat DesiredTemperature s = mainDESIRED_TEMP_OFF \/
   value seat DesiredTemperature s = mainDESIRED_TEMP_LOW \/
   value seat DesiredTemperature s = mainDESIRED_TEMP_MEDIUM \/
   value seat DesiredTemperature s = mainDESIRED_TEMP_HIGH) /\
  0 <= value seat HeaterState s <= 3.
Proof.
  intros Hs _.
  destruct (system_ok_seat seat s (reachable_ok s Hs)) as (H1 & H2 & H3 & _).
  auto.
Qed.

(** Three presses for the driver, a heater pass at 20 degrees, a fault. *)
Lemma C10_values_stay_in_their_enumerations_witness :
  let s := final (control_edge SW1 ++ control_edge SW3 ++ control_edge SW1
                  ++ [SensorTick Driver 20 1; HeaterTick Driver;
                      SensorTick Driver 200 2; DiagnosticWake Driver]) init in
  reachable s /\
  in_bounds s /\
  (0 <= value Driver HeatingLevel s <= 3 /\
   (value Driver DesiredTemperature s = mainDESIRED_TEMP_OFF \/
    value Driver DesiredTemperature s = mainDESIRED_TEMP_LOW \/
    value Driver DesiredTemperature s = mainDESIRED_TEMP_MEDIUM \/
    value Driver DesiredTemperature s = mainDESIRED_TEMP_HIGH) /\
   0 <= value Driver HeaterState s <= 3).
Proof.
  intros s.
  assert (Hs : reachable s) by (eexists; reflexivity).
  split; [exact Hs|]. split; [reflexivity|].
  apply (C10_values_stay_in_their_enumerations s Driver Hs). reflexivity.
Defined.

(** * The level selector *)

(** C8 fails as stated: after the interrupt handler has incremented the
    level and before the button task has run, the level is Low while the
    desired temperature is still 0. *)
Lemma C8_level_and_desired_diverge :
  reachable just_pressed /\
  value Driver HeatingLevel just_pressed = level_code Low /\
  value Driver DesiredTemperature just_pressed <> spec_desiredTemperature Low.
Proof.
  split; [eexists; reflexivity|]. split; [reflexivity|]. discriminate.
Qed.

Lemma uint8_level x : uint8 (x mod 4) = x mod 4.
Proof. unfold uint8. apply Z.mod_small. lia. Qed.

(** The handler of a switch stores [(level + 1) mod 4] in the heating level
    of the switch's seat and leaves a signal pending for its button task. *)
Lemma irq_increments_level sw s :
  wp (step (irq_of sw))
     (fun _ s1 _ =>
        value (seat_of sw) HeatingLevel s1
          = (value (seat_of sw) HeatingLevel s + 1) mod 4 /\
        ~ no_edge_pending (seat_of sw) s1) s.
Proof.
  destruct sw; cbn [irq_of seat_of step]; wp_run; unfold value; unfold_bits;
    state_simpl; rewrite ?uint8_level;
    (split; [reflexivity | apply land_lor_nonzero; discriminate]).
Qed.

(** With a signal pending and the level in range, a pass of the button task
    completes, keeps the level and stores the desired temperature mapped to
    it. *)
Lemma buttons_pass_maps_level seat s :
  ~ no_edge_pending seat s ->
  0 <= value seat HeatingLevel s <= 3 ->
  wp (vButtonsProcessTask seat)
     (fun _ s2 _ =>
        let level := value seat HeatingLevel s in
        value seat HeatingLevel s2 = level /\
        value seat DesiredTemperature s2 =
          if level =? 0 then 0 else if level =? 1 then 25
          else if level =? 2 then 30 else 35) s.
Proof.
  intros Hp Hl. destruct seat; unfold_bits; wp_run; cbv zeta; unfold value in *;
    unfold_bits; state_simpl.
  all: try solve [split; [reflexivity | rewrite_tests; reflexivity]].
  all: try solve [bits_absurd].
  all: arith.
Qed.

(** C7. A control edge makes the seat's heating level [(level + 1) mod 4]
    (in the interrupt handler), and the pass of the button task that it
    wakes stores the desired temperature that the fixed mapping gives for the
    new level; from the initial state (level Off, desired 0) four successive
    edges of any switch give the desired temperatures 25, 30, 35, 0. *)
Theorem C7_control_edge_cycles_level_and_desired sw :
  (forall s,
   exists s1 t1 s2 t2,
     step (irq_of sw) s = Some (tt, s1, t1) /\
     value (seat_of sw) HeatingLevel s1
       = (value (seat_of sw) HeatingLevel s + 1) mod mainTOTAL_HEATING_LEVELS /\
     step (ButtonsWake (seat_of sw)) s1 = Some (tt, s2, t2) /\
     value (seat_of sw) HeatingLevel s2 = value (seat_of sw) HeatingLevel s1 /\
     exists l : Level,
       value (seat_of sw) HeatingLevel s2 = level_code l /\
       value (seat_of sw) DesiredTemperature s2 = spec_desiredTemperature l) /\
  value (seat_of sw) HeatingLevel init = level_code Off /\
  value (seat_of sw) DesiredTemperature init = spec_desiredTemperature Off /\
  desired_after_edges sw 4 init =
    [spec_desiredTemperature Low; spec_desiredTemperature Medium;
     spec_desiredTemperature High; spec_desiredTemperature Off].
Proof.
  split; [|destruct sw; repeat split].
  intros s. set (seat := seat_of sw).
  destruct (wp_elim _ _ _ (irq_increments_level sw s))
    as ([] & s1 & t1 & Hirq & Hlevel & Hpending).
  fold seat in Hlevel, Hpending.
  assert (Hrange : 0 <= value seat HeatingLevel s1 <= 3) by (rewrite Hlevel; lia).
  destruct (wp_elim _ _ _ (buttons_pass_maps_level seat s1 Hpending Hrange))
    as ([] & s2 & t2 & Hbtn & Hkeep & Hdes).
  cbv zeta in Hkeep, Hdes.
  exists s1, t1, s2, t2. repeat split; try assumption.
  rewrite Hdes, Hkeep.
  assert (Hl : value seat HeatingLevel s1 = 0 \/ value seat HeatingLevel s1 = 1 \/
               value seat HeatingLevel s1 = 2 \/ value seat HeatingLevel s1 = 3) by lia.
  destruct Hl as [-> | [-> | [-> | ->]]];
    [exists Off | exists Low | exists Medium | exists High]; split; reflexivity.
Qed.

(** * The diagnostic logger *)

(** Neither diagnostic task tests the index: each record stored moves
    [ucDiagnosticIndex] one further, whatever its value. *)
Lemma store_diagnostic_index xlog s :
  wp (store_diagnostic xlog)
     (fun _ s' _ => ucDiagnosticIndex s' = uint8 (ucDiagnosticIndex s + 1)) s.
Proof. wp_step; wp_step; reflexivity. Qed.

(** C3. After six logged faults the write index is 6, past the five slots
    of the array, and the sixth record was stored at index 5, outside the
    array; no slot was overwritten by it (slot 0 still has the first record). *)
Theorem C3_sixth_record_stored_past_the_array :
  let s := final six_faults init in
  length (xDiagnosticArray s) = Z.to_nat mainDIAGNOSTIC_SIZE /\
  ucDiagnosticIndex s = 6 /\
  xBeyondArray s = [(5, mkFailureLog 6 mainTEMP_OVER_RANGE_FAIL mainDRIVER_SEAT_FAIL 0)] /\
  xDiagnosticArray s !! 0%nat
    = Some (mkFailureLog 1 mainTEMP_OVER_RANGE_FAIL mainDRIVER_SEAT_FAIL 0).
Proof. cbv zeta. repeat split. Qed.

(** X7. The order of the effects of a pass of the driver's diagnostic task. *)
Lemma driver_diagnostic_order s xlog rest :
  xErrorReportSemaphore s Driver = true ->
  xDiagnosticQueue s Driver = xlog :: rest ->
  exists s',
    vDriverDiagnosticTask s =
      Some (tt, s', [SemaphoreTake Driver;
                     Write Driver HeaterState mainHEATER_STATE_OFF;
                     QueueReceive Driver xlog;
                     DiagnosticStore (ucDiagnosticIndex s) xlog;
                     DioWrite (RED Driver) LED_ON]).
Proof.
  intros Hsem Hq.
  assert (H : wp vDriverDiagnosticTask
                (fun _ _ t =>
                   t = [SemaphoreTake Driver;
                        Write Driver HeaterState mainHEATER_STATE_OFF;
                        QueueReceive Driver xlog;
                        DiagnosticStore (ucDiagnosticIndex s) xlog;
                        DioWrite (RED Driver) LED_ON]) s).
  { wp_run; rewrite ?Hsem, ?Hq in *; try discriminate;
      repeat wp_step; congruence. }
  destruct (wp_elim _ _ _ H) as ([] & s' & t & Hrun & ->). eauto.
Qed.

(** The order of the effects of a pass of the passenger's diagnostic task. *)
Lemma passenger_diagnostic_order s xlog rest :
  xErrorReportSemaphore s Passenger = true ->
  xDiagnosticQueue s Passenger = xlog :: rest ->
  exists s',
    vPassengerDiagnosticTask s =
      Some (tt, s', [SemaphoreTake Passenger;
                     QueueReceive Passenger xlog;
                     DiagnosticStore (ucDiagnosticIndex s) xlog;
                     Write Passenger HeaterState mainHEATER_STATE_OFF;
                     DioWrite (RED Passenger) LED_ON]).
Proof.
  intros Hsem Hq.
  assert (H : wp vPassengerDiagnosticTask
                (fun _ _ t =>
                   t = [SemaphoreTake Passenger;
                        QueueReceive Passenger xlog;
                        DiagnosticStore (ucDiagnosticIndex s) xlog;
                        Write Passenger HeaterState mainHEATER_STATE_OFF;
                        DioWrite (RED Passenger) LED_ON]) s).
  { wp_run; rewrite ?Hsem, ?Hq in *; try discriminate;
      repeat wp_step; congruence. }
  destruct (wp_elim _ _ _ H) as ([] & s' & t & Hrun & ->). eauto.
Qed.

(** C6. The passenger's sensor reads 45 at level Off; the pass of the
    passenger's diagnostic task that follows receives the record and stores
    it in the diagnostic array first, and only then writes Off to the heater
    state, before it switches the red LED on. *)
Theorem C6_passenger_logger_drains_before_heater_off :
  let s := final [SensorTick Passenger 45 7] init in
  let xlog := mkFailureLog 7 mainTEMP_OVER_RANGE_FAIL mainPASSENGER_SEAT_FAIL 0 in
  exists s',
    vPassengerDiagnosticTask s =
      Some (tt, s', [SemaphoreTake Passenger;
                     QueueReceive Passenger xlog;
                     DiagnosticStore 0 xlog;
                     Write Passenger HeaterState mainHEATER_STATE_OFF;
                     DioWrite (RED Passenger) LED_ON]).
Proof. cbv zeta. eexists. reflexivity. Qed.

(** * Signalling between the sampler and the logger *)




(** X10. Whatever the state, every store that a handler or a task pass makes to a
    heating level, a desired temperature or a heater state stores a member of
    the enumeration. *)
Lemma fire_writes_in_enum e s : Forall write_in_enum (snd (fire e s)).
Proof.
  apply (fire_wpg e s (fun _ t => Forall write_in_enum t)).
  destruct e as [[] []|[]|[] r n|[]|[]|[]]; cbn [step];
    wp_run; rewrite ?uint8_level; unfold led_pattern;
    repeat match goal with
      | |- Forall _ [] => constructor
      | |- Forall _ (_ :: _) =>
          constructor; [cbn [write_in_enum]; first [exact I | lia | tauto] |]
      end.
Qed.

(** A completed pass of a button task leaves no signal pending for it. *)
Lemma buttons_pass_settles seat s :
  wpg True (vButtonsProcessTask seat) (fun _ s' _ => no_edge_pending seat s') s.
Proof.
  destruct seat; unfold_bits; wp_run; unfold_bits; state_simpl;
    trivial; apply land_ldiff_same.
Qed.

(** The boundary differences 1, 2, 4, 5, 9, 10, 11 at level High, each from a
    heater state Off: 1 keeps the state (here Off), 2 and 4 give Low, 5 and 9
    Medium, 10 and 11 High. *)
Lemma heater_pass_at_the_boundaries :
  map (fun current => value Driver HeaterState
                        (final [HeaterTick Driver] (driver_high_at current)))
      [34; 33; 31; 30; 26; 25; 24]
  = [mainHEATER_STATE_OFF; mainHEATER_STATE_LOW; mainHEATER_STATE_LOW;
     mainHEATER_STATE_MEDIUM; mainHEATER_STATE_MEDIUM;
     mainHEATER_STATE_HIGH; mainHEATER_STATE_HIGH].
Proof. reflexivity. Qed.


(** * Further properties of the tasks *)


(** The driver at level Low, desired 25, reading 22: a difference of 3. *)
Lemma heater_pass_bands_witness :
  let s := final (control_edge SW1 ++ [SensorTick Driver 22 1]) init in
  exists s' t,
    vHeaterProcessTask Driver s = Some (tt, s', t) /\
    let desired := value Driver DesiredTemperature s in
    let current := value Driver TemperatureValue s in
    let diff := desired - current in
    (desired < current -> value Driver HeaterState s' = mainHEATER_STATE_OFF) /\
    (0 <= diff < 2 -> value Driver HeaterState s' = value Driver HeaterState s) /\
    (2 <= diff < 5 -> value Driver HeaterState s' = mainHEATER_STATE_LOW) /\
    (5 <= diff < 10 -> value Driver HeaterState s' = mainHEATER_STATE_MEDIUM) /\
    (10 <= diff -> value Driver HeaterState s' = mainHEATER_STATE_HIGH).
Proof.
  intros s. apply (heater_pass_bands Driver s).
  - reflexivity.
  - vm_compute. discriminate.
  - vm_compute. split; [discriminate | reflexivity].
  - vm_compute. split; [discriminate | reflexivity].
Defined.

(** X2. A heater pass always completes and changes nothing but the seat's
    heater state and its shadow copy: every other variable of either seat,
    the queues, the semaphores, the event groups and the diagnostic array are
    as before. *)
Theorem X2_heater_pass_changes_only_the_heater_state seat s :
  exists s' t,
    vHeaterProcessTask seat s = Some (tt, s', t) /\
    (forall seat' x,
       (seat', x) <> (seat, HeaterState) ->
       (seat', x) <> (seat, PrevHeaterState) ->
       value seat' x s' = value seat' x s) /\
    xDiagnosticQueue s' = xDiagnosticQueue s /\
    xErrorReportSemaphore s' = xErrorReportSemaphore s /\
    xButtonsEventGroup s' = xButtonsEventGroup s /\
    xDiagnosticArray s' = xDiagnosticArray s /\
    ucDiagnosticIndex s' = ucDiagnosticIndex s.
Proof.
  assert (H : wp (vHeaterProcessTask seat)
                (fun _ s' _ =>
                   (forall seat' x,
                      (seat', x) <> (seat, HeaterState) ->
                      (seat', x) <> (seat, PrevHeaterState) ->
                      value seat' x s' = value seat' x s) /\
                   xDiagnosticQueue s' = xDiagnosticQueue s /\
                   xErrorReportSemaphore s' = xErrorReportSemaphore s /\
                   xButtonsEventGroup s' = xButtonsEventGroup s /\
                   xDiagnosticArray s' = xDiagnosticArray s /\
                   ucDiagnosticIndex s' = ucDiagnosticIndex s) s).
  { destruct seat; wp_run; (split; [|repeat split]);
      intros [] [] H1 H2; cbn; try reflexivity; congruence. }
  destruct (wp_elim _ _ _ H) as ([] & s' & t & Hrun & Hrest). eauto.
Qed.

(** X3. With the fault flag clear, a sensor pass whose sample lies inside
    [5, 40] does one thing only: it stores the sample. *)
Theorem X3_sensor_pass_in_normal_operation seat s reading now :
  value seat ErrorFlag s = pdFALSE ->
  5 <= uint8 reading <= 40 ->
  vSensorProcessTask seat reading now s =
    Some (tt, set_mem (upd_mem seat TemperatureValue (uint8 reading) (mem s)) s,
          [Write seat TemperatureValue (uint8 reading)]).
Proof.
  intros Hflag Hin.
  assert (H : wp (vSensorProcessTask seat reading now)
                (fun _ s' t =>
                   s' = set_mem (upd_mem seat TemperatureValue (uint8 reading) (mem s)) s /\
                   t = [Write seat TemperatureValue (uint8 reading)]) s).
  { destruct seat; wp_run; try (exfalso; arith); split; reflexivity. }
  destruct (wp_elim _ _ _ H) as ([] & s' & t & Hrun & -> & ->). exact Hrun.
Qed.

Lemma X3_sensor_pass_in_normal_operation_witness :
  vSensorProcessTask Passenger 21 5 init =
    Some (tt, set_mem (upd_mem Passenger TemperatureValue (uint8 21) (mem init)) init,
          [Write Passenger TemperatureValue (uint8 21)]).
Proof.
  apply (X3_sensor_pass_in_normal_operation Passenger init 21 5).
  - reflexivity.
  - vm_compute. split; discriminate.
Defined.

(** X4. With the fault flag clear and a free slot in the seat's queue, a
    sensor pass whose sample lies outside [5, 40] appends one record to the back of the seat's queue: time stamp of
    the pass, code 0x44 for a sample above 40 and 0x55 for one below 5, the
    seat's code, and the heating level at that moment.  It gives the seat's
    semaphore and leaves the other seat's queue and the diagnostic array
    alone. *)
Theorem X4_sensor_pass_queues_the_failure_record seat s reading now :
  value seat ErrorFlag s = pdFALSE ->
  has_room seat s ->
  out_of_range (uint8 reading) ->
  exists s' t,
    vSensorProcessTask seat reading now s = Some (tt, s', t) /\
    xDiagnosticQueue s' seat =
      xDiagnosticQueue s seat
      ++ [failure_record seat (uint8 reading) now (value seat HeatingLevel s)] /\
    xErrorReportSemaphore s' seat = true /\
    value seat TemperatureValue s' = uint8 reading /\
    (forall seat', seat' <> seat ->
       xDiagnosticQueue s' seat' = xDiagnosticQueue s seat') /\
    xDiagnosticArray s' = xDiagnosticArray s /\
    ucDiagnosticIndex s' = ucDiagnosticIndex s.
Proof.
  intros Hflag Hroom Hout. unfold has_room in Hroom.
  assert (H : wp (vSensorProcessTask seat reading now)
                (fun _ s' _ =>
                   xDiagnosticQueue s' seat =
                     xDiagnosticQueue s seat
                     ++ [failure_record seat (uint8 reading) now
                           (value seat HeatingLevel s)] /\
                   xErrorReportSemaphore s' seat = true /\
                   value seat TemperatureValue s' = uint8 reading /\
                   (forall seat', seat' <> seat ->
                      xDiagnosticQueue s' seat' = xDiagnosticQueue s seat') /\
                   xDiagnosticArray s' = xDiagnosticArray s /\
                   ucDiagnosticIndex s' = ucDiagnosticIndex s) s).
  { destruct seat; wp_run; try (exfalso; arith); try lia;
      unfold failure_record, value; unfold_consts;
      (repeat split;
       try (intros [] Hne; cbn [upd_seat Seat_eqb]; congruence));
      rewrite Z.gtb_ltb in *;
      (destruct (40 <? uint8 reading) eqn:Ehigh; [reflexivity|]);
      (destruct (uint8 reading <? 5) eqn:Elow; [reflexivity|]);
      exfalso; arith. }
  destruct (wp_elim _ _ _ H) as ([] & s' & t & Hrun & Hrest). eauto.
Qed.

(** The passenger's sensor reads 3 degrees at time 9. *)
Lemma X4_sensor_pass_queues_the_failure_record_witness :
  exists s' t,
    vSensorProcessTask Passenger 3 9 init = Some (tt, s', t) /\
    xDiagnosticQueue s' Passenger =
      xDiagnosticQueue init Passenger
      ++ [failure_record Passenger (uint8 3) 9 (value Passenger HeatingLevel init)] /\
    xErrorReportSemaphore s' Passenger = true /\
    value Passenger TemperatureValue s' = uint8 3 /\
    (forall seat', seat' <> Passenger ->
       xDiagnosticQueue s' seat' = xDiagnosticQueue init seat') /\
    xDiagnosticArray s' = xDiagnosticArray init /\
    ucDiagnosticIndex s' = ucDiagnosticIndex init.
Proof.
  apply (X4_sensor_pass_queues_the_failure_record Passenger init 3 9).
  - reflexivity.
  - unfold has_room, uxQueueLength. cbn. lia.
  - left. vm_compute. reflexivity.
Defined.




(** The driver's sensor has read 45 at time 7. *)
Lemma driver_diagnostic_order_witness :
  let s := final [SensorTick Driver 45 7] init in
  let xlog := failure_record Driver 45 7 0 in
  exists s',
    vDriverDiagnosticTask s =
      Some (tt, s', [SemaphoreTake Driver;
                     Write Driver HeaterState mainHEATER_STATE_OFF;
                     QueueReceive Driver xlog;
                     DiagnosticStore (ucDiagnosticIndex s) xlog;
                     DioWrite (RED Driver) LED_ON]).
Proof.
  intros s xlog. apply (driver_diagnostic_order s xlog []); reflexivity.
Defined.




Lemma presses_level sw n s :
  let seat := seat_of sw in
  let s' := final (repeat (irq_of sw) (S n)) s in
  value seat HeatingLevel s' = (value seat HeatingLevel s + Z.of_nat (S n)) mod 4 /\
  ~ no_edge_pending seat s'.
Proof.
  cbv zeta. revert s. induction n as [|n IH]; intros s.
  - cbn [repeat]. rewrite final_cons. unfold final; cbn [exec fst].
    exact (fire_wp (irq_of sw) s _ (irq_increments_level sw s)).
  - change (repeat (irq_of sw) (S (S n)))
      with (irq_of sw :: repeat (irq_of sw) (S n)).
    rewrite final_cons.
    destruct (IH (fst (fire (irq_of sw) s))) as [Hl Hp]. split; [|exact Hp].
    rewrite Hl.
    destruct (fire_wp (irq_of sw) s _ (irq_increments_level sw s)) as [H1 _].
    rewrite H1. rewrite Z.add_mod_idemp_l by lia. f_equal. lia.
Qed.

Lemma buttons_pass_after_edges seat s :
  ~ no_edge_pending seat s ->
  0 <= value seat HeatingLevel s <= 3 ->
  wp (vButtonsProcessTask seat)
     (fun _ s2 _ =>
        let level := value seat HeatingLevel s in
        value seat HeatingLevel s2 = level /\
        no_edge_pending seat s2 /\
        value seat DesiredTemperature s2 =
          if level =? 0 then 0 else if level =? 1 then 25
          else if level =? 2 then 30 else 35) s.
Proof.
  intros Hp Hl. destruct seat; unfold_bits; wp_run; cbv zeta; unfold value in *;
    unfold_bits; state_simpl.
  all: try solve [split; [reflexivity
                         | split; [apply land_ldiff_same
                                  | rewrite_tests; reflexivity]]].
  all: try solve [bits_absurd].
  all: arith.
Qed.

(** X11. Button signals are coalesced without loss of the level: however
    many interrupts of a switch arrive before the seat's button task runs
    (one or more), the level has advanced by that number modulo 4, and a
    single pass of the button task then leaves no signal pending and the
    desired temperature equal to the mapping of the final level. *)
Theorem X11_presses_coalesce_into_one_button_pass sw n s :
  let seat := seat_of sw in
  let s' := final (presses_then_wake sw (S n)) s in
  value seat HeatingLevel s'
    = (value seat HeatingLevel s + Z.of_nat (S n)) mod mainTOTAL_HEATING_LEVELS /\
  no_edge_pending seat s' /\
  exists l : Level,
    value seat HeatingLevel s' = level_code l /\
    value seat DesiredTemperature s' = spec_desiredTemperature l.
Proof.
  cbv zeta. unfold presses_then_wake. rewrite final_app.
  destruct (presses_level sw n s) as [Hl Hp].
  set (s1 := final (repeat (irq_of sw) (S n)) s) in *.
  set (seat := seat_of sw) in *.
  assert (Hrange : 0 <= value seat HeatingLevel s1 <= 3) by (rewrite Hl; lia).
  unfold final; cbn [exec fst].
  destruct (fire_wp (ButtonsWake seat) s1 _ (buttons_pass_after_edges seat s1 Hp Hrange))
    as (Hkeep & Hsettled & Hdes).
  cbv zeta in Hkeep, Hdes.
  destruct (fire (ButtonsWake seat) s1) as [s2 t2]. cbn [fst] in *.
  split; [rewrite Hkeep; exact Hl|]. split; [exact Hsettled|].
  rewrite Hdes, Hkeep.
  assert (Hc : value seat HeatingLevel s1 = 0 \/ value seat HeatingLevel s1 = 1 \/
               value seat HeatingLevel s1 = 2 \/ value seat HeatingLevel s1 = 3) by lia.
  destruct Hc as [-> | [-> | [-> | ->]]];
    [exists Off | exists Low | exists Medium | exists High]; split; reflexivity.
Qed.

(** X12. While the write index is inside the array, the record that a
    diagnostic task stores lands in the slot the index names, every other
    slot keeps its record, the array keeps its size, nothing is written past
    it and the index moves on by one. *)
Theorem X12_record_stored_in_the_indexed_slot xlog s :
  0 <= ucDiagnosticIndex s < mainDIAGNOSTIC_SIZE ->
  length (xDiagnosticArray s) = Z.to_nat mainDIAGNOSTIC_SIZE ->
  exists s',
    store_diagnostic xlog s
      = Some (tt, s', [DiagnosticStore (ucDiagnosticIndex s) xlog]) /\
    xDiagnosticArray s' !! Z.to_nat (ucDiagnosticIndex s) = Some xlog /\
    (forall j, j <> Z.to_nat (ucDiagnosticIndex s) ->
       xDiagnosticArray s' !! j = xDiagnosticArray s !! j) /\
    length (xDiagnosticArray s') = Z.to_nat mainDIAGNOSTIC_SIZE /\
    xBeyondArray s' = xBeyondArray s /\
    ucDiagnosticIndex s' = ucDiagnosticIndex s + 1.
Proof.
  intros Hi Hlen. unfold mainDIAGNOSTIC_SIZE in *.
  unfold store_diagnostic. destruct xlog as [ts code seatc lvl].
  cbn [uiTimeStamp ucFailureCode ucFailureSeat ucHeatingLevel].
  assert (Hb : (0 <=? ucDiagnosticIndex s) && (ucDiagnosticIndex s <? mainDIAGNOSTIC_SIZE) = true).
  { unfold mainDIAGNOSTIC_SIZE. apply andb_true_iff. split;
      [apply Z.leb_le | apply Z.ltb_lt]; lia. }
  rewrite Hb. eexists. split; [reflexivity|].
  cbn [set_diagnostic xDiagnosticArray xBeyondArray ucDiagnosticIndex].
  repeat split.
  - apply list_lookup_insert_eq. lia.
  - intros j Hj. apply list_lookup_insert_ne. congruence.
  - rewrite length_insert. exact Hlen.
  - unfold uint8. apply Z.mod_small. lia.
Qed.

(** The third record of a run of faults. *)
Lemma X12_record_stored_in_the_indexed_slot_witness :
  let s := final (fault_and_recovery Driver 1 ++ fault_and_recovery Passenger 2) init in
  let xlog := failure_record Driver 45 3 0 in
  exists s',
    store_diagnostic xlog s
      = Some (tt, s', [DiagnosticStore (ucDiagnosticIndex s) xlog]) /\
    xDiagnosticArray s' !! Z.to_nat (ucDiagnosticIndex s) = Some xlog /\
    (forall j, j <> Z.to_nat (ucDiagnosticIndex s) ->
       xDiagnosticArray s' !! j = xDiagnosticArray s !! j) /\
    length (xDiagnosticArray s') = Z.to_nat mainDIAGNOSTIC_SIZE /\
    xBeyondArray s' = xBeyondArray s /\
    ucDiagnosticIndex s' = ucDiagnosticIndex s + 1.
Proof.
  intros s xlog. apply (X12_record_stored_in_the_indexed_slot xlog s).
  - vm_compute. split; [discriminate | reflexivity].
  - reflexivity.
Defined.

(** * The display task *)

Lemma display_changed_false prev s :
  display_changed prev s = false <->
  forall seat x, watched x = true -> mem s seat x = prev seat x.
Proof.
  unfold display_changed. split.
  - intros H. repeat (apply orb_false_iff in H; destruct H as [H ?]).
    bools. intros [] []; cbn; intros ?; try discriminate; assumption.
  - intros H.
    rewrite (H Driver HeatingLevel eq_refl), (H Driver TemperatureValue eq_refl),
      (H Driver HeaterState eq_refl), (H Passenger HeatingLevel eq_refl),
      (H Passenger TemperatureValue eq_refl), (H Passenger HeaterState eq_refl).
    rewrite !Z.eqb_refl. reflexivity.
Qed.

(** X13. A pass of the display task prints nothing exactly when the heating
    level, the temperature and the heater state of both seats equal the
    values it printed last; the desired temperatures and the fault flags
    play no part. *)
Theorem X13_display_prints_only_on_change prev s :
  snd (vDisplayScreenTask prev s) = [] <->
  forall seat x, watched x = true -> value seat x s = prev seat x.
Proof.
  unfold value. rewrite <- display_changed_false. unfold vDisplayScreenTask.
  destruct (display_changed prev s); cbn [snd]; split; intros H;
    try reflexivity; discriminate.
Qed.

(** X14. After a pass of the display task its locals hold the current
    watched values, so a further pass prints nothing in any state that
    agrees with the printed one on the watched variables, whatever else has
    changed. *)
Theorem X14_display_is_quiet_until_a_watched_value_changes prev s s2 :
  (forall seat x, watched x = true -> value seat x s2 = value seat x s) ->
  vDisplayScreenTask (fst (vDisplayScreenTask prev s)) s2
    = (fst (vDisplayScreenTask prev s), []).
Proof.
  unfold value. intros Hsame.
  assert (Hq : display_changed (fst (vDisplayScreenTask prev s)) s2 = false).
  { apply display_changed_false. intros seat x Hx. rewrite (Hsame seat x Hx).
    unfold vDisplayScreenTask.
    destruct (display_changed prev s) eqn:E; cbn [fst].
    - destruct x; try discriminate; reflexivity.
    - apply display_changed_false; assumption. }
  unfold vDisplayScreenTask at 1. rewrite Hq. reflexivity.
Qed.

(** Between two display passes the driver's button task stores the desired
    temperature 25 and the passenger's sensor, still reading 0, raises its
    fault: no watched value has changed. *)
Lemma X14_display_is_quiet_until_a_watched_value_changes_witness :
  let s := final [irq_of SW1] init in
  let s2 := final [ButtonsWake Driver; SensorTick Passenger 0 1] s in
  value Driver DesiredTemperature s2 <> value Driver DesiredTemperature s /\
  value Passenger ErrorFlag s2 <> value Passenger ErrorFlag s /\
  vDisplayScreenTask (fst (vDisplayScreenTask display_init s)) s2
    = (fst (vDisplayScreenTask display_init s), []).
Proof.
  intros s s2. split; [discriminate|]. split; [discriminate|].
  apply (X14_display_is_quiet_until_a_watched_value_changes display_init s s2).
  intros [] []; intros Hw; try discriminate Hw; reflexivity.
Defined.



(** * The run-time measurement task *)

Lemma total_tasks_time_from pre rest acc :
  Forall (fun t => 0 <= t) rest ->
  0 <= acc ->
  acc + sum_Z rest < 4294967296 ->
  fold_left (fun a i => uint32 (a + nth i (pre ++ rest) 0))
            (seq (length pre) (length rest)) acc
    = acc + sum_Z rest.
Proof.
  revert pre acc. induction rest as [|r rest IH]; intros pre acc Hpos Hacc Hsum.
  - cbn. lia.
  - inversion Hpos as [|? ? Hr Hrest]; subst. cbn [sum_Z fold_right] in Hsum.
    fold (sum_Z rest) in Hsum.
    assert (Hs : 0 <= sum_Z rest).
    { clear - Hrest. induction Hrest; cbn; [lia|]. fold (sum_Z l). lia. }
    cbn [length seq fold_left]. rewrite nth_middle.
    replace (uint32 (acc + r)) with (acc + r)
      by (unfold uint32; symmetry; apply Z.mod_small; lia).
    replace (pre ++ r :: rest) with ((pre ++ [r]) ++ rest)
      by (rewrite <- app_assoc; reflexivity).
    replace (S (length pre)) with (length (pre ++ [r]))
      by (rewrite length_app; cbn; lia).
    rewrite IH; [cbn [sum_Z fold_right]; fold (sum_Z rest); lia | assumption | lia | lia].
Qed.

(** X16. Given non-negative counters for the tasks 1 .. N (N below 255)
    whose sum is at most the timer value and below 2^32 / 100, the run-time task prints the
    percentage [100 * sum / now], which is at most 100.  (Entry 0, the idle
    task, is not counted.) *)
Theorem X16_cpu_load_is_a_percentage idle counters now :
  (length counters < 255)%nat ->
  Forall (fun t => 0 <= t) counters ->
  0 < now < 4294967296 ->
  sum_Z counters <= now ->
  100 * sum_Z counters < 4294967296 ->
  let load := 100 * sum_Z counters / now in
  vRunTimeMeasurementsTask (length counters) (idle :: counters) now
    = Some [UART0_SendString Texts.header;
            UART0_SendString Texts.cpu_load_is;
            UART0_SendInteger load;
            UART0_SendString Texts.percent] /\
  0 <= load <= 100.
Proof.
  intros _ Hpos Hnow Hle Hsmall. cbv zeta.
  assert (Hs : 0 <= sum_Z counters).
  { clear - Hpos. induction Hpos; cbn; [lia|]. fold (sum_Z l). lia. }
  assert (Hload : 0 <= 100 * sum_Z counters / now <= 100).
  { split; [apply Z.div_pos; lia|].
    apply Z.div_le_upper_bound; lia. }
  split; [|exact Hload].
  unfold vRunTimeMeasurementsTask, total_tasks_time. cbv zeta.
  change (idle :: counters) with ([idle] ++ counters).
  change 1%nat with (length [idle]).
  rewrite total_tasks_time_from by (assumption || lia).
  replace (uint32 now) with now by (unfold uint32; symmetry; apply Z.mod_small; lia).
  destruct (now =? 0) eqn:E; [apply Z.eqb_eq in E; lia|].
  rewrite Z.add_0_l.
  replace (uint32 (sum_Z counters * 100)) with (100 * sum_Z counters)
    by (unfold uint32; rewrite Z.mod_small; lia).
  replace (uint8 (100 * sum_Z counters / now)) with (100 * sum_Z counters / now)
    by (unfold uint8; symmetry; apply Z.mod_small; lia).
  reflexivity.
Qed.

(** Ten tasks that ran 360 ticks in all out of 1000. *)
Lemma X16_cpu_load_is_a_percentage_witness :
  let counters := [50; 50; 20; 20; 10; 10; 80; 80; 30; 10] in
  let load := 100 * sum_Z counters / 1000 in
  vRunTimeMeasurementsTask (length counters) (640 :: counters) 1000
    = Some [UART0_SendString Texts.header;
            UART0_SendString Texts.cpu_load_is;
            UART0_SendInteger load;
            UART0_SendString Texts.percent] /\
  0 <= load <= 100.
Proof.
  intros counters.
  apply (X16_cpu_load_is_a_percentage 640 counters 1000).
  - unfold counters. cbn. lia.
  - unfold counters. repeat constructor; discriminate.
  - lia.
  - unfold counters. cbn. lia.
  - unfold counters. cbn. lia.
Defined.

(** * The interrupt controller driver *)

Lemma testbit_uint32 x i : 0 <= i < 32 -> Z.testbit (uint32 x) i = Z.testbit x i.
Proof.
  intros Hi. unfold uint32. change 4294967296 with (2 ^ 32).
  apply Z.mod_pow2_bits_low. lia.
Qed.

Lemma testbit_shiftl_1 b i :
  0 <= b -> 0 <= i -> Z.testbit (Z.shiftl 1 b) i = (i =? b).
Proof.
  intros Hb Hi. rewrite Z.shiftl_spec by lia.
  destruct (Z.eqb_spec i b) as [->|Hne].
  - rewrite Z.sub_diag. reflexivity.
  - destruct (Z_lt_le_dec (i - b) 0).
    + apply Z.testbit_neg_r. lia.
    + apply Z.bits_above_log2; [lia | cbn; lia].
Qed.

Lemma testbit_7 k : Z.testbit 7 k = (0 <=? k) && (k <? 3).
Proof.
  destruct (Z.leb_spec 0 k) as [H0|H0]; [|apply Z.testbit_neg_r; lia].
  destruct (Z.ltb_spec k 3) as [H3|H3].
  - assert (Hk : k = 0 \/ k = 1 \/ k = 2) by lia.
    destruct Hk as [-> | [-> | ->]]; reflexivity.
  - apply Z.bits_above_log2; [lia | cbn; lia].
Qed.

Lemma land_7_bounds x : 0 <= Z.land x 7 <= 7.
Proof.
  replace (Z.land x 7) with (x mod 8);
    [lia | symmetry; apply (Z.land_ones x 3); lia].
Qed.

Lemma uint8_bounds x : 0 <= uint8 x < 256.
Proof. unfold uint8. lia. Qed.

Lemma uint8_small x : 0 <= x < 256 -> uint8 x = x.
Proof. intros H. unfold uint8. apply Z.mod_small. lia. Qed.

Lemma set_mask_bits mask reg : bits_set mask reg (set_mask mask reg).
Proof.
  intros i Hi. unfold set_mask.
  rewrite testbit_uint32, Z.lor_spec by lia. apply orb_comm.
Qed.

Lemma clear_mask_bits mask reg : bits_cleared mask reg (clear_mask mask reg).
Proof.
  intros i Hi. unfold clear_mask.
  rewrite testbit_uint32, Z.land_spec, Z.lnot_spec by lia. apply andb_comm.
Qed.

(** The word written by [NVIC_SetPriorityIRQ]: read back, the field at [pos]
    holds the low three bits of the priority. *)
Lemma priority_word_same old q pos :
  0 <= pos <= 29 ->
  Z.land (Z.shiftr
            (uint32 (Z.lor (Z.land old (Z.lnot (Z.shiftl 7 pos)))
                           (Z.shiftl (Z.land q 7) pos))) pos) 7
  = Z.land q 7.
Proof.
  intros Hpos. apply Z.bits_inj'. intros i Hi.
  rewrite !Z.land_spec, Z.shiftr_spec by lia. rewrite testbit_7.
  destruct (Z.ltb_spec i 3) as [H3|H3];
    [|rewrite !andb_false_r; reflexivity].
  rewrite testbit_uint32 by lia.
  rewrite Z.lor_spec, Z.land_spec, Z.lnot_spec, !Z.shiftl_spec by lia.
  replace (i + pos - pos) with i by lia.
  rewrite Z.land_spec, testbit_7.
  replace (0 <=? i) with true by (symmetry; apply Z.leb_le; lia).
  replace (i <? 3) with true by (symmetry; apply Z.ltb_lt; lia).
  cbn. rewrite andb_false_r, !andb_true_r. reflexivity.
Qed.

(** ... and a field at a position that does not overlap is as before. *)
Lemma priority_word_other old q pos pos2 :
  0 <= pos <= 29 -> 0 <= pos2 <= 29 ->
  pos2 + 3 <= pos \/ pos + 3 <= pos2 ->
  Z.land (Z.shiftr
            (uint32 (Z.lor (Z.land old (Z.lnot (Z.shiftl 7 pos)))
                           (Z.shiftl (Z.land q 7) pos))) pos2) 7
  = Z.land (Z.shiftr old pos2) 7.
Proof.
  intros Hpos Hpos2 Hdis. apply Z.bits_inj'. intros i Hi.
  rewrite !Z.land_spec, !Z.shiftr_spec by lia. rewrite testbit_7.
  destruct (Z.ltb_spec i 3) as [H3|H3];
    [|rewrite !andb_false_r; reflexivity].
  rewrite testbit_uint32 by lia.
  rewrite Z.lor_spec, Z.land_spec, Z.lnot_spec, !Z.shiftl_spec by lia.
  rewrite Z.land_spec, !testbit_7.
  replace ((0 <=? i + pos2 - pos) && (i + pos2 - pos <? 3)) with false.
  - cbn. rewrite andb_false_r, orb_false_r, andb_true_r. reflexivity.
  - symmetry. apply andb_false_iff.
    destruct Hdis; [left; apply Z.leb_gt | right; apply Z.ltb_ge]; lia.
Qed.

Lemma irq_word_and_position n :
  let n' := uint8 n in
  uint8 (n' / 4) = n' / 4 /\
  uint8 (5 + 8 * (n' mod 4)) = 5 + 8 * (n' mod 4) /\
  0 <= 5 + 8 * (n' mod 4) <= 29 /\
  uint8 (n' / 32) = n' / 32 /\
  uint8 (n' mod 32) = n' mod 32.
Proof.
  cbv zeta. pose proof (uint8_bounds n) as Hn.
  repeat split; try apply uint8_small; lia.
Qed.

Lemma set_priority_same n p r :
  irq_priority_field (NVIC_SetPriorityIRQ n p r) (uint8 n) = Z.land (uint8 p) 7.
Proof.
  destruct (irq_word_and_position n) as (Hw & Hp & Hpos & _). cbv zeta in *.
  unfold irq_priority_field, NVIC_SetPriorityIRQ. cbv zeta.
  rewrite Hw, Hp. cbn [NVIC_PRI set_NVIC_PRI]. unfold upd_word.
  rewrite Z.eqb_refl.
  rewrite (uint8_small (Z.land (uint8 p) 7))
    by (pose proof (land_7_bounds (uint8 p)); lia).
  apply priority_word_same. exact Hpos.
Qed.

Lemma set_priority_other n p r m :
  0 <= m -> m <> uint8 n ->
  irq_priority_field (NVIC_SetPriorityIRQ n p r) m = irq_priority_field r m.
Proof.
  intros Hm Hne.
  destruct (irq_word_and_position n) as (Hw & Hp & Hpos & _). cbv zeta in *.
  unfold irq_priority_field, NVIC_SetPriorityIRQ. cbv zeta.
  rewrite Hw, Hp. cbn [NVIC_PRI set_NVIC_PRI]. unfold upd_word.
  destruct (Z.eqb_spec (m / 4) (uint8 n / 4)) as [Heq|Hneq]; [|reflexivity].
  rewrite (uint8_small (Z.land (uint8 p) 7))
    by (pose proof (land_7_bounds (uint8 p)); lia).
  rewrite <- Heq.
  pose proof (uint8_bounds n).
  apply priority_word_other; lia.
Qed.

Lemma enable_irq_bits n r :
  bits_set (Z.shiftl 1 (uint8 n mod 32)) (NVIC_EN r (uint8 n / 32))
           (NVIC_EN (NVIC_EnableIRQ n r) (uint8 n / 32)) /\
  (forall j, j <> uint8 n / 32 -> NVIC_EN (NVIC_EnableIRQ n r) j = NVIC_EN r j).
Proof.
  destruct (irq_word_and_position n) as (_ & _ & _ & Hw & Hb). cbv zeta in *.
  unfold NVIC_EnableIRQ. cbv zeta. rewrite Hw, Hb.
  cbn [NVIC_EN set_NVIC_EN]. unfold upd_word. split.
  - rewrite Z.eqb_refl. apply set_mask_bits.
  - intros j Hj. destruct (Z.eqb_spec j (uint8 n / 32)); [contradiction | reflexivity].
Qed.

(** X17. [NVIC_EnableIRQ n] sets bit [n mod 32] of enable word [n / 32] and
    changes no other bit of the enable bank and no other register;
    [NVIC_DisableIRQ n] does the same in the disable bank and leaves the
    enable bank as it is. *)
Theorem X17_irq_enable_and_disable_set_one_bit n r :
  let word := uint8 n / 32 in
  let bit := uint8 n mod 32 in
  Z.testbit (NVIC_EN (NVIC_EnableIRQ n r) word) bit = true /\
  (forall i, 0 <= i < 32 -> i <> bit ->
     Z.testbit (NVIC_EN (NVIC_EnableIRQ n r) word) i = Z.testbit (NVIC_EN r word) i) /\
  (forall j, j <> word -> NVIC_EN (NVIC_EnableIRQ n r) j = NVIC_EN r j) /\
  NVIC_DIS (NVIC_EnableIRQ n r) = NVIC_DIS r /\
  NVIC_PRI (NVIC_EnableIRQ n r) = NVIC_PRI r /\
  Z.testbit (NVIC_DIS (NVIC_DisableIRQ n r) word) bit = true /\
  (forall i, 0 <= i < 32 -> i <> bit ->
     Z.testbit (NVIC_DIS (NVIC_DisableIRQ n r) word) i = Z.testbit (NVIC_DIS r word) i) /\
  (forall j, j <> word -> NVIC_DIS (NVIC_DisableIRQ n r) j = NVIC_DIS r j) /\
  NVIC_EN (NVIC_DisableIRQ n r) = NVIC_EN r /\
  NVIC_PRI (NVIC_DisableIRQ n r) = NVIC_PRI r.
Proof.
  cbv zeta. pose proof (uint8_bounds n) as Hn.
  destruct (enable_irq_bits n r) as [Hset Hother].
  assert (Hbit : 0 <= uint8 n mod 32 < 32) by lia.
  destruct (irq_word_and_position n) as (_ & _ & _ & Hw & Hb). cbv zeta in *.
  assert (Hdis : bits_set (Z.shiftl 1 (uint8 n mod 32)) (NVIC_DIS r (uint8 n / 32))
                   (NVIC_DIS (NVIC_DisableIRQ n r) (uint8 n / 32))).
  { unfold NVIC_DisableIRQ. cbv zeta. rewrite Hw, Hb.
    cbn [NVIC_DIS set_NVIC_DIS]. unfold upd_word. rewrite Z.eqb_refl.
    apply set_mask_bits. }
  repeat split.
  - rewrite (Hset _ Hbit), testbit_shiftl_1, Z.eqb_refl by lia. reflexivity.
  - intros i Hi Hne. rewrite (Hset _ Hi), testbit_shiftl_1 by lia.
    destruct (Z.eqb_spec i (uint8 n mod 32)); [contradiction | reflexivity].
  - exact Hother.
  - rewrite (Hdis _ Hbit), testbit_shiftl_1, Z.eqb_refl by lia. reflexivity.
  - intros i Hi Hne. rewrite (Hdis _ Hi), testbit_shiftl_1 by lia.
    destruct (Z.eqb_spec i (uint8 n mod 32)); [contradiction | reflexivity].
  - intros j Hj. unfold NVIC_DisableIRQ. cbv zeta. rewrite Hw.
    cbn [NVIC_DIS set_NVIC_DIS]. unfold upd_word.
    destruct (Z.eqb_spec j (uint8 n / 32)); [contradiction | reflexivity].
Qed.

(** X18. [NVIC_SetPriorityIRQ n p] makes the priority field of interrupt [n]
    the low three bits of [p] (a priority above 7 is cut down, not
    rejected), and keeps the priority field of every other interrupt, also
    of the three that share the same word, and the enable and disable
    banks. *)
Theorem X18_irq_priority_is_set_and_others_kept n p r :
  irq_priority_field (NVIC_SetPriorityIRQ n p r) (uint8 n) = Z.land (uint8 p) 7 /\
  (forall m, 0 <= m -> m <> uint8 n ->
     irq_priority_field (NVIC_SetPriorityIRQ n p r) m = irq_priority_field r m) /\
  NVIC_EN (NVIC_SetPriorityIRQ n p r) = NVIC_EN r /\
  NVIC_DIS (NVIC_SetPriorityIRQ n p r) = NVIC_DIS r.
Proof.
  split; [apply set_priority_same|]. split; [|split; reflexivity].
  intros m Hm Hne. now apply set_priority_other.
Qed.

Lemma land_bit_after_set x b b' :
  0 <= b < 32 -> 0 <= b' < 32 ->
  Z.land (uint32 (Z.lor x (Z.shiftl 1 b))) (Z.shiftl 1 b')
  = if b' =? b then Z.shiftl 1 b' else Z.land x (Z.shiftl 1 b').
Proof.
  intros Hb Hb'.
  assert (H : forall i, 0 <= i ->
            Z.testbit (Z.land (uint32 (Z.lor x (Z.shiftl 1 b))) (Z.shiftl 1 b')) i
            = (Z.testbit x i || (i =? b)) && (i =? b')).
  { intros i Hi. rewrite Z.land_spec, testbit_shiftl_1 by lia.
    destruct (Z.eqb_spec i b') as [->|]; [|rewrite !andb_false_r; reflexivity].
    rewrite testbit_uint32, Z.lor_spec, testbit_shiftl_1 by lia. reflexivity. }
  apply Z.bits_inj'. intros i Hi. rewrite H by lia.
  destruct (Z.eqb_spec b' b) as [->|Hne].
  - rewrite testbit_shiftl_1 by lia.
    destruct (Z.eqb_spec i b); [rewrite orb_true_r; reflexivity | apply andb_false_r].
  - rewrite Z.land_spec, testbit_shiftl_1 by lia.
    destruct (Z.eqb_spec i b') as [->|]; [|rewrite !andb_false_r; reflexivity].
    destruct (Z.eqb_spec b' b); [contradiction|]. rewrite orb_false_r. reflexivity.
Qed.

Lemma land_bit_after_clear x b b' :
  0 <= b < 32 -> 0 <= b' < 32 ->
  Z.land (uint32 (Z.land x (Z.lnot (Z.shiftl 1 b)))) (Z.shiftl 1 b')
  = if b' =? b then 0 else Z.land x (Z.shiftl 1 b').
Proof.
  intros Hb Hb'.
  assert (H : forall i, 0 <= i ->
            Z.testbit (Z.land (uint32 (Z.land x (Z.lnot (Z.shiftl 1 b))))
                              (Z.shiftl 1 b')) i
            = (Z.testbit x i && negb (i =? b)) && (i =? b')).
  { intros i Hi. rewrite Z.land_spec, testbit_shiftl_1 by lia.
    destruct (Z.eqb_spec i b') as [->|]; [|rewrite !andb_false_r; reflexivity].
    rewrite testbit_uint32, Z.land_spec, Z.lnot_spec, testbit_shiftl_1 by lia.
    reflexivity. }
  apply Z.bits_inj'. intros i Hi. rewrite H by lia.
  destruct (Z.eqb_spec b' b) as [->|Hne].
  - rewrite Z.bits_0.
    destruct (Z.eqb_spec i b); cbn; rewrite ?andb_false_r; reflexivity.
  - rewrite Z.land_spec, testbit_shiftl_1 by lia.
    destruct (Z.eqb_spec i b') as [->|]; [|rewrite !andb_false_r; reflexivity].
    destruct (Z.eqb_spec b' b); [contradiction|]. cbn. rewrite andb_true_r.
    reflexivity.
Qed.

(** X19. For the three fault exceptions that have an enable bit,
    [NVIC_EnableException] leaves that bit of [NVIC_SYSTEM_SYSHNDCTRL] set
    and [NVIC_DisableException] leaves it clear, and neither changes the
    enable bit of another fault; for every other exception both calls
    change nothing. *)
Theorem X19_fault_exceptions_are_enabled_one_by_one e r :
  match fault_enable_mask e with
  | Some m =>
      Z.land (NVIC_SYSTEM_SYSHNDCTRL (NVIC_EnableException e r)) m = m /\
      Z.land (NVIC_SYSTEM_SYSHNDCTRL (NVIC_DisableException e r)) m = 0 /\
      (forall e' m', fault_enable_mask e' = Some m' -> e' <> e ->
         Z.land (NVIC_SYSTEM_SYSHNDCTRL (NVIC_EnableException e r)) m'
         = Z.land (NVIC_SYSTEM_SYSHNDCTRL r) m' /\
         Z.land (NVIC_SYSTEM_SYSHNDCTRL (NVIC_DisableException e r)) m'
         = Z.land (NVIC_SYSTEM_SYSHNDCTRL r) m')
  | None => NVIC_EnableException e r = r /\ NVIC_DisableException e r = r
  end.
Proof.
  destruct e; cbn [fault_enable_mask]; try (split; reflexivity);
    (split; [|split; [|intros e' m' He' Hne; destruct e'; try discriminate He';
                       try contradiction; injection He' as <-]]);
    unfold NVIC_EnableException, NVIC_DisableException;
    cbn [NVIC_SYSTEM_SYSHNDCTRL set_SYSHNDCTRL];
    change MEM_FAULT_ENABLE_MASK with (Z.shiftl 1 16);
    change BUS_FAULT_ENABLE_MASK with (Z.shiftl 1 17);
    change USAGE_FAULT_ENABLE_MASK with (Z.shiftl 1 18);
    rewrite ?land_bit_after_set, ?land_bit_after_clear by lia;
    try split; reflexivity.
Qed.

Lemma insert_priority_bits old p pos j :
  0 <= pos -> 0 <= j < 32 ->
  Z.testbit (insert_priority old (Z.shiftl 7 pos) p pos) j
  = if j <? pos then Z.testbit old j
    else if j <? pos + 3 then Z.testbit p (j - pos)
         else Z.testbit old j || Z.testbit p (j - pos).
Proof.
  intros Hpos Hj. unfold insert_priority.
  rewrite testbit_uint32, Z.lor_spec, Z.land_spec, Z.lnot_spec, !Z.shiftl_spec by lia.
  rewrite testbit_7.
  destruct (Z.ltb_spec j pos) as [H1|H1].
  - replace (0 <=? j - pos) with false by (symmetry; apply Z.leb_gt; lia).
    rewrite (Z.testbit_neg_r p) by lia. cbn.
    rewrite andb_true_r, orb_false_r. reflexivity.
  - replace (0 <=? j - pos) with true by (symmetry; apply Z.leb_le; lia).
    destruct (Z.ltb_spec j (pos + 3)) as [H2|H2].
    + replace (j - pos <? 3) with true by (symmetry; apply Z.ltb_lt; lia).
      cbn. rewrite andb_false_r. reflexivity.
    + replace (j - pos <? 3) with false by (symmetry; apply Z.ltb_ge; lia).
      cbn. rewrite andb_true_r. reflexivity.
Qed.

Lemma testbit_uint8_high p k : 8 <= k -> Z.testbit (uint8 p) k = false.
Proof.
  intros Hk. unfold uint8. change 256 with (2 ^ 8).
  apply Z.mod_pow2_bits_high. lia.
Qed.

Lemma insert_priority_field old p pos :
  0 <= pos <= 29 ->
  Z.land (Z.shiftr (insert_priority old (Z.shiftl 7 pos) p pos) pos) 7 = Z.land p 7.
Proof.
  intros Hpos. apply Z.bits_inj'. intros i Hi.
  rewrite !Z.land_spec, Z.shiftr_spec, testbit_7 by lia.
  destruct (Z.ltb_spec i 3) as [H3|H3]; [|rewrite !andb_false_r; reflexivity].
  rewrite insert_priority_bits by lia.
  replace (i + pos <? pos) with false by (symmetry; apply Z.ltb_ge; lia).
  replace (i + pos <? pos + 3) with true by (symmetry; apply Z.ltb_lt; lia).
  replace (i + pos - pos) with i by lia. reflexivity.
Qed.

Lemma insert_priority_other_field old p pos pos' :
  0 <= pos -> 0 <= pos' <= 29 ->
  pos' + 3 <= pos \/ pos + 8 <= pos' ->
  Z.land (Z.shiftr (insert_priority old (Z.shiftl 7 pos) (uint8 p) pos) pos') 7
  = Z.land (Z.shiftr old pos') 7.
Proof.
  intros Hpos Hpos' Hdis. apply Z.bits_inj'. intros i Hi.
  rewrite !Z.land_spec, !Z.shiftr_spec, testbit_7 by lia.
  destruct (Z.ltb_spec i 3) as [H3|H3]; [|rewrite !andb_false_r; reflexivity].
  rewrite insert_priority_bits by lia.
  destruct Hdis as [Hd|Hd].
  - replace (i + pos' <? pos) with true by (symmetry; apply Z.ltb_lt; lia).
    reflexivity.
  - replace (i + pos' <? pos) with false by (symmetry; apply Z.ltb_ge; lia).
    replace (i + pos' <? pos + 3) with false by (symmetry; apply Z.ltb_ge; lia).
    rewrite testbit_uint8_high by lia. rewrite orb_false_r. reflexivity.
Qed.

Ltac priority_masks :=
  change MEM_FAULT_PRIORITY_MASK with (Z.shiftl 7 MEM_FAULT_PRIORITY_BITS_POS);
  change BUS_FAULT_PRIORITY_MASK with (Z.shiftl 7 BUS_FAULT_PRIORITY_BITS_POS);
  change USAGE_FAULT_PRIORITY_MASK with (Z.shiftl 7 USAGE_FAULT_PRIORITY_BITS_POS);
  change SVC_PRIORITY_MASK with (Z.shiftl 7 SVC_PRIORITY_BITS_POS);
  change DEBUG_MONITOR_PRIORITY_MASK
    with (Z.shiftl 7 DEBUG_MONITOR_PRIORITY_BITS_POS);
  change PENDSV_PRIORITY_MASK with (Z.shiftl 7 PENDSV_PRIORITY_BITS_POS);
  change SYSTICK_PRIORITY_MASK with (Z.shiftl 7 SYSTICK_PRIORITY_BITS_POS).

Ltac priority_positions :=
  unfold MEM_FAULT_PRIORITY_BITS_POS, BUS_FAULT_PRIORITY_BITS_POS,
    USAGE_FAULT_PRIORITY_BITS_POS, SVC_PRIORITY_BITS_POS,
    DEBUG_MONITOR_PRIORITY_BITS_POS, PENDSV_PRIORITY_BITS_POS,
    SYSTICK_PRIORITY_BITS_POS in *.

(** X20. [NVIC_SetPriorityException] writes the low three bits of the
    priority into the field of the exception and keeps the field of every
    other exception and all bits below the field.  The priority is not cut
    down to three bits: each bit of the register above the field is the old
    bit or-ed with the matching higher bit of the priority.  Reset, NMI and
    hard fault have no field and the call changes nothing. *)
Theorem X20_exception_priority_is_written_unmasked e p r :
  let r' := NVIC_SetPriorityException e p r in
  match exception_priority_field e with
  | Some (reg, pos) =>
      Z.land (Z.shiftr (reg r') pos) 7 = Z.land (uint8 p) 7 /\
      (forall e' reg' pos', exception_priority_field e' = Some (reg', pos') ->
         e' <> e ->
         Z.land (Z.shiftr (reg' r') pos') 7 = Z.land (Z.shiftr (reg' r) pos') 7) /\
      (forall j, 0 <= j < pos -> Z.testbit (reg r') j = Z.testbit (reg r) j) /\
      (forall j, pos + 3 <= j < 32 ->
         Z.testbit (reg r') j
         = Z.testbit (reg r) j || Z.testbit (uint8 p) (j - pos)) /\
      NVIC_SYSTEM_SYSHNDCTRL r' = NVIC_SYSTEM_SYSHNDCTRL r
  | None => r' = r
  end.
Proof.
  cbv zeta.
  destruct e; cbn [exception_priority_field]; try reflexivity;
    unfold NVIC_SetPriorityException; cbv zeta; priority_masks;
    (split; [|split; [|split; [|split; [|reflexivity]]]]);
    cbn [NVIC_SYSTEM_PRI1_REG NVIC_SYSTEM_PRI2_REG NVIC_SYSTEM_PRI3_REG
         set_PRI1 set_PRI2 set_PRI3].
  all: try (apply insert_priority_field; priority_positions; lia).
  all: try (intros j Hj; rewrite insert_priority_bits by (priority_positions; lia);
            priority_positions;
            first [ replace (j <? _) with true by (symmetry; apply Z.ltb_lt; lia);
                    reflexivity
                  | replace (j <? _) with false by (symmetry; apply Z.ltb_ge; lia);
                    replace (j <? _) with false by (symmetry; apply Z.ltb_ge; lia);
                    reflexivity ]).
  all: intros e' reg' pos' He' Hne; destruct e'; try discriminate He';
    try contradiction; cbn [exception_priority_field] in He';
    injection He' as <- <-;
    cbn [NVIC_SYSTEM_PRI1_REG NVIC_SYSTEM_PRI2_REG NVIC_SYSTEM_PRI3_REG
         set_PRI1 set_PRI2 set_PRI3];
    try reflexivity;
    apply insert_priority_other_field; priority_positions; lia.
Qed.

(** X21. After [GPIO_SetupButtonsInterrupt], PF0, PF4 and PB1 are edge
    sensitive, single edge, falling edge and unmasked, with no other pin's
    configuration bit changed; the interrupts 30 (port F) and 1 (port B)
    are enabled in the controller with priority 5, and no other interrupt's
    enable bit or priority is changed. *)
Theorem X21_buttons_interrupt_setup hw :
  let hw' := GPIO_SetupButtonsInterrupt hw in
  let F := GPIO_PORTF hw in let F' := GPIO_PORTF hw' in
  let B := GPIO_PORTB hw in let B' := GPIO_PORTB hw' in
  (bits_cleared 0x11 (IS_REG F) (IS_REG F') /\
   bits_cleared 0x11 (IBE_REG F) (IBE_REG F') /\
   bits_cleared 0x11 (IEV_REG F) (IEV_REG F') /\
   bits_set 0x11 (ICR_REG F) (ICR_REG F') /\
   bits_set 0x11 (IM_REG F) (IM_REG F')) /\
  (bits_cleared 0x02 (IS_REG B) (IS_REG B') /\
   bits_cleared 0x02 (IBE_REG B) (IBE_REG B') /\
   bits_cleared 0x02 (IEV_REG B) (IEV_REG B') /\
   bits_set 0x02 (ICR_REG B) (ICR_REG B') /\
   bits_set 0x02 (IM_REG B) (IM_REG B')) /\
  (forall i, 0 <= i < 32 ->
     Z.testbit (NVIC_EN (nvic hw') 0) i
     = (i =? 30) || (i =? 1) || Z.testbit (NVIC_EN (nvic hw) 0) i) /\
  (forall j, j <> 0 -> NVIC_EN (nvic hw') j = NVIC_EN (nvic hw) j) /\
  NVIC_DIS (nvic hw') = NVIC_DIS (nvic hw) /\
  irq_priority_field (nvic hw') 30 = 5 /\
  irq_priority_field (nvic hw') 1 = 5 /\
  (forall m, 0 <= m -> m <> 30 -> m <> 1 ->
     irq_priority_field (nvic hw') m = irq_priority_field (nvic hw) m).
Proof.
  cbv zeta. unfold GPIO_SetupButtonsInterrupt.
  cbn [GPIO_PORTF GPIO_PORTB nvic].
  split; [|split].
  - unfold setup_falling_edge; cbn [IS_REG IBE_REG IEV_REG ICR_REG IM_REG].
    change (Z.lor PF0 PF4) with 17.
    repeat split; first [apply clear_mask_bits | apply set_mask_bits].
  - unfold setup_falling_edge; cbn [IS_REG IBE_REG IEV_REG ICR_REG IM_REG].
    change PB1 with 2.
    repeat split; first [apply clear_mask_bits | apply set_mask_bits].
  - set (r0 := nvic hw).
    set (r1 := NVIC_EnableIRQ GPIO_PORTF_IRQ_NUM r0).
    set (r2 := NVIC_SetPriorityIRQ GPIO_PORTF_IRQ_NUM GPIO_PORTF_INTERRUPT_PRIORITY r1).
    set (r3 := NVIC_EnableIRQ GPIO_PORTB_IRQ_NUM r2).
    destruct (enable_irq_bits GPIO_PORTF_IRQ_NUM r0) as [HF HFo].
    destruct (enable_irq_bits GPIO_PORTB_IRQ_NUM r2) as [HB HBo].
    fold r1 in HF, HFo. fold r3 in HB, HBo.
    change (uint8 GPIO_PORTF_IRQ_NUM / 32) with 0 in *.
    change (uint8 GPIO_PORTF_IRQ_NUM mod 32) with 30 in *.
    change (uint8 GPIO_PORTB_IRQ_NUM / 32) with 0 in *.
    change (uint8 GPIO_PORTB_IRQ_NUM mod 32) with 1 in *.
    assert (E32 : NVIC_EN (NVIC_SetPriorityIRQ GPIO_PORTB_IRQ_NUM
                             GPIO_PORTB_INTERRUPT_PRIORITY r3) = NVIC_EN r3)
      by reflexivity.
    assert (E21 : NVIC_EN r2 = NVIC_EN r1) by reflexivity.
    repeat split.
    + intros i Hi. rewrite E32, (HB i Hi), E21, (HF i Hi).
      rewrite !testbit_shiftl_1 by lia.
      destruct (i =? 30), (i =? 1); reflexivity.
    + intros j Hj. rewrite E32, (HBo j Hj), E21. apply HFo, Hj.
    + rewrite set_priority_other by (vm_compute; congruence).
      change 30 with (uint8 GPIO_PORTF_IRQ_NUM).
      change (irq_priority_field r3 (uint8 GPIO_PORTF_IRQ_NUM))
        with (irq_priority_field r2 (uint8 GPIO_PORTF_IRQ_NUM)).
      unfold r2. rewrite set_priority_same. reflexivity.
    + change 1 with (uint8 GPIO_PORTB_IRQ_NUM).
      rewrite set_priority_same. reflexivity.
    + intros m Hm H30 H1.
      rewrite set_priority_other by (try exact Hm; vm_compute; lia).
      change (irq_priority_field r3 m) with (irq_priority_field r2 m).
      unfold r2. rewrite set_priority_other by (try exact Hm; vm_compute; lia).
      reflexivity.
Qed.

(** * The digital I/O driver *)

Lemma check_channel_rejects sid c s :
  Dio_Status s = DIO_NOT_INITIALIZED \/ DIO_CONFIGURED_CHANNLES <= uint8 c ->
  check_channel sid (uint8 c) s = (true, with_reports (channel_reports sid c s) s).
Proof.
  intros Hrej. unfold check_channel, channel_reports, with_reports.
  rewrite (Z.eqb_sym DIO_NOT_INITIALIZED).
  destruct (Z.eqb_spec (Dio_Status s) DIO_NOT_INITIALIZED) as [E|E];
    destruct (Z.leb_spec DIO_CONFIGURED_CHANNLES (uint8 c)) as [L|L];
    unfold Det_ReportError; cbn [Dio_PortChannels Dio_Status data_reg det_log];
    rewrite <- ?app_assoc; try reflexivity.
  destruct Hrej; [contradiction | lia].
Qed.

Lemma check_channel_accepts sid c s :
  Dio_Status s = DIO_INITIALIZED -> uint8 c < DIO_CONFIGURED_CHANNLES ->
  check_channel sid (uint8 c) s = (false, s).
Proof.
  intros Hst Hc. unfold check_channel. rewrite Hst.
  change (DIO_NOT_INITIALIZED =? DIO_INITIALIZED) with false.
  destruct (Z.leb_spec DIO_CONFIGURED_CHANNLES (uint8 c)); [lia | reflexivity].
Qed.

Lemma store_reg_other p v s q : q <> p -> data_reg (store_reg p v s) q = data_reg s q.
Proof.
  intros Hne. cbn [store_reg data_reg].
  destruct q, p; try reflexivity; contradiction.
Qed.

(** A write through a configured channel reports nothing and changes at most
    the data register of the channel's port. *)
Lemma write_channel_configured `{StdMacros} c l s ch p :
  Dio_Status s = DIO_INITIALIZED -> uint8 c < DIO_CONFIGURED_CHANNLES ->
  channel_at (uint8 c) s = Some ch -> Port_Ptr_of (Port_Num ch) = Some p ->
  exists s', Dio_WriteChannel c l s = Some s' /\
             Dio_PortChannels s' = Dio_PortChannels s /\
             Dio_Status s' = Dio_Status s /\
             det_log s' = det_log s /\
             forall q, q <> p -> data_reg s' q = data_reg s q.
Proof.
  intros Hst Hc Hch Hp. unfold Dio_WriteChannel. cbv zeta.
  rewrite (check_channel_accepts _ _ _ Hst Hc), Hch, Hp.
  destruct (uint8 l =? STD_HIGH); [|destruct (uint8 l =? STD_LOW)];
    eexists; (split; [reflexivity|]); repeat split; auto using store_reg_other.
Qed.

Lemma rejected_channel_calls `{StdMacros} (c l : Z) (s : DioState) :
  Dio_Status s = DIO_NOT_INITIALIZED \/ DIO_CONFIGURED_CHANNLES <= uint8 c ->
  Dio_WriteChannel c l s
  = Some (with_reports (channel_reports DIO_WRITE_CHANNEL_SID c s) s) /\
  Dio_ReadChannel c s
  = Some (uint8 STD_LOW, with_reports (channel_reports DIO_READ_CHANNEL_SID c s) s) /\
  Dio_FlipChannel c s
  = Some (uint8 STD_LOW, with_reports (channel_reports DIO_FLIP_CHANNEL_SID c s) s).
Proof.
  intros Hrej. unfold Dio_WriteChannel, Dio_ReadChannel, Dio_FlipChannel. cbv zeta.
  rewrite !check_channel_rejects by exact Hrej. repeat split.
Qed.

(** X22. A channel call on a driver that is not initialised, or with a
    channel number of 9 or more, touches no register: it reports
    [DIO_E_UNINIT], [DIO_E_PARAM_INVALID_CHANNEL_ID], or both in that order,
    and the read and the flip return [STD_LOW]. *)
Theorem X22_rejected_channel_calls_report_and_touch_nothing
  `{StdMacros} (c l : Z) (s : DioState) :
  Dio_Status s = DIO_NOT_INITIALIZED \/ DIO_CONFIGURED_CHANNLES <= uint8 c ->
  Dio_WriteChannel c l s
  = Some (with_reports (channel_reports DIO_WRITE_CHANNEL_SID c s) s) /\
  Dio_ReadChannel c s
  = Some (uint8 STD_LOW, with_reports (channel_reports DIO_READ_CHANNEL_SID c s) s) /\
  Dio_FlipChannel c s
  = Some (uint8 STD_LOW, with_reports (channel_reports DIO_FLIP_CHANNEL_SID c s) s).
Proof.
  apply rejected_channel_calls.
Qed.

Lemma X22_rejected_channel_calls_report_and_touch_nothing_witness :
  let s := Dio_Init None (dio_reset (fun _ => 0)) in
  (Dio_Status s = DIO_NOT_INITIALIZED \/ DIO_CONFIGURED_CHANNLES <= uint8 12) /\
  @Dio_WriteChannel bitwise_macros 12 1 s
  = Some (with_reports (channel_reports DIO_WRITE_CHANNEL_SID 12 s) s).
Proof.
  cbv zeta. split; [left; reflexivity|].
  apply (@X22_rejected_channel_calls_report_and_touch_nothing bitwise_macros 12 1).
  left; reflexivity.
Defined.

(** X23. No channel group is configured ([DIO_CONFIGURED_GROUPS] is 0), so
    the two channel-group functions reject every call, whatever the group and
    the state of the driver: they report [DIO_E_UNINIT] when the driver is
    not initialised, [DIO_E_PARAM_POINTER] when the pointer is null, and
    always [DIO_E_PARAM_INVALID_GROUP], in this order; the write changes no
    register and no variable of the driver, and the read returns 0. *)
Theorem X23_channel_groups_are_always_rejected
  (ptr : option Dio_ChannelGroupType) (null_PortIndex l : Z) (s : DioState) :
  Dio_WriteChannelGroup ptr null_PortIndex l s
  = Some (with_reports (group_reports DIO_WRITE_CHANNEL_GROUP_SID ptr s) s) /\
  Dio_ReadChannelGroup ptr null_PortIndex s
  = Some (0, with_reports (group_reports DIO_READ_CHANNEL_GROUP_SID ptr s) s).
Proof.
  assert (Hle : forall x, (DIO_CONFIGURED_GROUPS <=? uint8 x) = true).
  { intros x. pose proof (uint8_bounds x). apply Z.leb_le.
    unfold DIO_CONFIGURED_GROUPS. lia. }
  unfold Dio_WriteChannelGroup, Dio_ReadChannelGroup, check_group, group_reports,
    with_reports. cbv zeta.
  rewrite (Z.eqb_sym DIO_NOT_INITIALIZED).
  destruct (Dio_Status s =? DIO_NOT_INITIALIZED); destruct ptr as [g|];
    rewrite Hle; unfold Det_ReportError;
    cbn [Dio_PortChannels Dio_Status data_reg det_log app];
    rewrite <- ?app_assoc; split; reflexivity.
Qed.

Lemma initialised_channel cfg s c :
  channel_at c (Dio_Init (Some cfg) s) = Channels cfg !! Z.to_nat c.
Proof. reflexivity. Qed.

(** X24. With the driver initialised from [Dio_Configuration], the
    [Dio_WriteChannel] calls behind the LED writes of any trace all
    complete, none reports a development error, and the data registers of
    the ports A, C, D and E are never written. *)
Theorem X24_led_writes_complete_and_stay_on_ports_F_and_B
  `{StdMacros} (t : list Effect) (s : DioState) :
  exists s', drive_leds t (Dio_Init (Some Dio_Configuration) s) = Some s' /\
             det_log s' = det_log s /\
             Dio_Status s' = DIO_INITIALIZED /\
             forall p, p <> GPIO_PORTF_DATA_REG -> p <> GPIO_PORTB_DATA_REG ->
                       data_reg s' p = data_reg s p.
Proof.
  set (s0 := Dio_Init (Some Dio_Configuration) s).
  assert (Hinv : Dio_PortChannels s0 = Some (Channels Dio_Configuration) /\
                 Dio_Status s0 = DIO_INITIALIZED /\
                 det_log s0 = det_log s /\
                 forall p, p <> GPIO_PORTF_DATA_REG -> p <> GPIO_PORTB_DATA_REG ->
                           data_reg s0 p = data_reg s p)
    by (repeat split).
  clearbody s0. revert s0 Hinv.
  induction t as [|e t IH]; intros s0 (Hcfg & Hst & Hlog & Hregs).
  - exists s0. repeat split; assumption.
  - destruct e; cbn [drive_leds];
      try (apply IH; repeat split; assumption).
    assert (Hch : exists ch, channel_at (uint8 (led_channel led)) s0 = Some ch /\
                             Port_Ptr_of (Port_Num ch) = Some (led_port led)).
    { unfold channel_at. rewrite Hcfg.
      destruct led as [[]|[]|[]]; eexists; split; reflexivity. }
    destruct Hch as (ch & Hch & Hp).
    destruct (write_channel_configured (led_channel led) (led_level level) s0 ch
                (led_port led) Hst) as (s1 & -> & Hcfg1 & Hst1 & Hlog1 & Hregs1);
      [destruct led as [[]|[]|[]]; vm_compute; reflexivity | exact Hch | exact Hp |].
    apply IH. repeat split; try congruence.
    intros p HF HB. rewrite Hregs1; [apply Hregs; assumption|].
    destruct led as [[]|[]|[]]; assumption.
Qed.

(** X25. The [switch] on the port number has no case for a number above 5
    and leaves [Port_Ptr] null: with such an entry in the configuration,
    the read, the flip and the write of a level go through the null
    pointer, and only a write of a value that is neither level returns. *)
Theorem X25_port_number_above_five_is_not_handled
  `{StdMacros} (cfg : Dio_ConfigType) (c : Z) (ch : Dio_ConfigChannel) (s : DioState) :
  uint8 c < DIO_CONFIGURED_CHANNLES ->
  Channels cfg !! Z.to_nat (uint8 c) = Some ch ->
  5 < Port_Num ch ->
  let s0 := Dio_Init (Some cfg) s in
  Dio_ReadChannel c s0 = None /\
  Dio_FlipChannel c s0 = None /\
  (forall l, uint8 l = STD_HIGH \/ uint8 l = STD_LOW -> Dio_WriteChannel c l s0 = None) /\
  (forall l, uint8 l <> STD_HIGH -> uint8 l <> STD_LOW ->
             Dio_WriteChannel c l s0 = Some s0).
Proof.
  intros Hc Hch Hport. cbv zeta.
  assert (Hp : Port_Ptr_of (Port_Num ch) = None).
  { unfold Port_Ptr_of. destruct (Port_Num ch) as [|q|q]; try lia.
    do 3 (destruct q as [q|q|]; try reflexivity; try lia). }
  unfold Dio_ReadChannel, Dio_FlipChannel, Dio_WriteChannel. cbv zeta.
  rewrite !check_channel_accepts by (try reflexivity; exact Hc).
  rewrite initialised_channel, Hch, Hp.
  split; [reflexivity|]. split; [reflexivity|]. split.
  - intros l [Hl|Hl]; rewrite Hl, Z.eqb_refl; [reflexivity|].
    destruct (STD_LOW =? STD_HIGH); reflexivity.
  - intros l Hh Hl.
    destruct (Z.eqb_spec (uint8 l) STD_HIGH); [contradiction|].
    destruct (Z.eqb_spec (uint8 l) STD_LOW); [contradiction|]. reflexivity.
Qed.

Lemma X25_port_number_above_five_is_not_handled_witness :
  let cfg := {| Channels := [mkConfigChannel 6 0] |} in
  let s0 := Dio_Init (Some cfg) (dio_reset (fun _ => 0)) in
  @Dio_ReadChannel bitwise_macros 0 s0 = None /\
  @Dio_FlipChannel bitwise_macros 0 s0 = None.
Proof.
  cbv zeta.
  destruct (@X25_port_number_above_five_is_not_handled bitwise_macros
              {| Channels := [mkConfigChannel 6 0] |} 0 (mkConfigChannel 6 0)
              (dio_reset (fun _ => 0)))
    as (Hr & Hf & _); [reflexivity | reflexivity | reflexivity |].
  split; [exact Hr | exact Hf].
Defined.

(** X26. With a configuration that fills the nine entries and names ports
    0 to 5 only, no channel call on the initialised driver reads outside
    the configuration or goes through a null pointer, whatever the channel
    number and the level. *)
Theorem X26_channel_calls_are_safe_on_a_well_formed_configuration
  `{StdMacros} (cfg : Dio_ConfigType) (c l : Z) (s : DioState) :
  well_formed cfg ->
  let s0 := Dio_Init (Some cfg) s in
  is_Some (Dio_WriteChannel c l s0) /\
  is_Some (Dio_ReadChannel c s0) /\
  is_Some (Dio_FlipChannel c s0).
Proof.
  intros [Hlen Hports]. cbv zeta.
  destruct (Z_lt_le_dec (uint8 c) DIO_CONFIGURED_CHANNLES) as [Hc|Hc].
  - pose proof (uint8_bounds c) as Hb.
    destruct (lookup_lt_is_Some_2 (Channels cfg) (Z.to_nat (uint8 c))) as [ch Hch];
      [lia|].
    assert (Hp : exists p, Port_Ptr_of (Port_Num ch) = Some p).
    { pose proof (Forall_lookup_1 _ _ _ _ Hports Hch) as Hport. cbv beta in Hport.
      assert (Hn : Port_Num ch = 0 \/ Port_Num ch = 1 \/ Port_Num ch = 2 \/
                   Port_Num ch = 3 \/ Port_Num ch = 4 \/ Port_Num ch = 5) by lia.
      destruct Hn as [-> | [-> | [-> | [-> | [-> | ->]]]]]; eexists; reflexivity. }
    destruct Hp as [p Hp].
    unfold Dio_ReadChannel, Dio_FlipChannel, Dio_WriteChannel. cbv zeta.
    rewrite !check_channel_accepts by (try reflexivity; exact Hc).
    rewrite initialised_channel, Hch, Hp.
    repeat split; try (eexists; reflexivity).
    destruct (uint8 l =? STD_HIGH); [|destruct (uint8 l =? STD_LOW)];
      eexists; reflexivity.
  - destruct (rejected_channel_calls c l (Dio_Init (Some cfg) s)) as (-> & -> & ->);
      [right; exact Hc|]. repeat split; eexists; reflexivity.
Qed.

Lemma X26_channel_calls_are_safe_on_a_well_formed_configuration_witness :
  well_formed Dio_Configuration /\
  is_Some (@Dio_WriteChannel bitwise_macros 3 1
             (Dio_Init (Some Dio_Configuration) (dio_reset (fun _ => 0)))).
Proof.
  assert (Hwf : well_formed Dio_Configuration).
  { split; [reflexivity|]. unfold Dio_Configuration. cbn [Channels].
    repeat constructor; cbn; lia. }
  split; [exact Hwf|].
  apply (@X26_channel_calls_are_safe_on_a_well_formed_configuration bitwise_macros
           Dio_Configuration 3 1 (dio_reset (fun _ => 0)) Hwf).
Defined.

(** * The level selector step by step *)

Lemma buttons_pass_split seat :
  vButtonsProcessTask seat
  = bind (xEventGroupWaitBits seat (xBitsToWaitFor seat)) (buttons_update seat).
Proof. destruct seat; reflexivity. Qed.

Lemma fire_seat_ok e s seat : seat_ok seat s -> seat_ok seat (fst (fire e s)).
Proof.
  intros Hok. apply (fire_wpg e s (fun s' _ => seat_ok seat s')).
  destruct Hok as (D1 & D2 & D3 & D4).
  cbv zeta in *. unfold value in *.
  destruct seat; destruct e as [[] []|[]|[] r n|[]|[]|[]]; cbn [step]; unfold_bits;
    wp_run; unfold seat_ok, value; unfold_bits; state_simpl; cbv zeta;
    close_ok.
Qed.

Lemma fire_seat_range e s seat : seat_range seat s -> seat_range seat (fst (fire e s)).
Proof.
  intros Hok. apply (fire_wpg e s (fun s' _ => seat_range seat s')).
  destruct Hok as (D1 & D2 & D3).
  cbv zeta in *. unfold value in *.
  destruct seat; destruct e as [[] []|[]|[] r n|[]|[]|[]]; cbn [step]; unfold_bits;
    wp_run; unfold seat_range, value; unfold_bits; state_simpl; cbv zeta;
    close_ok.
Qed.

Lemma seat_ok_range seat s : seat_ok seat s -> seat_range seat s.
Proof. unfold seat_ok, seat_range. cbv zeta. intros (H1 & H2 & H3 & _). auto. Qed.

Lemma wake_up_keeps_the_seats seat0 s v s' t :
  xEventGroupWaitBits seat0 (xBitsToWaitFor seat0) s = Some (v, s', t) ->
  Z.land v (xBitsToWaitFor seat0) <> 0 /\
  mem s' = mem s /\
  forall seat, seat <> seat0 -> xButtonsEventGroup s' seat = xButtonsEventGroup s seat.
Proof.
  unfold xEventGroupWaitBits.
  destruct (Z.eqb_spec (Z.land (xButtonsEventGroup s seat0) (xBitsToWaitFor seat0)) 0)
    as [E|E]; [discriminate|].
  intros H. injection H as <- <- _. split; [exact E|]. split; [reflexivity|].
  intros seat Hne. cbn [xButtonsEventGroup set_events upd_seat].
  destruct seat, seat0; try contradiction; reflexivity.
Qed.

Lemma update_maps_level seat0 v s :
  seat_range seat0 s ->
  Z.land v (xBitsToWaitFor seat0) <> 0 ->
  wp (buttons_update seat0 v)
     (fun _ s' _ =>
        seat_ok seat0 s' /\
        xButtonsEventGroup s' = xButtonsEventGroup s /\
        forall seat, seat <> seat0 -> mem s' seat = mem s seat) s.
Proof.
  intros (D1 & D2 & D3) Hv. cbv zeta in *. unfold value in *.
  destruct seat0; unfold buttons_update; unfold_bits; wp_run;
    unfold seat_ok, value; unfold_bits; state_simpl; cbv zeta;
    try solve [bits_absurd];
    (split; [close_ok | split; [reflexivity | intros [] Hne; try contradiction; reflexivity]]).
Qed.

Lemma seat_ok_ext seat s s' :
  mem s' seat = mem s seat ->
  xButtonsEventGroup s' seat = xButtonsEventGroup s seat ->
  seat_ok seat s -> seat_ok seat s'.
Proof. unfold seat_ok, no_edge_pending, value. intros -> ->. auto. Qed.

Lemma seat_range_ext seat s s' :
  mem s' seat = mem s seat -> seat_range seat s -> seat_range seat s'.
Proof. unfold seat_range, value. intros ->. auto. Qed.

Lemma fine_seat_ext seat c s' :
  mem s' seat = mem (globals c) seat ->
  xButtonsEventGroup s' seat = xButtonsEventGroup (globals c) seat ->
  fine_seat_ok seat c ->
  fine_seat_ok seat (mkFine s' (xButtonsEventGroupValue c)).
Proof.
  intros Hm He. unfold fine_seat_ok. cbn [globals xButtonsEventGroupValue].
  destruct (xButtonsEventGroupValue c seat).
  - intros [Hr Hv]. split; [exact (seat_range_ext _ _ _ Hm Hr) | exact Hv].
  - exact (seat_ok_ext _ _ _ Hm He).
Qed.

Lemma fine_seat_pass e c seat :
  fine_seat_ok seat c ->
  fine_seat_ok seat (mkFine (fst (fire e (globals c))) (xButtonsEventGroupValue c)).
Proof.
  unfold fine_seat_ok. cbn [globals xButtonsEventGroupValue].
  destruct (xButtonsEventGroupValue c seat).
  - intros [Hr Hv]. split; [apply fire_seat_range, Hr | exact Hv].
  - apply fire_seat_ok.
Qed.

Lemma fine_seat_step e c seat : fine_ok c -> fine_seat_ok seat (fine_fire e c).
Proof.
  intros [HD HP].
  assert (Hs : forall st, fine_seat_ok st c) by (intros []; assumption).
  destruct e as [e | seat0 | seat0]; cbn [fine_fire].
  - destruct e; try (apply fine_seat_pass, Hs).
    destruct (xButtonsEventGroupValue c seat0); [apply Hs | apply fine_seat_pass, Hs].
  - destruct (xButtonsEventGroupValue c seat0) eqn:Ew; [apply Hs|].
    destruct (xEventGroupWaitBits seat0 (xBitsToWaitFor seat0) (globals c))
      as [[[v s'] t]|] eqn:Ewait; [|apply Hs].
    destruct (wake_up_keeps_the_seats _ _ _ _ _ Ewait) as (Hv & Hm & He).
    pose proof (Hs seat0) as H0. unfold fine_seat_ok in H0. rewrite Ew in H0.
    pose proof (Hs seat) as H1. unfold fine_seat_ok in H1 |- *.
    cbn [globals xButtonsEventGroupValue].
    assert (Hsame : seat_range seat0 s' /\ Z.land v (xBitsToWaitFor seat0) <> 0).
    { split; [|exact Hv]. apply (seat_range_ext _ (globals c));
        [rewrite Hm; reflexivity | apply seat_ok_range, H0]. }
    assert (Hother : forall st, st <> seat0 ->
              fine_seat_ok st (mkFine s' (xButtonsEventGroupValue c))).
    { intros st Hne. apply fine_seat_ext;
        [rewrite Hm; reflexivity | apply He, Hne | apply Hs]. }
    destruct seat, seat0; cbn [upd_seat Seat_eqb]; try exact Hsame;
      [exact (Hother Driver ltac:(discriminate))
      | exact (Hother Passenger ltac:(discriminate))].
  - destruct (xButtonsEventGroupValue c seat0) as [v|] eqn:Ew; [|apply Hs].
    pose proof (Hs seat0) as H0. unfold fine_seat_ok in H0. rewrite Ew in H0.
    destruct H0 as [Hr Hv].
    destruct (wp_elim _ _ _ (update_maps_level seat0 v (globals c) Hr Hv))
      as ([] & s' & t & Hrun & Hok & He & Hm).
    rewrite Hrun.
    pose proof (Hs seat) as H1. unfold fine_seat_ok in H1 |- *.
    cbn [globals xButtonsEventGroupValue].
    assert (Hother : forall st, st <> seat0 ->
              fine_seat_ok st (mkFine s' (xButtonsEventGroupValue c))).
    { intros st Hne. apply fine_seat_ext;
        [apply Hm, Hne | rewrite He; reflexivity | apply Hs]. }
    destruct seat, seat0; cbn [upd_seat Seat_eqb]; try exact Hok;
      [exact (Hother Driver ltac:(discriminate))
      | exact (Hother Passenger ltac:(discriminate))].
Qed.

Lemma fine_fire_ok e c : fine_ok c -> fine_ok (fine_fire e c).
Proof. intros H. split; apply fine_seat_step, H. Qed.

Lemma fine_init_ok : fine_ok fine_init.
Proof. split; exact (proj1 init_ok) || exact (proj2 init_ok). Qed.

Lemma fine_run_ok es c : fine_ok c -> fine_ok (fine_final es c).
Proof.
  revert c. induction es as [|e es IH]; intros c H; [exact H|].
  cbn [fine_final fold_left]. apply IH, fine_fire_ok, H.
Qed.

Lemma fine_reachable_ok c : fine_reachable c -> fine_ok c.
Proof. intros [es <-]. apply fine_run_ok, fine_init_ok. Qed.

(** Between the return of [xEventGroupWaitBits] and the store, no signal is
    pending and the desired temperature is still the old one. *)
Lemma stale_between_wake_up_and_store :
  let c := fine_final [Pass (irq_of SW1); ButtonsWoken Driver] fine_init in
  fine_reachable c /\
  no_edge_pending Driver (globals c) /\
  xButtonsEventGroupValue c Driver <> None /\
  value Driver HeatingLevel (globals c) = level_code Low /\
  value Driver DesiredTemperature (globals c) <> spec_desiredTemperature Low.
Proof.
  cbv zeta. split; [eexists; reflexivity|]. split; [reflexivity|].
  split; [discriminate|]. split; [reflexivity | discriminate].
Qed.

(** C8 (as the code has it). With the pass of a button task split where
    another task or a handler can run inside it, in every reachable state
    without a store past the diagnostic array in which a seat's button task
    is at its [xEventGroupWaitBits] and no signal is pending for it, the
    seat's desired temperature is the fixed mapping applied to its heating
    level. *)
Theorem C8_desired_follows_level_while_the_selector_is_idle c seat :
  fine_reachable c ->
  in_bounds (globals c) ->
  xButtonsEventGroupValue c seat = None ->
  no_edge_pending seat (globals c) ->
  exists l : Level,
    value seat HeatingLevel (globals c) = level_code l /\
    value seat DesiredTemperature (globals c) = spec_desiredTemperature l.
Proof.
  intros Hc _ Hidle Hp.
  assert (Hok : fine_seat_ok seat c)
    by (destruct (fine_reachable_ok c Hc); destruct seat; assumption).
  unfold fine_seat_ok in Hok. rewrite Hidle in Hok.
  destruct Hok as (H1 & _ & _ & H4).
  cbv zeta in *. specialize (H4 Hp). rewrite H4. clear H4.
  assert (Hl : value seat HeatingLevel (globals c) = 0 \/
               value seat HeatingLevel (globals c) = 1 \/
               value seat HeatingLevel (globals c) = 2 \/
               value seat HeatingLevel (globals c) = 3) by lia.
  destruct Hl as [-> | [-> | [-> | ->]]];
    [exists Off | exists Low | exists Medium | exists High]; split; reflexivity.
Qed.

(** A press for the passenger; its button task wakes, a press for the driver
    comes in between, and the passenger's task stores. *)
Lemma C8_desired_follows_level_while_the_selector_is_idle_witness :
  let c := fine_final [Pass (irq_of SW2); ButtonsWoken Passenger;
                       Pass (irq_of SW1); ButtonsUpdate Passenger] fine_init in
  fine_reachable c /\
  value Passenger HeatingLevel (globals c) = level_code Low /\
  exists l : Level,
    value Passenger HeatingLevel (globals c) = level_code l /\
    value Passenger DesiredTemperature (globals c) = spec_desiredTemperature l.
Proof.
  intros c.
  assert (Hc : fine_reachable c) by (eexists; reflexivity).
  split; [exact Hc|]. split; [reflexivity|].
  apply (C8_desired_follows_level_while_the_selector_is_idle c Passenger Hc);
    reflexivity.
Defined.
